(** * kuroko-ops / auto-claude: scheduler, worktree manager and QA gate

    A shallow embedding of the parts of the repository that the verified
    properties are about:

    - [implementation_plan] and [coordinator]: the plan model and the
      claim/release protocol of the swarm coordinator;
    - [pathlib], [subprocess], [Py]: the few library notions the worktree
      manager is written against (paths, command results, effects);
    - [WorktreeManager]: [src/auto-claude/worktree.py], method by method;
    - [GitModel]: a small executable model of the file system and of the
      git commands the manager issues, used to run the manager;
    - [Refusal]: the same with worktrees that git refuses to remove;
    - [qa]: the bounded review/fix loop with recurring-issue escalation.

    Definitions come first; the theorems follow in the second half. *)

From stdpp Require Import gmap strings list fin_maps.
From Stdlib Require Import Ascii ZArith Lia.

Local Open Scope string_scope.
Local Open Scope list_scope.

#[local] Set Warnings "-clear-no-such-hyp".

(** ** The plan model *)

Module implementation_plan.

(** Modelled from the spec: [implementation_plan.py] is imported by the
    tests but is not among the sources.  Section 3 of the specification
    gives the entities: a chunk has an id, a description, a service, a
    status and its declared write-set; a phase has a number, a name, its
    chunks and the phases it depends on. *)
Inductive ChunkStatus : Type :=
| PENDING
| IN_PROGRESS
| COMPLETED
| FAILED.

#[global] Instance ChunkStatus_eq_dec : EqDecision ChunkStatus.
Proof. solve_decision. Defined.

Record Chunk : Type := mkChunk {
  id : string;
  description : string;
  status : ChunkStatus;
  files_to_modify : list string;
  files_to_create : list string;
}.

(** Chunks are mutable objects shared between the plan and its callers:
    a phase holds references into a store of chunks. *)
Definition ChunkRef : Type := nat.

Record Phase : Type := mkPhase {
  phase : nat;
  name : string;
  chunks : list ChunkRef;
  depends_on : list nat;
}.

Record ImplementationPlan : Type := mkPlan {
  feature : string;
  phases : list Phase;
}.

Definition set_status (s : ChunkStatus) (c : Chunk) : Chunk :=
  {| id := id c;
     description := description c;
     status := s;
     files_to_modify := files_to_modify c;
     files_to_create := files_to_create c |}.

(** The declared write-set: the union of the two file lists. *)
Definition write_set (c : Chunk) : list string :=
  files_to_modify c ++ files_to_create c.

End implementation_plan.

(** ** The swarm coordinator *)

Module coordinator.

Import implementation_plan.

(** Modelled from the spec: [coordinator.py] is imported by
    [tests/test_parallel.py] but is not among the sources.  The records
    follow section 3, the operations section 4.2, and the field names the
    tests. *)
Inductive WorkerStatus : Type :=
| IDLE
| WORKING
| WS_COMPLETED
| WS_FAILED.

Record WorkerAssignment : Type := mkAssignment {
  worker_id : string;
  phase_id : nat;
  chunk_id : string;
  branch_name : string;
  worktree_path : string;
  wa_status : WorkerStatus;
  started_at : string;
  completed_at : option string;
}.

(** The coordinator's state together with the store of chunk objects its
    plan refers to. *)
Record SwarmCoordinator : Type := mkCoordinator {
  plan : option ImplementationPlan;
  claimed_files : gmap string string;
  workers : gmap string WorkerAssignment;
  max_workers : nat;
  heap : gmap ChunkRef Chunk;
}.

Definition with_claim (self : SwarmCoordinator)
    (cf : gmap string string) (ws : gmap string WorkerAssignment)
    (h : gmap ChunkRef Chunk) : SwarmCoordinator :=
  {| plan := plan self;
     claimed_files := cf;
     workers := ws;
     max_workers := max_workers self;
     heap := h |}.

(** (b) of [claim_chunk]: none of the files is in the claimed-files table. *)
Definition files_free (cf : gmap string string) (files : list string) : bool :=
  forallb (fun f => bool_decide (cf !! f = None)) files.

(** Every file of the list is entered for [worker]. *)
Definition claim_files (worker : string) (files : list string)
    (cf : gmap string string) : gmap string string :=
  foldr (fun f m => <[f := worker]> m) cf files.

(** Modelled from the spec: [claim_chunk] of section 4.2.  The check of the
    status and of the files and the three updates are one step.  [now] is
    the time the assignment is stamped with. *)
Definition claim_chunk (self : SwarmCoordinator) (worker : string)
    (ph : Phase) (chunk : ChunkRef) (path branch now : string)
    : bool * SwarmCoordinator :=
  match heap self !! chunk with
  | None => (false, self)
  | Some c =>
      if negb (bool_decide (status c = PENDING)) then (false, self)
      else if negb (files_free (claimed_files self) (write_set c)) then (false, self)
      else
        let a := {| worker_id := worker;
                    phase_id := phase ph;
                    chunk_id := id c;
                    branch_name := branch;
                    worktree_path := path;
                    wa_status := WORKING;
                    started_at := now;
                    completed_at := None |} in
        (true,
         with_claim self
           (claim_files worker (write_set c) (claimed_files self))
           (<[worker := a]> (workers self))
           (<[chunk := set_status IN_PROGRESS c]> (heap self)))
  end.

(** The status a released chunk ends in. *)
Definition final_status (success : bool) : ChunkStatus :=
  if success then COMPLETED else FAILED.

(** The chunk named [cid] gets status [s]; other chunks are left alone. *)
Definition mark (cid : string) (s : ChunkStatus) (c : Chunk) : Chunk :=
  if bool_decide (id c = cid) then set_status s c else c.

(** The files [worker] does not hold. *)
Definition release_files (worker : string) (cf : gmap string string)
    : gmap string string :=
  filter (fun kv => kv.2 <> worker) cf.

(** Modelled from the spec: [release_chunk] of section 4.2.  It returns
    nothing; a release for a worker without an assignment changes nothing.
    The chunk is named by its id, and the chunk of that id gets the final
    status wherever it is held. *)
Definition release_chunk (self : SwarmCoordinator) (worker cid : string)
    (success : bool) (output : string) : SwarmCoordinator :=
  match workers self !! worker with
  | None => self
  | Some _ =>
      with_claim self
        (release_files worker (claimed_files self))
        (delete worker (workers self))
        (mark cid (final_status success) <$> heap self)
  end.

End coordinator.

(** ** Python library notions used by the worktree manager *)

(** [str] methods, on Rocq strings. *)
Module str.

(** [s.split(sep)] for a one-character separator. *)
Fixpoint split (sep : Ascii.ascii) (s : string) : list string :=
  match s with
  | EmptyString => [EmptyString]
  | String c rest =>
      if Ascii.eqb c sep then EmptyString :: split sep rest
      else match split sep rest with
           | [] => [String c EmptyString]
           | w :: ws => String c w :: ws
           end
  end.

(** [s.startswith(pre)]. *)
Definition startswith (pre s : string) : bool := String.prefix pre s.

(** [s.split(sep, 1)[1]]: what follows the first separator ([None] stands
    for the IndexError of a string without one). *)
Fixpoint after_first (sep : Ascii.ascii) (s : string) : option string :=
  match s with
  | EmptyString => None
  | String c rest => if Ascii.eqb c sep then Some rest else after_first sep rest
  end.

(** [sub in s]. *)
Fixpoint contains (sub s : string) : bool :=
  String.prefix sub s ||
  match s with
  | EmptyString => false
  | String _ rest => contains sub rest
  end.

(** [c in s] for a character [c]. *)
Fixpoint has_char (c : Ascii.ascii) (s : string) : bool :=
  match s with
  | EmptyString => false
  | String d rest => Ascii.eqb d c || has_char c rest
  end.

Definition is_space (c : Ascii.ascii) : bool :=
  let n := Ascii.nat_of_ascii c in
  Nat.eqb n 32 || (Nat.leb 9 n && Nat.leb n 13).

Fixpoint lstrip (s : string) : string :=
  match s with
  | EmptyString => EmptyString
  | String c rest => if is_space c then lstrip rest else s
  end.

Fixpoint rstrip (s : string) : string :=
  match s with
  | EmptyString => EmptyString
  | String c rest =>
      match rstrip rest with
      | EmptyString => if is_space c then EmptyString else String c EmptyString
      | r => String c r
      end
  end.

(** [s.strip()]. *)
Definition strip (s : string) : string := rstrip (lstrip s).

End str.

(** [pathlib.Path], for absolute paths: the list of components. *)
Module pathlib.

Definition Path : Type := list string.

(** [p / name] for a [name] that is a plain directory name: one
    component is appended.  What Python does for every name is [truediv]
    below; the two agree on the plain names. *)
Definition div (p : Path) (name : string) : Path := p ++ [name].

(** [p.name]. *)
Definition name (p : Path) : string := List.last p "".

(** [str(p)]. *)
Definition to_str (p : Path) : string :=
  match p with
  | [] => "/"
  | _ => foldr (fun c acc => "/" +:+ c +:+ acc) "" p
  end.

(** [Path(s)]: the non-empty components of [s] other than ["."]. *)
Definition of_str (s : string) : Path :=
  List.filter (fun c => negb (String.eqb c "" || String.eqb c "."))
    (str.split "/"%char s).

(** [p / name] as Python has it, for an absolute [p]: a [name] that
    starts with a slash replaces [p]; otherwise the components of [name]
    are appended, the empty ones and ["."] dropped, [".."] kept. *)
Definition truediv (p : Path) (name : string) : Path :=
  if str.startswith "/" name then of_str name else p ++ of_str name.

(** A plain directory name: a single component that names a child of the
    directory, so neither empty nor ["."] nor [".."], and without a
    slash. *)
Definition plain (n : string) : Prop :=
  n <> "" /\ n <> "." /\ n <> ".." /\ str.has_char "/"%char n = false.

End pathlib.

Module subprocess.

(** [subprocess.CompletedProcess], as [capture_output] and [text] give it. *)
Record CompletedProcess : Type := mkCompleted {
  returncode : Z;
  stdout : string;
  stderr : string;
}.

End subprocess.

(** ** Effects of the worktree manager *)

Module Py.

Import pathlib subprocess.

(** Exceptions: the manager's own [WorktreeError] and the [OSError]s of the
    library calls. *)
Inductive Exn : Type :=
| WorktreeError (msg : string)
| OSError (msg : string).

(** A [dict] with string keys, in insertion order. *)
Definition Dict (V : Type) : Type := list (string * V).

Fixpoint dict_get {V} (k : string) (d : Dict V) : option V :=
  match d with
  | [] => None
  | (k', v) :: rest => if String.eqb k' k then Some v else dict_get k rest
  end.

(** [d[k] = v]: an existing key keeps its place, a new one goes last. *)
Fixpoint dict_set {V} (k : string) (v : V) (d : Dict V) : Dict V :=
  match d with
  | [] => [(k, v)]
  | (k', v') :: rest =>
      if String.eqb k' k then (k', v) :: rest else (k', v') :: dict_set k v rest
  end.

(** [d.pop(k, None)], the value dropped.  Keys are unique in a [dict], so
    dropping the pairs with key [k] drops the one pair there can be. *)
Definition dict_pop {V} (k : string) (d : Dict V) : Dict V :=
  List.filter (fun kv => negb (String.eqb kv.1 k)) d.


(** [WorktreeInfo] of [worktree.py]. *)
Record WorktreeInfo : Type := mkInfo {
  path : Path;
  branch : string;
  base_branch : string;
  is_active : bool;
}.

(** The git command lines the manager runs, one constructor per argument
    list passed to [_run_git]:
    - [worktree_list_porcelain]: [worktree list --porcelain]
    - [worktree_remove_force p]: [worktree remove --force str(p)]
    - [worktree_prune]: [worktree prune]
    - [branch_D b]: [branch -D b]
    - [worktree_add_b b p start]: [worktree add -b b str(p) start]
    - [rev_parse_abbrev_ref_HEAD]: [rev-parse --abbrev-ref HEAD]
    - [checkout b]: [checkout b]
    - [merge_no_ff b m]: [merge --no-ff b -m m]
    - [merge_abort]: [merge --abort]
    - [add_all]: [add .]
    - [commit_m m]: [commit -m m] *)
Inductive GitCmd : Type :=
| worktree_list_porcelain
| worktree_remove_force (p : Path)
| worktree_prune
| branch_D (b : string)
| worktree_add_b (b : string) (p : Path) (start : string)
| rev_parse_abbrev_ref_HEAD
| checkout (b : string)
| merge_no_ff (b : string) (m : string)
| merge_abort
| add_all
| commit_m (m : string).

(** What the manager asks of its environment; the index is the type of the
    answer.  A library call that can raise answers with the exception. *)
Inductive Event : Type -> Type :=
| Subprocess (cwd : Path) (cmd : GitCmd) : Event (Exn + CompletedProcess)
| Exists (p : Path) : Event bool
| IsDir (p : Path) : Event bool
| Mkdir (p : Path) : Event (Exn + unit)
| Iterdir (p : Path) : Event (Exn + list Path)
| Rmtree (p : Path) : Event unit
| GetActive : Event (Dict WorktreeInfo)
| SetActive (d : Dict WorktreeInfo) : Event unit
| Acquire : Event unit
| Release : Event unit.

(** Method bodies: they return, raise, or ask the environment and go on
    with its answer. *)
Inductive Prog (A : Type) : Type :=
| Ret (a : A)
| Raise (e : Exn)
| Vis {R : Type} (e : Event R) (k : R -> Prog A).

Arguments Ret {A} a.
Arguments Raise {A} e.
Arguments Vis {A R} e k.

Fixpoint bind {A B} (m : Prog A) (f : A -> Prog B) : Prog B :=
  match m with
  | Ret a => f a
  | Raise e => Raise e
  | Vis e k => Vis e (fun r => bind (k r) f)
  end.

(** [try: m finally: h]. *)
Fixpoint finally {A} (m : Prog A) (h : Prog unit) : Prog A :=
  match m with
  | Ret a => bind h (fun _ => Ret a)
  | Raise e => bind h (fun _ => Raise e)
  | Vis e k => Vis e (fun r => finally (k r) h)
  end.

(** How a run ends: the method returned, raised, or cannot go on. *)
Inductive Outcome (S A : Type) : Type :=
| Returned (a : A) (s : S)
| Raised (e : Exn) (s : S)
| Stuck (s : S).

Arguments Returned {S A} a s.
Arguments Raised {S A} e s.
Arguments Stuck {S A} s.

(** An environment with states [S]: its answer to a request and the state
    after it, or nothing when it has no answer. *)
Definition Handler (S : Type) : Type :=
  forall R : Type, Event R -> S -> option (R * S).

(** Running a method body in an environment. *)
Fixpoint interp {S A} (h : Handler S) (m : Prog A) (s : S) : Outcome S A :=
  match m with
  | Ret a => Returned a s
  | Raise e => Raised e s
  | Vis e k =>
      match h _ e s with
      | Some (r, s') => interp h (k r) s'
      | None => Stuck s
      end
  end.

(** A call that answers, and one that may raise instead. *)
Definition ask {R} (e : Event R) : Prog R := Vis e Ret.

Definition call {R} (e : Event (Exn + R)) : Prog R :=
  Vis e (fun r => match r with inl x => Raise x | inr v => Ret v end).

(** [for x in xs: body x]. *)
Fixpoint for_each {X} (xs : list X) (body : X -> Prog unit) : Prog unit :=
  match xs with
  | [] => Ret tt
  | x :: rest => bind (body x) (fun _ => for_each rest body)
  end.

(** [async with lock: body]. *)
Definition with_lock {A} (body : Prog A) : Prog A :=
  bind (ask Acquire) (fun _ => finally body (ask Release)).

(** The body neither takes nor releases the merge lock. *)
Fixpoint lockless {A} (m : Prog A) : Prop :=
  match m with
  | Vis e k =>
      match e with
      | Acquire | Release => False
      | _ => True
      end /\ forall r, lockless (k r)
  | _ => True
  end.

End Py.

Declare Scope prog_scope.
Delimit Scope prog_scope with prog.
Notation "x <- m ;; k" := (Py.bind m (fun x => k))
  (at level 100, m at next level, right associativity) : prog_scope.
Notation "m ;; k" := (Py.bind m (fun _ => k))
  (at level 100, right associativity) : prog_scope.

(** ** [src/auto-claude/worktree.py] *)

Module WorktreeManager.

Import pathlib subprocess Py.
Local Open Scope prog_scope.

(** Standard name for the staging worktree. *)
Definition STAGING_WORKTREE_NAME : string := "auto-claude".

(** The fields [__init__] sets once.  The dictionary [_active_worktrees]
    and the lock [_merge_lock] change over time and are reached through
    [GetActive], [SetActive], [Acquire] and [Release].  The calls of [print]
    have no part in any result and are left out. *)
Record Self : Type := mkSelf {
  project_dir : Path;
  base_branch : string;
}.

(** [self.worktrees_dir].  The methods below write [self.worktrees_dir /
    name] as [div]: they are embedded for [plain] names, on which [div] is
    Python's [/]; the statements about a [name] are for plain names. *)
Definition worktrees_dir (self : Self) : Path :=
  div (project_dir self) ".worktrees".

(** [self._active_worktrees.get(name)] *)
Definition active_get (name : string) : Prog (option WorktreeInfo) :=
  d <- ask GetActive ;; Ret (dict_get name d).

(** [self._active_worktrees[name] = info] *)
Definition active_set (name : string) (info : WorktreeInfo) : Prog unit :=
  d <- ask GetActive ;; ask (SetActive (dict_set name info d)).

(** [self._active_worktrees.pop(name, None)] *)
Definition active_pop (name : string) : Prog unit :=
  d <- ask GetActive ;; ask (SetActive (dict_pop name d)).

(** [_run_git(args, cwd)]: [cwd or self.project_dir]. *)
Definition _run_git (self : Self) (args : GitCmd) (cwd : option Path)
    : Prog CompletedProcess :=
  call (Subprocess (default (project_dir self) cwd) args).

(** The body of the loop of [_cleanup_stale_worktrees] over the lines of
    [worktree list --porcelain]: a line that starts with ["worktree "]
    adds the path after the first blank. *)
Definition add_registered (registered_paths : gset Path) (line : string)
    : gset Path :=
  if str.startswith "worktree " line
  then match str.after_first " "%char line with
       | Some rest => {[ of_str rest ]} ∪ registered_paths
       | None => registered_paths
       end
  else registered_paths.

(** The set of registered paths that loop builds. *)
Definition registered_paths_of (out : string) : gset Path :=
  foldl add_registered ∅ (str.split (Ascii.ascii_of_nat 10) out).

(** The body of the loop of [_cleanup_stale_worktrees] over the items of
    [.worktrees]. *)
Definition cleanup_item (self : Self) (registered_paths : gset Path)
    (item : Path) : Prog unit :=
  d <- ask (IsDir item) ;;
  if d then
    if String.eqb (name item) STAGING_WORKTREE_NAME then Ret tt
    else if negb (bool_decide (item ∈ registered_paths))
    then ask (Rmtree item)
    else (_run_git self (worktree_remove_force item) None ;; Ret tt)
  else Ret tt.

Definition _cleanup_stale_worktrees (self : Self) : Prog unit :=
  ex <- ask (Exists (worktrees_dir self)) ;;
  if negb ex then Ret tt
  else
    result <- _run_git self worktree_list_porcelain None ;;
    let registered_paths := registered_paths_of (stdout result) in
    items <- call (Iterdir (worktrees_dir self)) ;;
    for_each items (cleanup_item self registered_paths) ;;
    _run_git self worktree_prune None ;;
    Ret tt.

Definition setup (self : Self) : Prog unit :=
  call (Mkdir (worktrees_dir self)) ;;
  _cleanup_stale_worktrees self.

Definition create (self : Self) (name : string) (branch_name : option string)
    : Prog WorktreeInfo :=
  let branch_name :=
    match branch_name with
    | None => "auto-claude/" +:+ name
    | Some b => b
    end in
  let worktree_path := div (worktrees_dir self) name in
  ex <- ask (Exists worktree_path) ;;
  (if ex then _run_git self (worktree_remove_force worktree_path) None ;; Ret tt
   else Ret tt) ;;
  _run_git self (branch_D branch_name) None ;;
  result <- _run_git self
              (worktree_add_b branch_name worktree_path (base_branch self)) None ;;
  if negb (returncode result =? 0)%Z
  then Raise (WorktreeError ("Failed to create worktree: " +:+ stderr result))
  else
    let info := mkInfo worktree_path branch_name (base_branch self) true in
    active_set name info ;;
    Ret info.

Definition get_or_create_staging (self : Self) (spec_name : string)
    : Prog WorktreeInfo :=
  let staging_path := div (worktrees_dir self) STAGING_WORKTREE_NAME in
  let branch_name := "auto-claude/" +:+ spec_name in
  ex <- ask (Exists staging_path) ;;
  if ex then
    result <- _run_git self rev_parse_abbrev_ref_HEAD (Some staging_path) ;;
    if (returncode result =? 0)%Z then
      let existing_branch := str.strip (stdout result) in
      let info := mkInfo staging_path existing_branch (base_branch self) true in
      active_set STAGING_WORKTREE_NAME info ;;
      Ret info
    else create self STAGING_WORKTREE_NAME (Some branch_name)
  else create self STAGING_WORKTREE_NAME (Some branch_name).

Definition staging_exists (self : Self) : Prog bool :=
  ask (Exists (div (worktrees_dir self) STAGING_WORKTREE_NAME)).

Definition get_staging_path (self : Self) : Prog (option Path) :=
  let staging_path := div (worktrees_dir self) STAGING_WORKTREE_NAME in
  ex <- ask (Exists staging_path) ;;
  if ex then Ret (Some staging_path) else Ret None.

Definition get_staging_info (self : Self) : Prog (option WorktreeInfo) :=
  let staging_path := div (worktrees_dir self) STAGING_WORKTREE_NAME in
  ex <- ask (Exists staging_path) ;;
  if negb ex then Ret None
  else
    result <- _run_git self rev_parse_abbrev_ref_HEAD (Some staging_path) ;;
    if negb (returncode result =? 0)%Z then Ret None
    else
      let branch := str.strip (stdout result) in
      let info := mkInfo staging_path branch (base_branch self) true in
      active_set STAGING_WORKTREE_NAME info ;;
      Ret (Some info).

Definition remove (self : Self) (name : string) (delete_branch : bool)
    : Prog unit :=
  info <- active_get name ;;
  let worktree_path :=
    match info with
    | Some i => path i
    | None => div (worktrees_dir self) name
    end in
  ex <- ask (Exists worktree_path) ;;
  (if ex then
     result <- _run_git self (worktree_remove_force worktree_path) None ;;
     if (returncode result =? 0)%Z then Ret tt
     else ask (Rmtree worktree_path)
   else Ret tt) ;;
  (match info with
   | Some i =>
       if delete_branch then _run_git self (branch_D (branch i)) None ;; Ret tt
       else Ret tt
   | None => Ret tt
   end) ;;
  active_pop name ;;
  _run_git self worktree_prune None ;;
  Ret tt.

Definition remove_staging (self : Self) (delete_branch : bool) : Prog unit :=
  remove self STAGING_WORKTREE_NAME delete_branch.

Definition _do_merge (self : Self) (info : WorktreeInfo) (name : string)
    (delete_after : bool) : Prog bool :=
  result <- _run_git self (checkout (base_branch self)) None ;;
  if negb (returncode result =? 0)%Z then Ret false
  else
    result <- _run_git self
                (merge_no_ff (branch info)
                   ("auto-claude: Merge " +:+ branch info)) None ;;
    if negb (returncode result =? 0)%Z then
      _run_git self merge_abort None ;;
      Ret false
    else
      (if delete_after then remove self name true else Ret tt) ;;
      Ret true.

Definition merge (self : Self) (name : string) (delete_after : bool)
    : Prog bool :=
  info <- active_get name ;;
  info <- match info with
          | Some i => Ret (Some i)
          | None =>
              if String.eqb name STAGING_WORKTREE_NAME
              then get_staging_info self
              else Ret None
          end ;;
  match info with
  | None => Ret false
  | Some info => with_lock (_do_merge self info name delete_after)
  end.

Definition merge_sync (self : Self) (name : string) (delete_after : bool)
    : Prog bool :=
  info <- active_get name ;;
  info <- match info with
          | Some i => Ret (Some i)
          | None =>
              if String.eqb name STAGING_WORKTREE_NAME
              then get_staging_info self
              else Ret None
          end ;;
  match info with
  | None => Ret false
  | Some info => _do_merge self info name delete_after
  end.

Definition merge_staging (self : Self) (delete_after : bool) : Prog bool :=
  merge_sync self STAGING_WORKTREE_NAME delete_after.

Definition commit_in_staging (self : Self) (message : string) : Prog bool :=
  staging_path <- get_staging_path self ;;
  match staging_path with
  | None => Ret false
  | Some staging_path =>
      _run_git self add_all (Some staging_path) ;;
      result <- _run_git self (commit_m message) (Some staging_path) ;;
      if (returncode result =? 0)%Z then Ret true
      else if str.contains "nothing to commit" (stdout result +:+ stderr result)
      then Ret true
      else Ret false
  end.

Definition get_info (name : string) : Prog (option WorktreeInfo) :=
  active_get name.

Definition list_worktrees : Prog (list WorktreeInfo) :=
  d <- ask GetActive ;; Ret (map snd d).


End WorktreeManager.

(** ** The environment: a model of the file system and of git

    The manager talks to the file system below [project_dir] and to git.
    The model keeps what the manager can observe or change:
    - the directory [.worktrees] and its children, each a plain file or a
      directory with its files and, for a worktree, its index;
    - git's own list of linked worktrees (name under [.worktrees] and
      branch checked out there), which can disagree with the disk after a
      crash or a manual deletion;
    - the branches, each with the content of its tip and the content of the
      commit it last shared with the branch it is merged into;
    - the branch checked out in the main working tree and whether a merge
      stopped there on conflicts.
    A file is the unit of merging: two sides that changed the same file
    differently conflict.  Locked worktrees, submodules, detached heads,
    uncommitted changes of the main working tree and failures of the
    operating system are outside the model; a request the model has no
    answer for leaves the run [Stuck]. *)

Module GitModel.

Import pathlib subprocess Py.

Abbreviation Tree := (gmap string string).

Inductive Entry : Type :=
| Dir (files index : Tree)
| File.

Record Branch : Type := mkBranch {
  tip : Tree;
  fork : Tree;
}.

Record World : Type := mkWorld {
  worktrees : option (gmap string Entry);
  registered : gmap string string;
  branches : gmap string Branch;
  HEAD : string;
  MERGE_HEAD : option string;
  hook : option string;
}.

Definition set_worktrees (v : option (gmap string Entry)) (w : World) : World :=
  mkWorld v (registered w) (branches w) (HEAD w) (MERGE_HEAD w) (hook w).
Definition set_registered (v : gmap string string) (w : World) : World :=
  mkWorld (worktrees w) v (branches w) (HEAD w) (MERGE_HEAD w) (hook w).
Definition set_branches (v : gmap string Branch) (w : World) : World :=
  mkWorld (worktrees w) (registered w) v (HEAD w) (MERGE_HEAD w) (hook w).
Definition set_HEAD (v : string) (w : World) : World :=
  mkWorld (worktrees w) (registered w) (branches w) v (MERGE_HEAD w) (hook w).
Definition set_MERGE_HEAD (v : option string) (w : World) : World :=
  mkWorld (worktrees w) (registered w) (branches w) (HEAD w) v (hook w).

(** The child [n] of [.worktrees], if there is one. *)
Definition entry (w : World) (n : string) : option Entry :=
  worktrees w ≫= (fun m => m !! n).

Definition is_dir (e : option Entry) : bool :=
  match e with
  | Some (Dir _ _) => true
  | _ => false
  end.

(** Where a path lies relative to the project. *)
Inductive Loc : Type :=
| InProject
| InRoot
| Child (n : string)
| Elsewhere.

Fixpoint strip_prefix (pre p : Path) : option Path :=
  match pre with
  | [] => Some p
  | c :: pre' =>
      match p with
      | [] => None
      | d :: p' => if String.eqb c d then strip_prefix pre' p' else None
      end
  end.

Definition locate (repo p : Path) : Loc :=
  match strip_prefix repo p with
  | Some [] => InProject
  | Some [d] => if String.eqb d ".worktrees" then InRoot else Elsewhere
  | Some [d; n] => if String.eqb d ".worktrees" then Child n else Elsewhere
  | _ => Elsewhere
  end.

(** The working tree a git command started in [cwd] acts on: the main one,
    or the linked worktree [n] on branch [b]. *)
Inductive Ctx : Type :=
| Main
| Linked (n b : string) (files index : Tree).

(** The answer to starting a process in a directory: the context, an
    [OSError] for a path that is no directory, nothing for a directory the
    model does not know.  A directory below [.worktrees] that git has no
    record of is part of the main working tree. *)
Definition context (repo : Path) (w : World) (cwd : Path) : option (Exn + Ctx) :=
  match locate repo cwd with
  | InProject => Some (inr Main)
  | InRoot =>
      match worktrees w with
      | Some _ => Some (inr Main)
      | None => Some (inl (OSError "No such file or directory"))
      end
  | Child n =>
      match entry w n with
      | Some (Dir f i) =>
          match registered w !! n with
          | Some b => Some (inr (Linked n b f i))
          | None => Some (inr Main)
          end
      | Some File => Some (inl (OSError "Not a directory"))
      | None => Some (inl (OSError "No such file or directory"))
      end
  | Elsewhere => None
  end.

(** Three-way merge of one file: [None] is a conflict. *)
Definition pick (a o t : option string) : option (option string) :=
  if decide (o = t) then Some o
  else if decide (t = a) then Some o
  else if decide (o = a) then Some t
  else None.

Definition conflicting (a o t : Tree) (f : string) : Prop :=
  pick (a !! f) (o !! f) (t !! f) = None.

#[global] Instance conflicting_dec a o t f : Decision (conflicting a o t f).
Proof. unfold conflicting. apply _. Defined.

(** Three-way merge of trees with ancestor [a]: the merged tree, or [None]
    when a file conflicts. *)
Definition merge3 (a o t : Tree) : option Tree :=
  let all := a ∪ o ∪ t in
  if decide (map_Exists (fun f _ => conflicting a o t f) all) then None
  else Some (map_imap (fun f _ => default None (pick (a !! f) (o !! f) (t !! f))) all).

(** Some branch is checked out: in the main working tree or in a linked
    worktree git has a record of. *)
Definition checked_out (w : World) (b : string) : Prop :=
  HEAD w = b \/ map_Exists (fun _ v => v = b) (registered w).

#[global] Instance checked_out_dec w b : Decision (checked_out w b).
Proof. unfold checked_out. apply _. Defined.

Definition nl : string := String (Ascii.ascii_of_nat 10) EmptyString.

Definition ok (out : string) : CompletedProcess := mkCompleted 0 out "".
Definition failed (rc : Z) (err : string) : CompletedProcess := mkCompleted rc "" err.

(** One record of [worktree list --porcelain]: three lines and an empty
    one. *)
Definition porcelain_record (p : Path) (b : string) : string :=
  ("worktree " +:+ to_str p) +:+ nl +:+
  "HEAD 0000000000000000000000000000000000000000" +:+ nl +:+
  ("branch refs/heads/" +:+ b) +:+ nl +:+
  nl.

Definition porcelain (repo : Path) (w : World) : string :=
  porcelain_record repo (HEAD w) +:+
  foldr (fun nb acc =>
           porcelain_record (div (div repo ".worktrees") nb.1) nb.2 +:+ acc)
        "" (map_to_list (registered w)).

(** [git worktree remove --force p] *)
Definition git_worktree_remove (repo : Path) (p : Path) (w : World)
    : CompletedProcess * World :=
  match locate repo p with
  | Child n =>
      match registered w !! n with
      | Some _ =>
          (ok "",
           set_registered (delete n (registered w))
             (set_worktrees (delete n <$> worktrees w) w))
      | None => (failed 128 ("fatal: '" +:+ to_str p +:+ "' is not a working tree"), w)
      end
  | _ => (failed 128 ("fatal: '" +:+ to_str p +:+ "' is not a working tree"), w)
  end.

(** [git worktree prune]: the records whose directory is gone are dropped. *)
Definition git_worktree_prune (w : World) : CompletedProcess * World :=
  (ok "",
   set_registered (filter (fun nb => is_dir (entry w nb.1) = true) (registered w)) w).

(** [git branch -D b] *)
Definition git_branch_D (b : string) (w : World) : CompletedProcess * World :=
  match branches w !! b with
  | None => (failed 1 ("error: branch '" +:+ b +:+ "' not found"), w)
  | Some _ =>
      if decide (checked_out w b)
      then (failed 1 ("error: cannot delete branch '" +:+ b +:+ "' used by worktree"), w)
      else (ok ("Deleted branch " +:+ b +:+ nl),
            set_branches (delete b (branches w)) w)
  end.

(** [git worktree add -b b p start] *)
Definition git_worktree_add (repo : Path) (b : string) (p : Path)
    (start : string) (w : World) : CompletedProcess * World :=
  match locate repo p with
  | Child n =>
      match branches w !! b, branches w !! start with
      | Some _, _ =>
          (failed 255 ("fatal: a branch named '" +:+ b +:+ "' already exists"), w)
      | None, None =>
          (failed 128 ("fatal: invalid reference: " +:+ start), w)
      | None, Some s =>
          if decide (is_Some (registered w !! n))
          then (failed 128 ("fatal: '" +:+ to_str p +:+ "' is a missing but already registered worktree"), w)
          else
            let fresh :=
              match entry w n with
              | None => true
              | Some (Dir f _) => bool_decide (f = ∅)
              | Some File => false
              end in
            if fresh
            then (ok "",
                  set_worktrees
                    (Some (<[n := Dir (tip s) (tip s)]> (default ∅ (worktrees w))))
                    (set_registered (<[n := b]> (registered w))
                       (set_branches (<[b := mkBranch (tip s) (tip s)]> (branches w)) w)))
            else (failed 128 ("fatal: '" +:+ to_str p +:+ "' already exists"), w)
      end
  | _ => (failed 128 ("fatal: could not create directory of '" +:+ to_str p +:+ "'"), w)
  end.

(** [git checkout b] in the main working tree. *)
Definition git_checkout (b : string) (w : World) : CompletedProcess * World :=
  match MERGE_HEAD w, branches w !! b with
  | Some _, _ => (failed 1 "error: you need to resolve your current index first", w)
  | None, None =>
      (failed 1 ("error: pathspec '" +:+ b +:+ "' did not match any file(s) known to git"), w)
  | None, Some _ =>
      if decide (HEAD w = b) then (mkCompleted 0 "" ("Already on '" +:+ b +:+ "'"), w)
      else if decide (map_Exists (fun _ v => v = b) (registered w))
      then (failed 128 ("fatal: '" +:+ b +:+ "' is already used by worktree"), w)
      else (mkCompleted 0 "" ("Switched to branch '" +:+ b +:+ "'"), set_HEAD b w)
  end.

(** [git merge --no-ff b -m m] in the main working tree. *)
Definition git_merge (b : string) (w : World) : CompletedProcess * World :=
  match MERGE_HEAD w, branches w !! HEAD w, branches w !! b with
  | Some _, _, _ =>
      (failed 128 "fatal: You have not concluded your merge (MERGE_HEAD exists).", w)
  | None, None, _ => (failed 128 "fatal: bad revision 'HEAD'", w)
  | None, Some _, None =>
      (failed 1 ("merge: " +:+ b +:+ " - not something we can merge"), w)
  | None, Some ours, Some theirs =>
      match merge3 (fork theirs) (tip ours) (tip theirs) with
      | None =>
          (mkCompleted 1
             ("Automatic merge failed; fix conflicts and then commit the result." +:+ nl)
             "",
           set_MERGE_HEAD (Some b) w)
      | Some merged =>
          (ok ("Merge made by the 'ort' strategy." +:+ nl),
           set_branches
             (<[HEAD w := mkBranch merged (fork ours)]>
                (<[b := mkBranch (tip theirs) (tip theirs)]> (branches w)))
             w)
      end
  end.

(** [git merge --abort] in the main working tree. *)
Definition git_merge_abort (w : World) : CompletedProcess * World :=
  match MERGE_HEAD w with
  | Some _ => (ok "", set_MERGE_HEAD None w)
  | None => (failed 128 "fatal: There is no merge to abort (MERGE_HEAD missing).", w)
  end.

(** [git add .] *)
Definition git_add (ctx : Ctx) (w : World) : CompletedProcess * World :=
  match ctx with
  | Main => (ok "", w)
  | Linked n b f _ =>
      (ok "", set_worktrees (<[n := Dir f f]> <$> worktrees w) w)
  end.

(** [git commit -m m]: a rejecting hook comes first, then the check that
    there is something to commit. *)
Definition git_commit (ctx : Ctx) (w : World) : CompletedProcess * World :=
  match hook w with
  | Some msg => (failed 1 msg, w)
  | None =>
      match ctx with
      | Main =>
          (mkCompleted 1
             ("On branch " +:+ HEAD w +:+ nl +:+
              "nothing to commit, working tree clean" +:+ nl) "", w)
      | Linked n b f i =>
          match branches w !! b with
          | None => (failed 128 "fatal: could not parse HEAD", w)
          | Some br =>
              if decide (i = tip br)
              then (mkCompleted 1
                      ("On branch " +:+ b +:+ nl +:+
                       "nothing to commit, working tree clean" +:+ nl) "", w)
              else (ok ("[" +:+ b +:+ "] commit" +:+ nl),
                    set_branches (<[b := mkBranch i (fork br)]> (branches w)) w)
          end
      end
  end.

(** A git command started in context [ctx]; [None] for a command the model
    does not follow in that context. *)
Definition git (repo : Path) (ctx : Ctx) (cmd : GitCmd) (w : World)
    : option (CompletedProcess * World) :=
  match cmd, ctx with
  | worktree_list_porcelain, _ => Some (ok (porcelain repo w), w)
  | worktree_remove_force p, _ => Some (git_worktree_remove repo p w)
  | worktree_prune, _ => Some (git_worktree_prune w)
  | branch_D b, _ => Some (git_branch_D b w)
  | worktree_add_b b p start, _ => Some (git_worktree_add repo b p start w)
  | rev_parse_abbrev_ref_HEAD, Main => Some (ok (HEAD w +:+ nl), w)
  | rev_parse_abbrev_ref_HEAD, Linked _ b _ _ => Some (ok (b +:+ nl), w)
  | checkout b, Main => Some (git_checkout b w)
  | merge_no_ff b _, Main => Some (git_merge b w)
  | merge_abort, Main => Some (git_merge_abort w)
  | add_all, _ => Some (git_add ctx w)
  | commit_m _, _ => Some (git_commit ctx w)
  | _, _ => None
  end.

(** The state a method runs in: the two mutable fields of the manager and
    the world. *)
Record State : Type := mkState {
  _active_worktrees : Dict WorktreeInfo;
  _merge_lock : bool;
  world : World;
}.

Definition set_world (w : World) (s : State) : State :=
  mkState (_active_worktrees s) (_merge_lock s) w.
Definition set_active (d : Dict WorktreeInfo) (s : State) : State :=
  mkState d (_merge_lock s) (world s).
Definition set_lock (b : bool) (s : State) : State :=
  mkState (_active_worktrees s) b (world s).

Definition fs_exists (repo : Path) (w : World) (p : Path) : option bool :=
  match locate repo p with
  | InProject => Some true
  | InRoot => Some (bool_decide (is_Some (worktrees w)))
  | Child n => Some (bool_decide (is_Some (entry w n)))
  | Elsewhere => None
  end.

Definition fs_is_dir (repo : Path) (w : World) (p : Path) : option bool :=
  match locate repo p with
  | InProject => Some true
  | InRoot => Some (bool_decide (is_Some (worktrees w)))
  | Child n => Some (is_dir (entry w n))
  | Elsewhere => None
  end.

(** [p.mkdir(exist_ok=True)] *)
Definition fs_mkdir (repo : Path) (w : World) (p : Path)
    : option ((Exn + unit) * World) :=
  match locate repo p with
  | InProject => Some (inr tt, w)
  | InRoot => Some (inr tt, set_worktrees (Some (default ∅ (worktrees w))) w)
  | Child n =>
      match worktrees w with
      | None => Some (inl (OSError "No such file or directory"), w)
      | Some m =>
          match m !! n with
          | None => Some (inr tt, set_worktrees (Some (<[n := Dir ∅ ∅]> m)) w)
          | Some (Dir _ _) => Some (inr tt, w)
          | Some File => Some (inl (OSError "File exists"), w)
          end
      end
  | Elsewhere => None
  end.

(** [p.iterdir()], followed for [.worktrees] only. *)
Definition fs_iterdir (repo : Path) (w : World) (p : Path)
    : option (Exn + list Path) :=
  match locate repo p with
  | InRoot =>
      match worktrees w with
      | Some m => Some (inr (map (fun ne => div p ne.1) (map_to_list m)))
      | None => Some (inl (OSError "No such file or directory"))
      end
  | _ => None
  end.

(** [shutil.rmtree(p, ignore_errors=True)] *)
Definition fs_rmtree (repo : Path) (w : World) (p : Path) : option World :=
  match locate repo p with
  | InRoot => Some (set_worktrees None w)
  | Child n =>
      if is_dir (entry w n)
      then Some (set_worktrees (delete n <$> worktrees w) w)
      else Some w
  | _ => None
  end.

(** The environment's answer to one request; [None] when the run cannot go
    on: the lock is held, or the request is outside the model. *)
Definition handle (repo : Path) {R} (e : Event R) (s : State)
    : option (R * State) :=
  match e in Event R return option (R * State) with
  | Subprocess cwd cmd =>
      match context repo (world s) cwd with
      | None => None
      | Some (inl x) => Some (inl x, s)
      | Some (inr ctx) =>
          match git repo ctx cmd (world s) with
          | None => None
          | Some (r, w') => Some (inr r, set_world w' s)
          end
      end
  | Exists p => (fun b => (b, s)) <$> fs_exists repo (world s) p
  | IsDir p => (fun b => (b, s)) <$> fs_is_dir repo (world s) p
  | Mkdir p => (fun rw => (rw.1, set_world rw.2 s)) <$> fs_mkdir repo (world s) p
  | Iterdir p => (fun r => (r, s)) <$> fs_iterdir repo (world s) p
  | Rmtree p => (fun w' => (tt, set_world w' s)) <$> fs_rmtree repo (world s) p
  | GetActive => Some (_active_worktrees s, s)
  | SetActive d => Some (tt, set_active d s)
  | Acquire => if _merge_lock s then None else Some (tt, set_lock true s)
  | Release => Some (tt, set_lock false s)
  end.

(** Running a method body on the repository at [repo]. *)
Definition exec {A} (repo : Path) (m : Prog A) (s : State) : Outcome State A :=
  interp (@handle repo) m s.

(** The git commands a run starts, in order, each with the directory it is
    started in and whether the merge lock is held at that moment. *)
Fixpoint commands {A} (repo : Path) (m : Prog A) (s : State)
    : list (bool * Path * GitCmd) :=
  match m with
  | Vis e k =>
      match handle repo e s with
      | Some (r, s') =>
          match e with
          | Subprocess cwd cmd => [(_merge_lock s, cwd, cmd)]
          | _ => []
          end ++ commands repo (k r) s'
      | None => []
      end
  | _ => []
  end.

(** A method of the manager [self], run on the repository at
    [self.project_dir]. *)
Definition run {A} (self : WorktreeManager.Self) (m : Prog A) (s : State)
    : Outcome State A :=
  exec (WorktreeManager.project_dir self) m s.

End GitModel.

(** ** Worktrees that git refuses to remove

    [git worktree remove --force] fails on a worktree that is locked and
    on one whose directory has lost its [.git] link, and
    [git worktree prune] keeps the record of a locked worktree and drops
    that of a directory without its link.  The model above has no such
    worktrees.  Here they are given by [trouble], a table from sandbox
    names to what is wrong with them; the two commands answer
    accordingly, and everything else is as above.  With an empty table
    this is the model above. *)

Module Refusal.

Import pathlib subprocess Py GitModel.

Inductive Trouble : Type :=
| Locked
| Unlinked.

Section Env.

Variable trouble : gmap string Trouble.

(** [git worktree remove --force p] *)
Definition git_worktree_remove (repo : Path) (p : Path) (w : World)
    : CompletedProcess * World :=
  match locate repo p with
  | Child n =>
      match registered w !! n, trouble !! n with
      | Some _, Some Locked =>
          (failed 128 "fatal: cannot remove a locked working tree", w)
      | Some _, Some Unlinked =>
          (failed 128 "fatal: validation failed, cannot remove working tree", w)
      | _, _ => GitModel.git_worktree_remove repo p w
      end
  | _ => GitModel.git_worktree_remove repo p w
  end.

(** Whether [git worktree prune] keeps the record of the sandbox. *)
Definition keeps (w : World) (n : string) : bool :=
  match trouble !! n with
  | Some Locked => true
  | Some Unlinked => false
  | None => is_dir (entry w n)
  end.

(** [git worktree prune] *)
Definition git_worktree_prune (w : World) : CompletedProcess * World :=
  (ok "",
   set_registered (filter (fun nb => keeps w nb.1 = true) (registered w)) w).

Definition git (repo : Path) (ctx : Ctx) (cmd : GitCmd) (w : World)
    : option (CompletedProcess * World) :=
  match cmd with
  | worktree_remove_force p => Some (git_worktree_remove repo p w)
  | worktree_prune => Some (git_worktree_prune w)
  | _ => GitModel.git repo ctx cmd w
  end.

(** The environment's answer to one request. *)
Definition handle (repo : Path) {R} (e : Event R) (s : State)
    : option (R * State) :=
  match e in Event R return option (R * State) with
  | Subprocess cwd cmd =>
      match context repo (world s) cwd with
      | None => None
      | Some (inl x) => Some (inl x, s)
      | Some (inr ctx) =>
          match git repo ctx cmd (world s) with
          | None => None
          | Some (r, w') => Some (inr r, set_world w' s)
          end
      end
  | Exists p => GitModel.handle repo (Exists p) s
  | IsDir p => GitModel.handle repo (IsDir p) s
  | Mkdir p => GitModel.handle repo (Mkdir p) s
  | Iterdir p => GitModel.handle repo (Iterdir p) s
  | Rmtree p => GitModel.handle repo (Rmtree p) s
  | GetActive => GitModel.handle repo GetActive s
  | SetActive d => GitModel.handle repo (SetActive d) s
  | Acquire => GitModel.handle repo Acquire s
  | Release => GitModel.handle repo Release s
  end.

(** A method of the manager [self], run on the repository at
    [self.project_dir]. *)
Definition run {A} (self : WorktreeManager.Self) (m : Prog A) (s : State)
    : Outcome State A :=
  interp (@handle (WorktreeManager.project_dir self)) m s.

(** One turn of the loop of [_cleanup_stale_worktrees], for the item
    [.worktrees/n]. *)
Definition stale_step (repo : Path) (paths : gset Path) (n : string)
    (w : World) : World :=
  if is_dir (entry w n) then
    if String.eqb n WorktreeManager.STAGING_WORKTREE_NAME then w
    else if negb (bool_decide (div (div repo ".worktrees") n ∈ paths))
    then set_worktrees (delete n <$> worktrees w) w
    else (git_worktree_remove repo (div (div repo ".worktrees") n) w).2
  else w.

(** What holds of the world [wk] reached from [w0] once that loop has gone
    through the items named [seen]: each sandbox is either as it was, or
    it was a directory other than staging and is gone; and one that the
    loop has seen and that is still there is one that git had a record of
    and refused to remove. *)
Definition stale_inv (w0 : World) (seen : list string) (wk : World) : Prop :=
  branches wk = branches w0 /\
  HEAD wk = HEAD w0 /\
  MERGE_HEAD wk = MERGE_HEAD w0 /\
  (is_Some (worktrees w0) -> is_Some (worktrees wk)) /\
  forall m,
    (entry wk m = entry w0 m /\
     registered wk !! m = registered w0 !! m /\
     (m ∈ seen -> m <> WorktreeManager.STAGING_WORKTREE_NAME ->
      is_dir (entry w0 m) = true ->
      is_Some (registered w0 !! m) /\ is_Some (trouble !! m)))
    \/
    (m <> WorktreeManager.STAGING_WORKTREE_NAME /\
     is_dir (entry w0 m) = true /\
     entry wk m = None /\ registered wk !! m = None /\ m ∈ seen).

End Env.

End Refusal.

(** ** Summaries of method runs

    What a run of a method leaves of the world, written as a function of
    the world it starts in.  The theorems below prove that the runs agree
    with these summaries. *)

Module Summary.

Import pathlib subprocess Py GitModel.

(** The tracked infos point into [.worktrees]: the path of the info kept
    under [name] is [worktrees_dir / name], as [create] and
    [get_staging_info] store it. *)
Definition tracked_paths (self : WorktreeManager.Self) (d : Dict WorktreeInfo) : Prop :=
  forall kv, kv ∈ d -> path kv.2 = div (WorktreeManager.worktrees_dir self) kv.1.

(** The manager tracks sandboxes under plain names, each with the path
    Python gives [worktrees_dir / name]: what [create] stores for a plain
    name. *)
Definition well_tracked (self : WorktreeManager.Self) (d : Dict WorktreeInfo) : Prop :=
  forall kv, kv ∈ d ->
    plain kv.1 /\ path kv.2 = truediv (WorktreeManager.worktrees_dir self) kv.1.

(** The part of [remove] that takes the sandbox [name] off the disk:
    through git when git has a record of it, by hand otherwise. *)
Definition off_disk (name : string) (w : World) : World :=
  if bool_decide (is_Some (entry w name)) then
    match registered w !! name with
    | Some _ =>
        set_registered (delete name (registered w))
          (set_worktrees (delete name <$> worktrees w) w)
    | None =>
        if is_dir (entry w name)
        then set_worktrees (delete name <$> worktrees w) w
        else w
    end
  else w.

(** The world after [remove(name, ...)], where [b] is the branch that is
    to be deleted, if any. *)
Definition remove_world (name : string) (b : option string) (w : World) : World :=
  let w1 := off_disk name w in
  let w2 := match b with
            | Some b => (git_branch_D b w1).2
            | None => w1
            end in
  (git_worktree_prune w2).2.

(** The state after [remove(name, delete_branch)]. *)
Definition remove_state (name : string) (delete_branch : bool) (s : State) : State :=
  let info := dict_get name (_active_worktrees s) in
  mkState (dict_pop name (_active_worktrees s)) (_merge_lock s)
    (remove_world name (if delete_branch then branch <$> info else None) (world s)).

(** The main working tree can switch to branch [b]: no merge is stopped
    on conflicts, the branch exists, and it is not checked out in a linked
    worktree (unless the main working tree is on it already). *)
Definition can_checkout (w : World) (b : string) : Prop :=
  MERGE_HEAD w = None /\
  is_Some (branches w !! b) /\
  (HEAD w = b \/ ~ map_Exists (fun _ v => v = b) (registered w)).

(** The world after a merge of [b] into [base] that gave the tree
    [merged]: the main working tree is on [base], whose tip is [merged]. *)
Definition merged_world (base b : string) (ours theirs : Branch)
    (merged : Tree) (w : World) : World :=
  set_branches
    (<[base := mkBranch merged (fork ours)]>
       (<[b := mkBranch (tip theirs) (tip theirs)]> (branches w)))
    (set_HEAD base w).


(** Git's records have branch [b] in no linked worktree but the sandbox
    [name], and that sandbox is on the disk. *)
Definition sole_worktree (w : World) (name b : string) : Prop :=
  forall m, registered w !! m = Some b -> m = name /\ is_Some (entry w name).

(** Branch [b] is checked out nowhere but in the sandbox [name]. *)
Definition only_in_sandbox (w : World) (name b : string) : Prop :=
  HEAD w <> b /\ sole_worktree w name b.

(** Git's references are sound: the branch of the main working tree and
    the branches of the linked worktrees exist. *)
Definition refs_exist (w : World) : Prop :=
  is_Some (branches w !! HEAD w) /\
  forall m v, registered w !! m = Some v -> is_Some (branches w !! v).

(** The branch [create] makes. *)
Definition branch_of (name : string) (branch_name : option string) : string :=
  match branch_name with
  | None => "auto-claude/" +:+ name
  | Some b => b
  end.

(** The world after git added the worktree [name] on the new branch [b]
    with the content [t] of the start branch. *)
Definition added (name b : string) (t : Tree) (w : World) : World :=
  set_worktrees (Some (<[name := Dir t t]> (default ∅ (worktrees w))))
    (set_registered (<[name := b]> (registered w))
       (set_branches (<[b := mkBranch t t]> (branches w)) w)).

(** The world [create] asks git to add the worktree in: a sandbox found
    under the name has been force-removed and the branch deleted, as far as
    git agreed. *)
Definition create_pre (repo : Path) (name b : string) (w : World) : World :=
  let p := div (div repo ".worktrees") name in
  let w1 := if bool_decide (is_Some (entry w name))
            then (git_worktree_remove repo p w).2
            else w in
  (git_branch_D b w1).2.

(** Something is written into the sandbox [name]: its files become [t]
    and its index [i]. *)
Definition written (name : string) (t i : Tree) (w : World) : World :=
  set_worktrees (<[name := Dir t i]> <$> worktrees w) w.


(** The worker names among [names]. *)
Definition is_worker (names : list string) (n : string) : Prop :=
  n ∈ names /\ n <> WorktreeManager.STAGING_WORKTREE_NAME.

#[global] Instance is_worker_dec names n : Decision (is_worker names n).
Proof. unfold is_worker. apply _. Defined.



(** A path component as the file system and git have them: not empty,
    not ["."], without a slash and without a line feed. *)
Definition clean (c : string) : Prop :=
  c <> "" /\ c <> "." /\
  str.has_char "/"%char c = false /\
  str.has_char (Ascii.ascii_of_nat 10) c = false.

(** The names that appear in [worktree list --porcelain] are well formed:
    the components of the project path and the names of the linked
    worktrees are clean, and no branch name has a line feed. *)
Definition hygiene (repo : Path) (w : World) : Prop :=
  Forall clean repo /\
  str.has_char (Ascii.ascii_of_nat 10) (HEAD w) = false /\
  forall n b, registered w !! n = Some b ->
    clean n /\ str.has_char (Ascii.ascii_of_nat 10) b = false.

(** One turn of the loop of [_cleanup_stale_worktrees], for the item
    [.worktrees/n]. *)
Definition stale_step (repo : Path) (paths : gset Path) (n : string)
    (w : World) : World :=
  if is_dir (entry w n) then
    if String.eqb n WorktreeManager.STAGING_WORKTREE_NAME then w
    else if negb (bool_decide (div (div repo ".worktrees") n ∈ paths))
    then set_worktrees (delete n <$> worktrees w) w
    else (git_worktree_remove repo (div (div repo ".worktrees") n) w).2
  else w.

(** What holds of the world [wk] reached from [w0] once the loop of
    [_cleanup_stale_worktrees] has gone through the items named [seen]. *)
Definition stale_inv (w0 : World) (seen : list string) (wk : World) : Prop :=
  branches wk = branches w0 /\
  HEAD wk = HEAD w0 /\
  MERGE_HEAD wk = MERGE_HEAD w0 /\
  (is_Some (worktrees w0) -> is_Some (worktrees wk)) /\
  (forall m, m ∉ seen \/ m = WorktreeManager.STAGING_WORKTREE_NAME ->
     entry wk m = entry w0 m /\ registered wk !! m = registered w0 !! m) /\
  (forall m, m ∈ seen -> m <> WorktreeManager.STAGING_WORKTREE_NAME ->
     is_dir (entry wk m) = false) /\
  (forall m, is_dir (entry w0 m) = false -> entry wk m = entry w0 m).

(** The claim that [setup] removes exactly the unregistered sandbox
    directories, the staging sandbox apart. *)
Definition setup_removes_exactly_unregistered : Prop :=
  forall (self : WorktreeManager.Self) (s s' : State) (n : string),
    hygiene (WorktreeManager.project_dir self) (world s) ->
    run self (WorktreeManager.setup self) s = Returned tt s' ->
    n <> WorktreeManager.STAGING_WORKTREE_NAME ->
    is_dir (entry (world s) n) = true ->
    (is_dir (entry (world s') n) = false <-> registered (world s) !! n = None).

End Summary.

(** ** The QA validation loop *)

Module qa.

(** Modelled from the spec: [qa/loop.py] and [qa/report.py] are named by
    [qa/__init__.py] but are not among the sources.  Section 4.4 of the
    specification gives the loop: each iteration asks a reviewer for a
    verdict and a list of issues and records it; an approval ends the loop;
    after a rejection the loop escalates at once when an issue of this
    iteration has been reported in at least [RECURRING_ISSUE_THRESHOLD]
    iterations, and otherwise has the issues fixed and reviews again, until
    [MAX_QA_ITERATIONS] is reached.  The reviewer and the fixer are
    outside the core; the reviewer is a function of the iteration number
    here, and the fixer shows only in the status. *)
Inductive QAStatus : Type :=
| not_started
| in_review
| approved
| rejected
| fixes_applied
| escalated.

Inductive Verdict : Type :=
| Approved
| Rejected (issues : list string).

Record IterationRecord : Type := mkRecord {
  iteration : nat;
  verdict : Verdict;
}.

Definition issues_of (r : IterationRecord) : list string :=
  match verdict r with
  | Approved => []
  | Rejected issues => issues
  end.

Definition RECURRING_ISSUE_THRESHOLD : nat := 3.

Definition lower (c : Ascii.ascii) : Ascii.ascii :=
  let n := Ascii.nat_of_ascii c in
  if Nat.leb 65 n && Nat.leb n 90 then Ascii.ascii_of_nat (n + 32) else c.

Definition is_alnum (c : Ascii.ascii) : bool :=
  let n := Ascii.nat_of_ascii c in
  (Nat.leb 48 n && Nat.leb n 57) || (Nat.leb 97 n && Nat.leb n 122).

(** Lower case, punctuation dropped, runs of blanks read as one blank:
    [pending] says that a blank is due before the next letter. *)
Fixpoint normalize_from (pending : bool) (started : bool) (s : string) : string :=
  match s with
  | EmptyString => EmptyString
  | String c rest =>
      let c := lower c in
      if is_alnum c
      then if pending && started
           then String " "%char (String c (normalize_from false true rest))
           else String c (normalize_from false true rest)
      else if str.is_space c then normalize_from true started rest
      else normalize_from pending started rest
  end.

(** Modelled from the spec: the key of an issue, insensitive to case and
    blanks and with the punctuation stripped. *)
Definition _normalize_issue_key (issue : string) : string :=
  normalize_from false false issue.

Section Loop.

(** Whether two keys pass the similarity threshold. *)
Variable similar : string -> string -> bool.

(** The reviewer's verdict in each iteration. *)
Variable reviewer : nat -> Verdict.

Variable MAX_QA_ITERATIONS : nat.

(** The record reports an issue equivalent to [issue]. *)
Definition reports (issue : string) (r : IterationRecord) : bool :=
  existsb (fun i => similar (_normalize_issue_key issue) (_normalize_issue_key i))
          (issues_of r).

(** In how many iterations of the history the issue has appeared. *)
Definition occurrences (issue : string) (history : list IterationRecord) : nat :=
  length (List.filter (reports issue) history).

(** Modelled from the spec: some issue of the current iteration has
    appeared in at least [RECURRING_ISSUE_THRESHOLD] iterations of the
    history, the current one included. *)
Definition has_recurring_issues (current : list string)
    (history : list IterationRecord) : bool :=
  existsb (fun i => Nat.leb RECURRING_ISSUE_THRESHOLD (occurrences i history))
          current.

(** Modelled from the spec: the loop from iteration [done + 1] on, with
    [fuel] iterations left before the cap; at the cap the loop escalates
    (section 8: it ends approved or escalated).  It returns the final
    status and the history. *)
Fixpoint loop_from (fuel done : nat) (history : list IterationRecord)
    : QAStatus * list IterationRecord :=
  match fuel with
  | 0 => (escalated, history)
  | S fuel' =>
      let n := S done in
      let v := reviewer n in
      let history' := history ++ [mkRecord n v] in
      match v with
      | Approved => (approved, history')
      | Rejected issues =>
          if has_recurring_issues issues history'
          then (escalated, history')
          else loop_from fuel' n history'
      end
  end.

Definition run_qa_validation_loop : QAStatus * list IterationRecord :=
  loop_from MAX_QA_ITERATIONS 0 [].

(** The history after [n] iterations none of which ended the loop. *)
Definition history_upto (n : nat) : list IterationRecord :=
  map (fun i => mkRecord i (reviewer i)) (seq 1 n).

(** The reviewer reports an issue with key [k] in iteration [i]. *)
Definition reported (k : string) (i : nat) : Prop :=
  exists issue, In issue (issues_of (mkRecord i (reviewer i))) /\
                _normalize_issue_key issue = k.

End Loop.

End qa.

(** ** Concrete plans, repositories and reviewers *)

Module Examples.

Import implementation_plan coordinator pathlib subprocess Py GitModel Summary.

(** The chunk and phase of [TestClaimChunk.test_claims_chunk_successfully]. *)
Definition chunk1 : Chunk :=
  mkChunk "chunk-1" "Test chunk" PENDING ["file1.py"] ["file2.py"].

Definition phase1 : Phase := mkPhase 1 "Test Phase" [0] [].

Definition coordinator0 : SwarmCoordinator :=
  mkCoordinator (Some (mkPlan "Test" [phase1])) ∅ ∅ 3 {[ 0 := chunk1 ]}.

(** The coordinator after worker-1 claimed the chunk. *)
Definition coordinator1 : SwarmCoordinator :=
  (claim_chunk coordinator0 "worker-1" phase1 0 "/tmp/worktree"
     "worker-1/chunk-1" "2024-01-01T10:00:00").2.

(** A project at [/home/dev/project] with base branch [main]. *)
Definition repo0 : Path := ["home"; "dev"; "project"].

Definition self0 : WorktreeManager.Self := WorktreeManager.mkSelf repo0 "main".

Definition readme : Tree := {[ "README.md" := "# Test Project" ]}.

(** The repository of the fixture [temp_git_repo]: one commit on [main],
    no [.worktrees]. *)
Definition w_fresh : World :=
  mkWorld None ∅ {[ "main" := mkBranch readme readme ]} "main" None None.

Definition s_fresh : State := mkState [] false w_fresh.

(** That repository after [create("w")], and a file written into the
    sandbox afterwards. *)
Definition created_info : WorktreeInfo :=
  mkInfo (div (WorktreeManager.worktrees_dir self0) "w") "auto-claude/w" "main" true.

Definition s_created : State :=
  mkState [("w", created_info)] false
    (mkWorld (Some {[ "w" := Dir readme readme ]})
       {[ "w" := "auto-claude/w" ]}
       {[ "main" := mkBranch readme readme;
          "auto-claude/w" := mkBranch readme readme ]}
       "main" None None).

Definition artifact : Tree := <[ "artifact.txt" := "left over" ]> readme.

(** A directory that a crashed run left under [.worktrees/w]: it has a
    file, and git has no record of it. *)
Definition s_leftover : State :=
  mkState [] false
    (mkWorld (Some {[ "w" := Dir artifact ∅ ]}) ∅
       {[ "main" := mkBranch readme readme ]} "main" None None).

(** A worker sandbox whose branch added a file. *)
Definition feature : Tree := <[ "feature.txt" := "feature content" ]> readme.

Definition worker_branch : string := "auto-claude/worker-1".

Definition worker_info : WorktreeInfo :=
  mkInfo (div (WorktreeManager.worktrees_dir self0) "worker-1")
    worker_branch "main" true.

Definition w_worker : World :=
  mkWorld (Some {[ "worker-1" := Dir feature feature ]})
    {[ "worker-1" := worker_branch ]}
    {[ "main" := mkBranch readme readme;
       worker_branch := mkBranch feature readme ]}
    "main" None None.

Definition s_worker : State := mkState [("worker-1", worker_info)] false w_worker.

(** The same with a merge in flight: the merge lock is held. *)
Definition s_worker_locked : State := set_lock true s_worker.

(** That state after [setup]: the sandbox and git's record of it are gone. *)
Definition s_worker_setup : State :=
  mkState [("worker-1", worker_info)] false
    (mkWorld (Some ∅) ∅
       {[ "main" := mkBranch readme readme;
          worker_branch := mkBranch feature readme ]}
       "main" None None).

(** And after the worker was merged and deleted. *)
Definition s_worker_merged : State :=
  mkState [] false
    (mkWorld (Some ∅) ∅ {[ "main" := mkBranch feature readme ]}
       "main" None None).

(** The git commands of that merge. *)
Definition merge_script : list GitCmd :=
  [checkout "main";
   merge_no_ff worker_branch ("auto-claude: Merge " +:+ worker_branch);
   worktree_remove_force (div (WorktreeManager.worktrees_dir self0) "worker-1");
   branch_D worker_branch;
   worktree_prune].

(** A worker whose branch and the base branch both changed the README,
    while the main working tree is on another branch. *)
Definition readme_main : Tree := {[ "README.md" := "# Edited on main" ]}.
Definition readme_worker : Tree := {[ "README.md" := "# Edited by the worker" ]}.

Definition w_conflict : World :=
  mkWorld (Some {[ "worker-1" := Dir readme_worker readme_worker ]})
    {[ "worker-1" := worker_branch ]}
    {[ "main" := mkBranch readme_main readme_main;
       "develop" := mkBranch readme readme;
       worker_branch := mkBranch readme_worker readme ]}
    "develop" None None.

Definition s_conflict : State := mkState [("worker-1", worker_info)] false w_conflict.

(** A staging sandbox with an uncommitted file next to a worker. *)
Definition staging_branch : string := "auto-claude/test-spec".

Definition staging_info : WorktreeInfo :=
  mkInfo (div (WorktreeManager.worktrees_dir self0)
            WorktreeManager.STAGING_WORKTREE_NAME)
    staging_branch "main" true.

Definition w_staging : World :=
  mkWorld (Some {[ WorktreeManager.STAGING_WORKTREE_NAME := Dir feature readme;
                   "worker-1" := Dir readme readme ]})
    {[ WorktreeManager.STAGING_WORKTREE_NAME := staging_branch;
       "worker-1" := worker_branch ]}
    {[ "main" := mkBranch readme readme;
       staging_branch := mkBranch readme readme;
       worker_branch := mkBranch readme readme ]}
    "main" None None.

Definition s_staging : State :=
  mkState [(WorktreeManager.STAGING_WORKTREE_NAME, staging_info);
           ("worker-1", worker_info)] false w_staging.

(** The manager and the world after [setup] and after
    [cleanup_workers_only] in that state. *)
Definition s_staging_only : State :=
  mkState [(WorktreeManager.STAGING_WORKTREE_NAME, staging_info)] false
    (mkWorld (Some {[ WorktreeManager.STAGING_WORKTREE_NAME := Dir feature readme ]})
       {[ WorktreeManager.STAGING_WORKTREE_NAME := staging_branch ]}
       {[ "main" := mkBranch readme readme;
          staging_branch := mkBranch readme readme ]}
       "main" None None).



(** Staging, a worker that git will remove, a locked worker, and a
    directory that git has no record of. *)
Definition trouble0 : gmap string Refusal.Trouble :=
  {[ "worker-2" := Refusal.Locked ]}.

Definition s_mixed : State :=
  mkState [] false
    (mkWorld
       (Some {[ WorktreeManager.STAGING_WORKTREE_NAME := Dir feature readme;
                "worker-1" := Dir readme readme;
                "worker-2" := Dir readme readme;
                "w" := Dir artifact ∅ ]})
       {[ WorktreeManager.STAGING_WORKTREE_NAME := staging_branch;
          "worker-1" := worker_branch;
          "worker-2" := "auto-claude/worker-2" ]}
       {[ "main" := mkBranch readme readme;
          staging_branch := mkBranch readme readme;
          worker_branch := mkBranch readme readme;
          "auto-claude/worker-2" := mkBranch readme readme ]}
       "main" None None).

(** That state after [setup]. *)
Definition s_mixed_setup : State :=
  mkState [] false
    (mkWorld
       (Some {[ WorktreeManager.STAGING_WORKTREE_NAME := Dir feature readme;
                "worker-2" := Dir readme readme ]})
       {[ WorktreeManager.STAGING_WORKTREE_NAME := staging_branch;
          "worker-2" := "auto-claude/worker-2" ]}
       {[ "main" := mkBranch readme readme;
          staging_branch := mkBranch readme readme;
          worker_branch := mkBranch readme readme;
          "auto-claude/worker-2" := mkBranch readme readme ]}
       "main" None None).

(** A reviewer that rejects every iteration with the same issue, worded
    differently. *)
Definition stubborn_reviewer (n : nat) : qa.Verdict :=
  if Nat.even n then qa.Rejected ["Login button is broken!"]
  else qa.Rejected ["login   button is BROKEN"].

End Examples.

(** ** [src/auto-claude/worktree.py]: the other methods

    The constructor and the methods of [WorktreeManager] that ask the
    environment nothing but what [Py.Event] has. *)

Module WorktreeManagerRest.

Import pathlib subprocess Py WorktreeManager.
Local Open Scope prog_scope.

(** [_get_current_branch], which [__init__] calls before the object is
    complete: it reads [self.project_dir] only, and starts git through
    [subprocess.run] itself. *)
Definition _get_current_branch (project_dir : Path) : Prog string :=
  result <- call (Subprocess project_dir rev_parse_abbrev_ref_HEAD) ;;
  if negb (returncode result =? 0)%Z
  then Raise (WorktreeError ("Failed to get current branch: " +:+ stderr result))
  else Ret (str.strip (stdout result)).

(** [__init__]: [base_branch or self._get_current_branch()].  [None] and
    the empty string are the falsy values of [Optional[str]].  The new
    object starts with an empty [_active_worktrees] and a free
    [_merge_lock]: the state [GitModel.mkState [] false w]. *)
Definition __init__ (project_dir : Path) (base_branch : option string)
    : Prog Self :=
  base_branch <- match base_branch with
                 | Some b => if String.eqb b "" then _get_current_branch project_dir
                             else Ret b
                 | None => _get_current_branch project_dir
                 end ;;
  Ret (mkSelf project_dir base_branch).

Definition merge_branch_to_staging (self : Self) (branch_name : string)
    : Prog bool :=
  staging_path <- get_staging_path self ;;
  match staging_path with
  | None => Ret false
  | Some staging_path =>
      result <- _run_git self
                  (merge_no_ff branch_name ("auto-claude: Merge " +:+ branch_name))
                  (Some staging_path) ;;
      if negb (returncode result =? 0)%Z then
        _run_git self merge_abort (Some staging_path) ;;
        Ret false
      else Ret true
  end.

Definition get_worktree_path (self : Self) (name : string)
    : Prog (option Path) :=
  info <- active_get name ;;
  match info with
  | Some i => Ret (Some (path i))
  | None =>
      let path := div (worktrees_dir self) name in
      ex <- ask (Exists path) ;;
      if ex then Ret (Some path) else Ret None
  end.

Definition get_test_commands (staging_path : Path) : Prog (list string) :=
  let commands := [] in
  node <- ask (Exists (div staging_path "package.json")) ;;
  let commands :=
    if node then commands ++ ["npm install && npm run dev"; "npm test"]
    else commands in
  python <- ask (Exists (div staging_path "requirements.txt")) ;;
  let commands :=
    if python then commands ++ ["pip install -r requirements.txt"]
    else commands in
  rust <- ask (Exists (div staging_path "Cargo.toml")) ;;
  let commands :=
    if rust then commands ++ ["cargo run"; "cargo test"] else commands in
  go <- ask (Exists (div staging_path "go.mod")) ;;
  let commands :=
    if go then commands ++ ["go run ."; "go test ./..."] else commands in
  Ret (match commands with
       | [] => ["# Check the project's README for run instructions"]
       | _ => commands
       end).

(** The git commands a run starts in an environment, in order, each with
    the directory it is started in. *)
Fixpoint trace {S A} (h : Handler S) (m : Prog A) (s : S)
    : list (Path * GitCmd) :=
  match m with
  | Vis e k =>
      match h _ e s with
      | Some (r, s') =>
          match e with
          | Subprocess cwd cmd => [(cwd, cmd)]
          | _ => []
          end ++ trace h (k r) s'
      | None => []
      end
  | _ => []
  end.

End WorktreeManagerRest.

(** ** Summaries for the other methods *)

Module SummaryRest.

Import pathlib subprocess Py GitModel.

(** The branch git names in the staging directory: the one checked out in
    the staging worktree, or, when git has no record of that directory,
    the one of the main working tree the directory then belongs to. *)
Definition branch_in_staging (w : World) : string :=
  default (HEAD w) (registered w !! WorktreeManager.STAGING_WORKTREE_NAME).

(** The info the manager makes of a staging sandbox it finds. *)
Definition found_staging (self : WorktreeManager.Self) (w : World) : WorktreeInfo :=
  mkInfo (div (WorktreeManager.worktrees_dir self)
            WorktreeManager.STAGING_WORKTREE_NAME)
    (str.strip (branch_in_staging w))
    (WorktreeManager.base_branch self) true.


End SummaryRest.

(** ** More concrete repositories *)

Module MoreExamples.

Import pathlib subprocess Py GitModel Examples.

(** The fresh repository after [get_or_create_staging("test-spec")]. *)
Definition s_staged : State :=
  mkState [(WorktreeManager.STAGING_WORKTREE_NAME, staging_info)] false
    (mkWorld (Some {[ WorktreeManager.STAGING_WORKTREE_NAME := Dir readme readme ]})
       {[ WorktreeManager.STAGING_WORKTREE_NAME := staging_branch ]}
       {[ "main" := mkBranch readme readme;
          staging_branch := mkBranch readme readme ]}
       "main" None None).

(** The repository with the worker, after the worker was removed with its
    branch. *)
Definition s_worker_removed : State :=
  mkState [] false
    (mkWorld (Some ∅) ∅ {[ "main" := mkBranch readme readme ]} "main" None None).

(** A staging sandbox with a commit of its own, seen by a manager that has
    just been made and tracks nothing yet. *)
Definition s_restart : State :=
  mkState [] false
    (mkWorld (Some {[ WorktreeManager.STAGING_WORKTREE_NAME := Dir feature feature ]})
       {[ WorktreeManager.STAGING_WORKTREE_NAME := staging_branch ]}
       {[ "main" := mkBranch readme readme;
          staging_branch := mkBranch feature readme ]}
       "main" None None).

(** An environment that knows which files exist and nothing else. *)
Definition listing (files : list Path) : Handler unit :=
  fun R e s =>
    match e in Event R return option (R * unit) with
    | Exists p => Some (bool_decide (p ∈ files), s)
    | _ => None
    end.

(** A staging sandbox of a Node project with a Go module. *)
Definition node_and_go : list Path :=
  let staging := div (WorktreeManager.worktrees_dir self0)
                   WorktreeManager.STAGING_WORKTREE_NAME in
  [div staging "package.json"; div staging "go.mod"; div staging "README.md"].

End MoreExamples.

(* ================================================================== *)
(** * Theorems *)
(* ================================================================== *)

Section CoordinatorFacts.

Import implementation_plan coordinator.

Lemma files_free_spec (cf : gmap string string) (files : list string) :
  files_free cf files = true <-> forall f, f ∈ files -> cf !! f = None.
Proof.
  unfold files_free. rewrite forallb_forall. split.
  - intros H f Hf. apply list_elem_of_In in Hf.
    specialize (H f Hf). by apply bool_decide_eq_true in H.
  - intros H f Hf. apply bool_decide_eq_true, H. by apply list_elem_of_In.
Qed.

Lemma claim_files_lookup (w : string) (files : list string)
    (cf : gmap string string) (f : string) :
  claim_files w files cf !! f =
    if bool_decide (f ∈ files) then Some w else cf !! f.
Proof.
  induction files as [|g files IH].
  - cbn. case_bool_decide as H; [by apply not_elem_of_nil in H | done].
  - cbn [claim_files foldr]. fold (claim_files w files cf).
    destruct (decide (g = f)) as [->|Hne].
    + clear IH. rewrite lookup_insert_eq.
      case_bool_decide as H; [done | exfalso; apply H; set_solver].
    + rewrite lookup_insert_ne by done. rewrite IH. clear IH.
      destruct (decide (f ∈ files)) as [Hin|Hnin].
      * rewrite !bool_decide_eq_true_2; [done | by apply elem_of_cons; right | done].
      * rewrite !bool_decide_eq_false_2; [done | | done].
        intros Hc. apply elem_of_cons in Hc as [?|?]; congruence.
Qed.

Lemma mark_idem (cid : string) (s : ChunkStatus) (c : Chunk) :
  mark cid s (mark cid s c) = mark cid s c.
Proof.
  unfold mark. destruct (bool_decide (id c = cid)) eqn:E; cbn.
  - apply bool_decide_eq_true in E. by rewrite bool_decide_eq_true_2.
  - by rewrite E.
Qed.

Lemma release_files_lookup (w : string) (cf : gmap string string) (f : string) :
  release_files w cf !! f =
    match cf !! f with
    | Some v => if bool_decide (v = w) then None else Some v
    | None => None
    end.
Proof.
  unfold release_files. destruct (cf !! f) as [v|] eqn:E.
  - case_bool_decide as Hv.
    + apply map_lookup_filter_None. right. intros x Hx. cbn.
      rewrite E in Hx. injection Hx as <-. tauto.
    + apply map_lookup_filter_Some. split; [done | by cbn].
  - apply map_lookup_filter_None. by left.
Qed.

(** C1.  [claim_chunk] returns true exactly when the chunk is pending and
    none of the files of its write-set is claimed.  When it does, every file
    of the write-set is claimed for the worker (and no other entry of the
    table changes), the worker has an assignment with status working, and
    the chunk has the status in progress, its other fields being what they
    were.  When it returns false nothing has changed. *)
Theorem claim_chunk_spec (self : SwarmCoordinator) (worker : string)
    (ph : Phase) (chunk : ChunkRef) (c : Chunk) (path branch now : string) :
  heap self !! chunk = Some c ->
  let r := claim_chunk self worker ph chunk path branch now in
  (r.1 = true <->
     status c = PENDING /\
     forall f, f ∈ write_set c -> claimed_files self !! f = None) /\
  (r.1 = true ->
     (forall f, f ∈ write_set c -> claimed_files r.2 !! f = Some worker) /\
     (forall f, f ∉ write_set c ->
        claimed_files r.2 !! f = claimed_files self !! f) /\
     (exists a, workers r.2 !! worker = Some a /\
        wa_status a = WORKING /\ worker_id a = worker /\
        chunk_id a = id c /\ phase_id a = phase ph /\
        branch_name a = branch /\ worktree_path a = path) /\
     (forall w, w <> worker -> workers r.2 !! w = workers self !! w) /\
     (exists c', heap r.2 !! chunk = Some c' /\
        status c' = IN_PROGRESS /\ id c' = id c /\
        description c' = description c /\
        files_to_modify c' = files_to_modify c /\
        files_to_create c' = files_to_create c) /\
     (forall q, q <> chunk -> heap r.2 !! q = heap self !! q)) /\
  (r.1 = false -> r.2 = self).
Proof.
  intros Hc. unfold claim_chunk. rewrite Hc.
  destruct (decide (status c = PENDING)) as [Hp|Hp].
  - rewrite (bool_decide_eq_true_2 _ Hp). cbn [negb].
    destruct (files_free (claimed_files self) (write_set c)) eqn:Hf; cbn.
    + pose proof (proj1 (files_free_spec _ _) Hf) as Hfree.
      split; [tauto|]. split; [|done].
      intros _. repeat split.
      * intros f Hin. rewrite claim_files_lookup.
        by rewrite bool_decide_eq_true_2.
      * intros f Hnin. rewrite claim_files_lookup.
        by rewrite bool_decide_eq_false_2.
      * eexists. rewrite lookup_insert_eq. split; [done|]. by cbn.
      * intros w Hw. by rewrite lookup_insert_ne.
      * eexists. rewrite lookup_insert_eq. split; [done|]. by cbn.
      * intros q Hq. by rewrite lookup_insert_ne.
    + split; [|done]. split; [done|]. intros [_ Hfree].
      apply (proj2 (files_free_spec _ _)) in Hfree. congruence.
  - rewrite (bool_decide_eq_false_2 _ Hp). cbn. split; [|done].
    split; [done | tauto].
Qed.

(** C4.  [release_chunk] for a worker that has an assignment removes the
    assignment, removes every file the worker held from the claimed-files
    table whatever [success] is (the entries of other workers stay, and
    none is added), and the chunk named [cid] has the status completed
    when [success] is true and failed otherwise, its other fields being
    what they were; the other chunks are as before.  Without an
    assignment the call changes nothing, so a repeated release is a no-op. *)
Theorem release_chunk_spec (self : SwarmCoordinator) (worker cid : string)
    (success : bool) (output : string) :
  let s' := release_chunk self worker cid success output in
  (is_Some (workers self !! worker) ->
     workers s' !! worker = None /\
     (forall w, w <> worker -> workers s' !! w = workers self !! w) /\
     (forall f, claimed_files self !! f = Some worker ->
        claimed_files s' !! f = None) /\
     (forall f w, w <> worker -> claimed_files self !! f = Some w ->
        claimed_files s' !! f = Some w) /\
     (forall f, claimed_files self !! f = None -> claimed_files s' !! f = None) /\
     (forall q c, heap self !! q = Some c -> id c = cid ->
        exists c', heap s' !! q = Some c' /\
          status c' = (if success then COMPLETED else FAILED) /\
          id c' = id c /\ description c' = description c /\
          files_to_modify c' = files_to_modify c /\
          files_to_create c' = files_to_create c) /\
     (forall q c, heap self !! q = Some c -> id c <> cid ->
        heap s' !! q = Some c) /\
     (forall q, heap self !! q = None -> heap s' !! q = None)) /\
  (workers self !! worker = None -> s' = self) /\
  release_chunk s' worker cid success output = s'.
Proof.
  cbn zeta. unfold release_chunk.
  destruct (workers self !! worker) as [a|] eqn:Ha.
  - split; [|split; [done|]].
    + intros _. cbn. repeat split.
      * by rewrite lookup_delete_eq.
      * intros w Hw. by rewrite lookup_delete_ne.
      * intros f Hf. rewrite release_files_lookup, Hf.
        by rewrite bool_decide_eq_true_2.
      * intros f w Hw Hf. rewrite release_files_lookup, Hf.
        by rewrite bool_decide_eq_false_2.
      * intros f Hf. by rewrite release_files_lookup, Hf.
      * intros q c Hh Hid. rewrite lookup_fmap, Hh. cbn.
        unfold mark. rewrite bool_decide_eq_true_2 by done.
        eexists. split; [done|]. by destruct success.
      * intros q c Hh Hid. rewrite lookup_fmap, Hh. cbn.
        unfold mark. by rewrite bool_decide_eq_false_2.
      * intros q Hh. by rewrite lookup_fmap, Hh.
    + cbn. by rewrite lookup_delete_eq.
  - split; [by intros [? ?] | split; [done|]]. by rewrite Ha.
Qed.

End CoordinatorFacts.

Section ExecFacts.

Import pathlib subprocess Py GitModel.
Local Open Scope prog_scope.

Lemma interp_bind {S A B} (h : Handler S) (m : Prog A) (f : A -> Prog B) (s : S) :
  interp h (bind m f) s =
    match interp h m s with
    | Returned a s' => interp h (f a) s'
    | Raised e s' => Raised e s'
    | Stuck s' => Stuck s'
    end.
Proof.
  revert s. induction m as [a|e|R e k IH]; intros s; cbn; try done.
  destruct (h R e s) as [[r s']|]; [apply IH | done].
Qed.

Lemma interp_finally {S A} (h : Handler S) (m : Prog A) (g : Prog unit) (s : S) :
  interp h (finally m g) s =
    match interp h m s with
    | Returned a s' =>
        match interp h g s' with
        | Returned _ s'' => Returned a s''
        | Raised e s'' => Raised e s''
        | Stuck s'' => Stuck s''
        end
    | Raised e s' =>
        match interp h g s' with
        | Returned _ s'' => Raised e s''
        | Raised e' s'' => Raised e' s''
        | Stuck s'' => Stuck s''
        end
    | Stuck s' => Stuck s'
    end.
Proof.
  revert s. induction m as [a|e|R e k IH]; intros s; cbn.
  - rewrite interp_bind. by destruct (interp h g s).
  - rewrite interp_bind. by destruct (interp h g s).
  - destruct (h R e s) as [[r s']|]; [apply IH | done].
Qed.

Lemma exec_bind {A B} (repo : Path) (m : Prog A) (f : A -> Prog B) (s : State) :
  exec repo (bind m f) s =
    match exec repo m s with
    | Returned a s' => exec repo (f a) s'
    | Raised e s' => Raised e s'
    | Stuck s' => Stuck s'
    end.
Proof. apply interp_bind. Qed.

Lemma exec_finally {A} (repo : Path) (m : Prog A) (h : Prog unit) (s : State) :
  exec repo (finally m h) s =
    match exec repo m s with
    | Returned a s' =>
        match exec repo h s' with
        | Returned _ s'' => Returned a s''
        | Raised e s'' => Raised e s''
        | Stuck s'' => Stuck s''
        end
    | Raised e s' =>
        match exec repo h s' with
        | Returned _ s'' => Raised e s''
        | Raised e' s'' => Raised e' s''
        | Stuck s'' => Stuck s''
        end
    | Stuck s' => Stuck s'
    end.
Proof. apply interp_finally. Qed.

Lemma commands_bind {A B} (repo : Path) (m : Prog A) (f : A -> Prog B) (s : State) :
  commands repo (bind m f) s =
    commands repo m s ++
    match exec repo m s with
    | Returned a s' => commands repo (f a) s'
    | _ => []
    end.
Proof.
  revert s. induction m as [a|e|R e k IH]; intros s; cbn; try done.
  unfold exec. cbn [interp].
  destruct (handle repo e s) as [[r s']|]; [|done].
  rewrite IH. by rewrite app_assoc.
Qed.

Lemma commands_exists (repo p : Path) (s : State) :
  commands repo (ask (Exists p)) s = [].
Proof.
  unfold ask. cbn [commands].
  by destruct (handle repo (Exists p) s) as [[r s']|].
Qed.

Lemma strip_prefix_app (pre l : Path) : strip_prefix pre (pre ++ l) = Some l.
Proof.
  induction pre as [|c pre IH]; cbn; [done|].
  by rewrite String.eqb_refl.
Qed.

Lemma locate_project (repo : Path) : locate repo repo = InProject.
Proof.
  unfold locate. rewrite <- (app_nil_r repo) at 2.
  by rewrite strip_prefix_app.
Qed.

Lemma locate_root (repo : Path) : locate repo (div repo ".worktrees") = InRoot.
Proof. unfold locate, div. by rewrite strip_prefix_app. Qed.

Lemma locate_child (repo : Path) (n : string) :
  locate repo (div (div repo ".worktrees") n) = Child n.
Proof.
  unfold locate, div. rewrite <- app_assoc. by rewrite strip_prefix_app.
Qed.

End ExecFacts.

Section ManagerSteps.

Import pathlib subprocess Py GitModel WorktreeManager.
Local Open Scope prog_scope.

Variable self : Self.

Lemma run_bind {A B} (m : Prog A) (f : A -> Prog B) (s : State) :
  run self (bind m f) s =
    match run self m s with
    | Returned a s' => run self (f a) s'
    | Raised e s' => Raised e s'
    | Stuck s' => Stuck s'
    end.
Proof. apply exec_bind. Qed.

Lemma run_ret {A} (a : A) (s : State) : run self (Ret a) s = Returned a s.
Proof. done. Qed.

Lemma run_git_main (cmd : GitCmd) (s : State) :
  run self (_run_git self cmd None) s =
    match git (project_dir self) Main cmd (world s) with
    | Some (r, w') => Returned r (set_world w' s)
    | None => Stuck s
    end.
Proof.
  unfold run, _run_git, call. cbn. unfold context. rewrite locate_project.
  by destruct (git _ _ _ _) as [[r w']|].
Qed.

Lemma commands_git_main (cmd : GitCmd) (s : State) :
  commands (project_dir self) (_run_git self cmd None) s =
    match git (project_dir self) Main cmd (world s) with
    | Some _ => [(_merge_lock s, project_dir self, cmd)]
    | None => []
    end.
Proof.
  unfold _run_git, call. cbn. unfold context. rewrite locate_project.
  destruct (git _ _ _ _) as [[r w']|]; [|done]. by destruct r.
Qed.

Lemma run_git_child (cmd : GitCmd) (n : string) (s : State) :
  run self (_run_git self cmd (Some (div (worktrees_dir self) n))) s =
    match context (project_dir self) (world s) (div (worktrees_dir self) n) with
    | None => Stuck s
    | Some (inl x) => Raised x s
    | Some (inr ctx) =>
        match git (project_dir self) ctx cmd (world s) with
        | Some (r, w') => Returned r (set_world w' s)
        | None => Stuck s
        end
    end.
Proof.
  unfold run, _run_git, call. cbn.
  destruct (context _ _ _) as [[x|ctx]|]; try done.
  by destruct (git _ _ _ _) as [[r w']|].
Qed.

Lemma run_exists_child (n : string) (s : State) :
  run self (ask (Exists (div (worktrees_dir self) n))) s =
    Returned (bool_decide (is_Some (entry (world s) n))) s.
Proof.
  unfold run, ask, worktrees_dir. cbn. unfold fs_exists.
  by rewrite locate_child.
Qed.

Lemma run_exists_root (s : State) :
  run self (ask (Exists (worktrees_dir self))) s =
    Returned (bool_decide (is_Some (worktrees (world s)))) s.
Proof.
  unfold run, ask, worktrees_dir. cbn. unfold fs_exists.
  by rewrite locate_root.
Qed.

Lemma run_rmtree_child (n : string) (s : State) :
  run self (ask (Rmtree (div (worktrees_dir self) n))) s =
    Returned tt
      (set_world
         (if is_dir (entry (world s) n)
          then set_worktrees (delete n <$> worktrees (world s)) (world s)
          else world s) s).
Proof.
  unfold run, ask, worktrees_dir. cbn. unfold fs_rmtree.
  rewrite locate_child. by destruct (is_dir _).
Qed.

Lemma run_active_get (n : string) (s : State) :
  run self (active_get n) s = Returned (dict_get n (_active_worktrees s)) s.
Proof. done. Qed.

Lemma run_active_set (n : string) (i : WorktreeInfo) (s : State) :
  run self (active_set n i) s =
    Returned tt (set_active (dict_set n i (_active_worktrees s)) s).
Proof. done. Qed.

Lemma run_active_pop (n : string) (s : State) :
  run self (active_pop n) s =
    Returned tt (set_active (dict_pop n (_active_worktrees s)) s).
Proof. done. Qed.

End ManagerSteps.

Section RemoveFacts.

Import pathlib subprocess Py GitModel WorktreeManager Summary.
Local Open Scope prog_scope.

Variable self : Self.

Lemma dict_get_elem {V} (k : string) (d : Dict V) (v : V) :
  dict_get k d = Some v -> (k, v) ∈ d.
Proof.
  induction d as [|[k' v'] d IH]; cbn; [done|].
  destruct (String.eqb_spec k' k) as [->|Hne].
  - intros [= ->]. apply elem_of_cons. by left.
  - intros H. apply elem_of_cons. right. by apply IH.
Qed.

Lemma world_eta (w : World) :
  mkWorld (worktrees w) (registered w) (branches w) (HEAD w) (MERGE_HEAD w) (hook w) = w.
Proof. by destruct w. Qed.

Lemma run_remove_tail (name : string) (db : bool)
    (info : option WorktreeInfo) (s : State) :
  run self
    ((match info with
      | Some i =>
          if db then _run_git self (branch_D (branch i)) None ;; Ret tt
          else Ret tt
      | None => Ret tt
      end) ;;
     active_pop name ;;
     _run_git self worktree_prune None ;;
     Ret tt) s =
  Returned tt
    (mkState (dict_pop name (_active_worktrees s)) (_merge_lock s)
       (git_worktree_prune
          match (if db then branch <$> info else None) with
          | Some b => (git_branch_D b (world s)).2
          | None => world s
          end).2).
Proof.
  destruct s as [d l w]. cbn [_active_worktrees _merge_lock world].
  rewrite run_bind.
  destruct info as [i|]; [destruct db|]; cbn [fmap option_fmap option_map].
  - rewrite run_bind, run_git_main. cbn [git world].
    destruct (git_branch_D (branch i) w) as [r w2]. rewrite run_ret.
    rewrite run_bind, run_active_pop, run_bind, run_git_main. by cbn.
  - rewrite run_ret, run_bind, run_active_pop, run_bind, run_git_main. by cbn.
  - rewrite run_ret, run_bind, run_active_pop, run_bind, run_git_main.
    by destruct db.
Qed.

Lemma run_remove (name : string) (db : bool) (s : State) :
  tracked_paths self (_active_worktrees s) ->
  run self (remove self name db) s = Returned tt (remove_state name db s).
Proof.
  intros Hwf. unfold remove. rewrite run_bind, run_active_get.
  assert (match dict_get name (_active_worktrees s) with
          | Some i => path i
          | None => div (worktrees_dir self) name
          end = div (worktrees_dir self) name) as ->.
  { destruct (dict_get name _) as [i|] eqn:E; [|done].
    apply dict_get_elem in E. by apply Hwf in E. }
  rewrite run_bind, run_exists_child.
  unfold remove_state, remove_world, off_disk.
  rewrite run_bind.
  destruct (bool_decide (is_Some (entry (world s) name))) eqn:Hex.
  - rewrite run_bind, run_git_main. cbn [git]. unfold git_worktree_remove.
    rewrite locate_child.
    destruct (registered (world s) !! name) as [b0|] eqn:Hreg;
      cbn [returncode ok failed Z.eqb].
    + rewrite run_ret. by rewrite run_remove_tail.
    + rewrite run_rmtree_child. by rewrite run_remove_tail.
  - rewrite run_ret. rewrite run_remove_tail. by destruct s.
Qed.

End RemoveFacts.

Section MergeFacts.

Import pathlib subprocess Py GitModel WorktreeManager Summary.
Local Open Scope prog_scope.

Variable self : Self.

Lemma set_HEAD_same (w : World) : set_HEAD (HEAD w) w = w.
Proof. by destruct w. Qed.

Lemma git_checkout_ok (w : World) (b : string) :
  can_checkout w b ->
  exists r, git_checkout b w = (r, set_HEAD b w) /\ returncode r = 0%Z.
Proof.
  intros (Hm & [br Hb] & Hco). unfold git_checkout. rewrite Hm, Hb.
  destruct (decide (HEAD w = b)) as [<-|Hne].
  - eexists. split; [by rewrite set_HEAD_same | done].
  - destruct Hco as [Heq|Hco]; [congruence|].
    rewrite decide_False by done. by eexists.
Qed.


(** On a conflict nothing is merged: the run ends on the base branch with
    the branches as they were and no merge in progress. *)
Lemma run_do_merge_conflict (info : WorktreeInfo) (name : string) (d : bool)
    (s : State) (ours theirs : Branch) :
  can_checkout (world s) (base_branch self) ->
  branches (world s) !! base_branch self = Some ours ->
  branches (world s) !! branch info = Some theirs ->
  merge3 (fork theirs) (tip ours) (tip theirs) = None ->
  run self (_do_merge self info name d) s =
    Returned false (set_world (set_HEAD (base_branch self) (world s)) s).
Proof.
  intros Hco Ho Ht Hc. destruct (git_checkout_ok _ _ Hco) as (r & Hr & Hrc).
  destruct Hco as (Hm & _ & _).
  unfold _do_merge. rewrite run_bind, run_git_main. cbn [git]. rewrite Hr, Hrc.
  cbn [Z.eqb negb]. rewrite run_bind, run_git_main. cbn [git world set_world].
  unfold git_merge. cbn [MERGE_HEAD HEAD branches set_HEAD].
  rewrite Hm, Ho, Ht, Hc. cbn [returncode Z.eqb negb].
  rewrite run_bind, run_git_main. cbn [git world set_world].
  unfold git_merge_abort. cbn [MERGE_HEAD set_MERGE_HEAD]. rewrite run_ret.
  destruct s as [dd l w]. cbn. unfold set_world, set_MERGE_HEAD, set_HEAD. cbn.
  by rewrite <- Hm.
Qed.

(** Without a conflict the base branch gets the merged tree, and the
    sandbox is removed afterwards when asked for. *)
Lemma run_do_merge_clean (info : WorktreeInfo) (name : string) (d : bool)
    (s : State) (ours theirs : Branch) (merged : Tree) :
  tracked_paths self (_active_worktrees s) ->
  can_checkout (world s) (base_branch self) ->
  branches (world s) !! base_branch self = Some ours ->
  branches (world s) !! branch info = Some theirs ->
  merge3 (fork theirs) (tip ours) (tip theirs) = Some merged ->
  run self (_do_merge self info name d) s =
    Returned true
      (let s1 := set_world
                   (merged_world (base_branch self) (branch info) ours theirs
                      merged (world s)) s in
       if d then remove_state name true s1 else s1).
Proof.
  intros Hwf Hco Ho Ht Hc. destruct (git_checkout_ok _ _ Hco) as (r & Hr & Hrc).
  destruct Hco as (Hm & _ & _).
  unfold _do_merge. rewrite run_bind, run_git_main. cbn [git]. rewrite Hr, Hrc.
  cbn [Z.eqb negb]. rewrite run_bind, run_git_main. cbn [git world set_world].
  unfold git_merge. cbn [MERGE_HEAD HEAD branches set_HEAD].
  rewrite Hm, Ho, Ht, Hc. cbn [returncode ok Z.eqb negb].
  rewrite run_bind. destruct d.
  - rewrite run_remove by done. by rewrite run_ret.
  - by rewrite !run_ret.
Qed.

End MergeFacts.

Section RemoveWorld.

Import pathlib subprocess Py GitModel WorktreeManager Summary.

Lemma entry_delete (w : World) (n m : string) :
  entry (set_worktrees (delete n <$> worktrees w) w) m =
    if decide (m = n) then None else entry w m.
Proof.
  unfold entry. cbn. destruct (worktrees w) as [ws|]; cbn.
  - case_decide as E; [subst; apply lookup_delete_eq | by apply lookup_delete_ne].
  - by case_decide.
Qed.

Lemma off_disk_entry (n : string) (w : World) (m : string) :
  m <> n -> entry (off_disk n w) m = entry w m.
Proof.
  intros Hne. unfold off_disk. case_bool_decide; [|done].
  destruct (registered w !! n); [|destruct (is_dir _)]; try done.
  - unfold entry. cbn. destruct (worktrees w); cbn; [|done].
    by rewrite lookup_delete_ne.
  - rewrite entry_delete. by rewrite decide_False.
Qed.

Lemma off_disk_gone (n : string) (w : World) :
  is_dir (entry (off_disk n w) n) = false.
Proof.
  unfold off_disk. case_bool_decide as Hex.
  - destruct (registered w !! n).
    + unfold entry. cbn. destruct (worktrees w); cbn; [|done].
      by rewrite lookup_delete_eq.
    + destruct (is_dir (entry w n)) eqn:Hd; [|done].
      rewrite entry_delete. by rewrite decide_True.
  - destruct (entry w n); [|done]. exfalso. apply Hex. by eexists.
Qed.

Lemma off_disk_registered (n : string) (w : World) (m v : string) :
  registered (off_disk n w) !! m = Some v ->
  registered w !! m = Some v /\ (m = n -> entry w n = None).
Proof.
  unfold off_disk. case_bool_decide as Hex.
  - destruct (registered w !! n) as [b|] eqn:Hr.
    + cbn. intros H. apply lookup_delete_Some in H as [Hne H].
      split; [done | congruence].
    + destruct (is_dir _); cbn; intros H; (split; [done|]); intros ->; congruence.
  - intros H. split; [done|]. intros _.
    destruct (entry w n); [|done]. exfalso. apply Hex. by eexists.
Qed.

Lemma off_disk_fields (n : string) (w : World) :
  HEAD (off_disk n w) = HEAD w /\
  MERGE_HEAD (off_disk n w) = MERGE_HEAD w /\
  branches (off_disk n w) = branches w /\
  hook (off_disk n w) = hook w.
Proof.
  unfold off_disk. case_bool_decide; [|done].
  destruct (registered w !! n); [done|]. by destruct (is_dir _).
Qed.

Lemma git_branch_D_fields (b : string) (w : World) :
  let w' := (git_branch_D b w).2 in
  worktrees w' = worktrees w /\ registered w' = registered w /\
  HEAD w' = HEAD w /\ MERGE_HEAD w' = MERGE_HEAD w /\ hook w' = hook w /\
  (forall x, x <> b -> branches w' !! x = branches w !! x) /\
  (forall x v, branches w' !! x = Some v -> branches w !! x = Some v) /\
  (~ checked_out w b -> branches w' !! b = None).
Proof.
  cbn zeta. unfold git_branch_D. destruct (branches w !! b) as [br|] eqn:Hb.
  - case_decide as Hco; cbn; repeat split; try done.
    + intros x Hx. by rewrite lookup_delete_ne.
    + intros x v Hx. by apply lookup_delete_Some in Hx as [_ ?].
    + intros _. by rewrite lookup_delete_eq.
  - cbn. repeat split; done.
Qed.

Lemma prune_fields (w : World) :
  let w' := (git_worktree_prune w).2 in
  worktrees w' = worktrees w /\ branches w' = branches w /\
  HEAD w' = HEAD w /\ MERGE_HEAD w' = MERGE_HEAD w /\ hook w' = hook w /\
  (forall m, registered w' !! m =
     if is_dir (entry w m) then registered w !! m else None).
Proof.
  cbn. repeat split; try done. intros m.
  destruct (is_dir (entry w m)) eqn:Hd.
  - destruct (registered w !! m) as [v|] eqn:Hr.
    + apply map_lookup_filter_Some. by split.
    + apply map_lookup_filter_None. by left.
  - apply map_lookup_filter_None. right. intros v _. cbn. by rewrite Hd.
Qed.

(** What [remove] leaves of the world. *)
Lemma remove_world_spec (n : string) (b : option string) (w : World) :
  let w' := remove_world n b w in
  HEAD w' = HEAD w /\ MERGE_HEAD w' = MERGE_HEAD w /\ hook w' = hook w /\
  is_dir (entry w' n) = false /\
  registered w' !! n = None /\
  (forall m, m <> n -> entry w' m = entry w m) /\
  (forall m v, registered w' !! m = Some v -> registered w !! m = Some v) /\
  (forall m, m <> n -> is_dir (entry w m) = true ->
     registered w' !! m = registered w !! m) /\
  (forall x v, branches w' !! x = Some v -> branches w !! x = Some v) /\
  (forall x, Some x <> b -> branches w' !! x = branches w !! x) /\
  (forall x, b = Some x -> only_in_sandbox w n x -> branches w' !! x = None).
Proof.
  cbn zeta. unfold remove_world.
  set (w1 := off_disk n w).
  set (w2 := match b with Some b0 => (git_branch_D b0 w1).2 | None => w1 end).
  destruct (off_disk_fields n w) as (H1 & H2 & H3 & H4). fold w1 in H1, H2, H3, H4.
  assert (worktrees w2 = worktrees w1 /\ registered w2 = registered w1 /\
          HEAD w2 = HEAD w1 /\ MERGE_HEAD w2 = MERGE_HEAD w1 /\ hook w2 = hook w1)
    as (Hw & Hr & Hh & Hm & Hk).
  { subst w2. destruct b as [b0|]; [|done].
    destruct (git_branch_D_fields b0 w1) as (? & ? & ? & ? & ? & _). done. }
  assert (forall m, entry w2 m = entry w1 m) as He.
  { intros m. unfold entry. by rewrite Hw. }
  destruct (prune_fields w2) as (Pw & Pb & Ph & Pm & Pk & Pr).
  assert (forall m, entry (git_worktree_prune w2).2 m = entry w1 m) as He'.
  { intros m. unfold entry at 1. rewrite Pw. apply He. }
  repeat split.
  - congruence.
  - congruence.
  - congruence.
  - rewrite He'. apply off_disk_gone.
  - rewrite Pr, He. subst w1. by rewrite off_disk_gone.
  - intros m Hne. rewrite He'. by apply off_disk_entry.
  - intros m v. rewrite Pr. destruct (is_dir _); [|done]. rewrite Hr.
    intros H. by apply off_disk_registered in H as [? _].
  - intros m Hne Hd. rewrite Pr, He. subst w1. rewrite off_disk_entry by done.
    rewrite Hd, Hr. unfold off_disk. case_bool_decide; [|done].
    destruct (registered w !! n); [|by destruct (is_dir (entry w n))].
    cbn. by rewrite lookup_delete_ne.
  - intros x v. rewrite Pb. subst w2. destruct b as [b0|].
    + destruct (git_branch_D_fields b0 w1) as (_ & _ & _ & _ & _ & _ & Hs & _).
      intros H. apply Hs in H. by rewrite H3 in H.
    + by rewrite H3.
  - intros x Hx. rewrite Pb. subst w2. destruct b as [b0|].
    + destruct (git_branch_D_fields b0 w1) as (_ & _ & _ & _ & _ & Hs & _).
      rewrite Hs by congruence. by rewrite H3.
    + by rewrite H3.
  - intros x -> [Hhead Hsole]. rewrite Pb. subst w2.
    destruct (git_branch_D_fields x w1) as (_ & _ & _ & _ & _ & _ & _ & Hs).
    apply Hs. intros [Hc|(m & v & Hmv & ->)].
    + congruence.
    + apply off_disk_registered in Hmv as [Hreg Hent].
      destruct (Hsole m Hreg) as [-> [e He0]]. rewrite Hent in He0; done.
Qed.

End RemoveWorld.

Section MergeTheorems.

Import pathlib subprocess Py GitModel WorktreeManager Summary.
Local Open Scope prog_scope.

Variable self : Self.

Lemma dict_get_pop {V} (k : string) (d : Dict V) : dict_get k (dict_pop k d) = None.
Proof.
  induction d as [|[k' v] d IH]; cbn; [done|].
  destruct (String.eqb k' k) eqn:E; cbn; [done|]. by rewrite E.
Qed.

Lemma dict_get_pop_ne {V} (k k' : string) (d : Dict V) :
  k' <> k -> dict_get k' (dict_pop k d) = dict_get k' d.
Proof.
  intros Hne. unfold dict_pop.
  induction d as [|[k0 v] d IH]; cbn; [done|].
  destruct (String.eqb_spec k0 k) as [->|H0]; cbn.
  - rewrite IH. destruct (String.eqb_spec k k'); [congruence | done].
  - by rewrite IH.
Qed.

Lemma run_merge_sync_tracked (name : string) (d : bool) (s : State)
    (info : WorktreeInfo) :
  dict_get name (_active_worktrees s) = Some info ->
  run self (merge_sync self name d) s = run self (_do_merge self info name d) s.
Proof.
  intros Hi. unfold merge_sync.
  rewrite run_bind, run_active_get, Hi. by rewrite run_bind, run_ret.
Qed.

Lemma run_merge_tracked (name : string) (d : bool) (s : State)
    (info : WorktreeInfo) :
  dict_get name (_active_worktrees s) = Some info ->
  _merge_lock s = false ->
  run self (merge self name d) s =
    match run self (_do_merge self info name d) (set_lock true s) with
    | Returned a s' => Returned a (set_lock false s')
    | Raised e s' => Raised e (set_lock false s')
    | Stuck s' => Stuck s'
    end.
Proof.
  intros Hi Hl. unfold merge.
  rewrite run_bind, run_active_get, Hi. rewrite run_bind, run_ret.
  unfold with_lock, run, exec. cbn [bind ask interp handle]. rewrite Hl.
  rewrite interp_finally. cbn [ask interp handle].
  by destruct (interp _ _ _).
Qed.


Lemma commands_merge_sync_tracked (name : string) (d : bool) (s : State)
    (info : WorktreeInfo) :
  dict_get name (_active_worktrees s) = Some info ->
  commands (project_dir self) (merge_sync self name d) s =
    commands (project_dir self) (_do_merge self info name d) s.
Proof.
  intros Hi. unfold merge_sync. rewrite commands_bind.
  change (exec (project_dir self) (active_get name) s)
    with (run self (active_get name) s).
  rewrite run_active_get, Hi. cbn [commands active_get bind ask app].
  by cbn.
Qed.

Lemma set_lock_false_true (s : State) :
  _merge_lock s = false -> set_lock false (set_lock true s) = s.
Proof. destruct s as [d l w]. cbn. by intros ->. Qed.


(** C10.  [merge] and [merge_sync] switch the main working tree to the base
    branch and leave it there, whatever branch it was on before.  This is
    so too when the merge conflicts and they return False: the abort undoes
    the merge, and the world is the one before the call except that the
    main working tree is now on the base branch. *)
Theorem merge_leaves_main_on_base_branch
    (name : string) (delete_after : bool) (s : State)
    (info : WorktreeInfo) (ours theirs : Branch) :
  dict_get name (_active_worktrees s) = Some info ->
  tracked_paths self (_active_worktrees s) ->
  _merge_lock s = false ->
  can_checkout (world s) (base_branch self) ->
  branches (world s) !! base_branch self = Some ours ->
  branches (world s) !! branch info = Some theirs ->
  exists r s',
    run self (merge self name delete_after) s = Returned r s' /\
    run self (merge_sync self name delete_after) s = Returned r s' /\
    HEAD (world s') = base_branch self /\
    (merge3 (fork theirs) (tip ours) (tip theirs) = None ->
       r = false /\
       s' = set_world (set_HEAD (base_branch self) (world s)) s).
Proof.
  intros Hi Hwf Hl Hco Ho Ht.
  destruct (merge3 (fork theirs) (tip ours) (tip theirs)) as [merged|] eqn:Hc.
  - pose proof (run_do_merge_clean self info name delete_after s ours theirs merged
                  Hwf Hco Ho Ht Hc) as Hsync.
    pose proof (run_do_merge_clean self info name delete_after (set_lock true s)
                  ours theirs merged Hwf Hco Ho Ht Hc) as Hasync.
    cbn zeta in Hsync, Hasync.
    set (wm := merged_world (base_branch self) (branch info) ours theirs merged (world s)) in *.
    exists true, (if delete_after then remove_state name true (set_world wm s)
                  else set_world wm s).
    split; [|split; [|split]].
    + rewrite (run_merge_tracked _ _ _ _ Hi Hl), Hasync. f_equal.
      destruct s as [d l w]. cbn in *. subst l. by destruct delete_after.
    + by rewrite (run_merge_sync_tracked _ _ _ _ Hi), Hsync.
    + destruct delete_after; [|done].
      unfold remove_state. cbn [world set_world].
      by destruct (remove_world_spec name
                     (branch <$> dict_get name (_active_worktrees (set_world wm s))) wm)
        as (R1 & _).
    + done.
  - exists false, (set_world (set_HEAD (base_branch self) (world s)) s).
    split; [|split; [|split]]; [| |done|done].
    + rewrite (run_merge_tracked _ _ _ _ Hi Hl).
      rewrite (run_do_merge_conflict self info name delete_after (set_lock true s) ours theirs)
        by done.
      f_equal. destruct s as [d l w]. cbn in *. by subst l.
    + rewrite (run_merge_sync_tracked _ _ _ _ Hi).
      by rewrite (run_do_merge_conflict self info name delete_after s ours theirs).
Qed.

End MergeTheorems.

Section CommitFacts.

Import pathlib subprocess Py GitModel WorktreeManager Summary.
Local Open Scope prog_scope.

(** C8.  In every environment: when there is no staging sandbox,
    [commit_in_staging] returns False; when there is one and git answers
    the commit, it returns True if the commit succeeded (return code 0),
    True if git reports that there is nothing to commit, and False if the
    commit failed without that report. *)
Theorem commit_in_staging_result {S : Type} (h : Handler S) (self : Self)
    (message : string) (s : S) :
  let staging := div (worktrees_dir self) STAGING_WORKTREE_NAME in
  (forall s1,
     h _ (Exists staging) s = Some (false, s1) ->
     interp h (commit_in_staging self message) s = Returned false s1) /\
  (forall s1 a s2 r s3,
     h _ (Exists staging) s = Some (true, s1) ->
     h _ (Subprocess staging add_all) s1 = Some (inr a, s2) ->
     h _ (Subprocess staging (commit_m message)) s2 = Some (inr r, s3) ->
     (returncode r = 0%Z ->
        interp h (commit_in_staging self message) s = Returned true s3) /\
     (str.contains "nothing to commit" (stdout r +:+ stderr r) = true ->
        interp h (commit_in_staging self message) s = Returned true s3) /\
     (returncode r <> 0%Z ->
        str.contains "nothing to commit" (stdout r +:+ stderr r) = false ->
        interp h (commit_in_staging self message) s = Returned false s3)).
Proof.
  cbn zeta. split.
  - intros s1 He. unfold commit_in_staging, get_staging_path.
    cbn [bind ask interp]. by rewrite He.
  - intros s1 a s2 r s3 He Ha Hc.
    unfold commit_in_staging, get_staging_path, _run_git, call.
    cbn [bind ask interp default from_option id]. rewrite He. cbn [bind interp].
    rewrite Ha. cbn [bind interp]. rewrite Hc. cbn [bind interp].
    repeat split.
    + by intros ->.
    + intros ->. by destruct (returncode r =? 0)%Z.
    + intros Hrc ->. apply Z.eqb_neq in Hrc. by rewrite Hrc.
Qed.

Lemma contains_append (sub a t : string) :
  str.contains sub t = true -> str.contains sub (a +:+ t) = true.
Proof.
  intros H. induction a as [|c a IH]; [done|].
  change (String c a +:+ t) with (String c (a +:+ t)).
  cbn [str.contains]. rewrite IH. apply orb_true_r.
Qed.

Lemma prefix_append (sub a t : string) :
  String.prefix sub a = true -> String.prefix sub (a +:+ t) = true.
Proof.
  revert sub. induction a as [|d a IH]; intros sub.
  - destruct sub; [|done]. intros _. by destruct t.
  - change (String d a +:+ t) with (String d (a +:+ t)).
    destruct sub as [|c sub]; [done|]. cbn [String.prefix].
    destruct (Ascii.ascii_dec c d); [apply IH | done].
Qed.

Lemma contains_append_r (sub a t : string) :
  str.contains sub a = true -> str.contains sub (a +:+ t) = true.
Proof.
  induction a as [|c a IH].
  - cbn [str.contains]. rewrite orb_false_r. intros H.
    destruct sub; [|done]. by destruct t.
  - change (String c a +:+ t) with (String c (a +:+ t)). cbn [str.contains].
    intros H. apply orb_true_iff in H as [H|H].
    + apply (prefix_append _ _ t) in H.
      change (String c a +:+ t) with (String c (a +:+ t)) in H.
      by rewrite H.
    + rewrite (IH H). apply orb_true_r.
Qed.

(** In the model: a staging sandbox that is a linked worktree on an
    existing branch is committed whenever no hook rejects the commit, be
    there changes or not; afterwards the tip of its branch is the content
    of the sandbox. *)
Lemma commit_in_staging_linked (self : Self) (message : string) (s : State)
    (f i : Tree) (b : string) (br : Branch) :
  entry (world s) STAGING_WORKTREE_NAME = Some (Dir f i) ->
  registered (world s) !! STAGING_WORKTREE_NAME = Some b ->
  branches (world s) !! b = Some br ->
  hook (world s) = None ->
  exists s',
    run self (commit_in_staging self message) s = Returned true s' /\
    branches (world s') !! b = Some (mkBranch f (fork br)) /\
    entry (world s') STAGING_WORKTREE_NAME = Some (Dir f f).
Proof.
  intros He Hr Hb Hk.
  assert (exists ws, worktrees (world s) = Some ws /\
                     ws !! STAGING_WORKTREE_NAME = Some (Dir f i)) as (ws & Hws & Hl).
  { unfold entry in He. destruct (worktrees (world s)) as [ws|]; [|done].
    by exists ws. }
  unfold commit_in_staging, get_staging_path.
  rewrite !run_bind, run_exists_child, He.
  rewrite bool_decide_eq_true_2 by by eexists. rewrite run_ret.
  rewrite run_bind, run_git_child. unfold context. rewrite locate_child, He, Hr.
  cbn [git git_add]. rewrite run_bind, run_git_child. unfold context.
  rewrite locate_child. cbn [world set_world].
  unfold entry at 1. cbn [worktrees set_worktrees]. rewrite Hws.
  cbn [fmap option_fmap option_map mbind option_bind].
  rewrite lookup_insert_eq. cbn [registered set_worktrees]. rewrite Hr.
  cbn [git]. unfold git_commit. cbn [hook branches set_worktrees].
  rewrite Hk, Hb.
  destruct (decide (f = tip br)) as [->|Hne].
  - cbn [returncode Z.eqb stdout stderr].
    rewrite contains_append_r
      by (apply contains_append, contains_append; reflexivity).
    rewrite run_ret. eexists. split; [done|]. cbn. split.
    + rewrite Hb. by destruct br.
    + unfold entry. cbn. by rewrite lookup_insert_eq.
  - cbn [returncode ok Z.eqb]. rewrite run_ret. eexists. split; [done|]. cbn.
    split; [by rewrite lookup_insert_eq|].
    unfold entry. cbn. by rewrite lookup_insert_eq.
Qed.

End CommitFacts.

Section TrackingFacts.

Import pathlib subprocess Py GitModel WorktreeManager Summary.

Variable self : Self.

Lemma split_no_slash (n : string) :
  str.has_char "/"%char n = false -> str.split "/"%char n = [n].
Proof.
  induction n as [|c n IH]; [done|]. cbn [str.has_char str.split].
  destruct (Ascii.eqb c "/"); [done|]. cbn [orb]. intros H. by rewrite IH.
Qed.

(** On a plain name Python's [/] appends the name. *)
Lemma truediv_plain (p : Path) (n : string) : plain n -> truediv p n = div p n.
Proof.
  intros (Hne & Hdot & _ & Hs). unfold truediv, div, of_str.
  rewrite split_no_slash by done. cbn [List.filter].
  destruct (String.eqb_spec n "") as [?|_]; [done|].
  destruct (String.eqb_spec n ".") as [?|_]; [done|]. cbn [orb negb].
  unfold str.startswith. destruct n as [|c n]; [done|].
  cbn [str.has_char] in Hs. cbn [String.prefix].
  destruct (ascii_dec "/" c) as [<-|Hc]; [done | done].
Qed.

Lemma well_tracked_paths (d : Dict WorktreeInfo) :
  well_tracked self d -> tracked_paths self d.
Proof.
  intros H kv Hin. destruct (H kv Hin) as [Hp ->]. by apply truediv_plain.
Qed.

End TrackingFacts.

Section CreateFacts.

Import pathlib subprocess Py GitModel WorktreeManager Summary.
Local Open Scope prog_scope.

Variable self : Self.

Lemma run_create (name : string) (branch_name : option string) (s : State) :
  let b := branch_of name branch_name in
  let p := div (worktrees_dir self) name in
  let info := mkInfo p b (base_branch self) true in
  let w2 := create_pre (project_dir self) name b (world s) in
  let rw := git_worktree_add (project_dir self) b p (base_branch self) w2 in
  run self (create self name branch_name) s =
    if (returncode rw.1 =? 0)%Z
    then Returned info
           (mkState (dict_set name info (_active_worktrees s)) (_merge_lock s) rw.2)
    else Raised (WorktreeError ("Failed to create worktree: " +:+ stderr rw.1))
           (set_world rw.2 s).
Proof.
  cbn zeta. unfold create, create_pre. fold (branch_of name branch_name).
  fold (worktrees_dir self).
  rewrite run_bind, run_exists_child. rewrite run_bind.
  destruct (bool_decide (is_Some (entry (world s) name))).
  - rewrite run_bind, run_git_main. cbn [git].
    destruct (git_worktree_remove _ _ _) as [r1 w1]. rewrite run_ret.
    rewrite run_bind, run_git_main. cbn [git world set_world snd].
    destruct (git_branch_D _ w1) as [r2 w2]. cbn [snd].
    rewrite run_bind, run_git_main. cbn [git world set_world].
    destruct (git_worktree_add _ _ _ _ w2) as [r3 w3]. cbn [fst snd].
    destruct (returncode r3 =? 0)%Z; cbn [negb].
    + rewrite run_bind, run_active_set. rewrite run_ret. by destruct s.
    + by destruct s.
  - rewrite run_ret. rewrite run_bind, run_git_main. cbn [git world set_world snd].
    destruct (git_branch_D _ _) as [r2 w2]. cbn [snd].
    rewrite run_bind, run_git_main. cbn [git world set_world].
    destruct (git_worktree_add _ _ _ _ w2) as [r3 w3]. cbn [fst snd].
    destruct (returncode r3 =? 0)%Z; cbn [negb].
    + rewrite run_bind, run_active_set. rewrite run_ret. by destruct s.
    + by destruct s.
Qed.

Lemma git_worktree_remove_refs (repo p : Path) (w : World) :
  refs_exist w -> refs_exist (git_worktree_remove repo p w).2.
Proof.
  intros [Hh Hr]. unfold git_worktree_remove.
  destruct (locate repo p) as [| |n|]; try done.
  destruct (registered w !! n) eqn:E; [|done]. cbn. split; [done|].
  intros m v Hm. cbn in Hm. apply lookup_delete_Some in Hm as [_ Hm].
  by eapply Hr.
Qed.

Lemma git_branch_D_refs (b : string) (w : World) :
  refs_exist w -> refs_exist (git_branch_D b w).2.
Proof.
  intros [Hh Hr]. unfold git_branch_D.
  destruct (branches w !! b) eqn:E; [|done].
  case_decide as Hco; [done|]. split; cbn.
  - rewrite lookup_delete_ne; [done|]. intros ->. apply Hco. by left.
  - intros m v Hm. rewrite lookup_delete_ne; [by eapply Hr|].
    intros ->. apply Hco. right. by exists m, v.
Qed.

Lemma create_pre_refs (name b : string) (w : World) :
  refs_exist w -> refs_exist (create_pre (project_dir self) name b w).
Proof.
  intros H. unfold create_pre. apply git_branch_D_refs.
  case_bool_decide; [by apply git_worktree_remove_refs | done].
Qed.

(** When git adds the worktree, the branch was not there, the start branch
    was, and git had no record of the sandbox. *)
Lemma git_worktree_add_ok (name b start : string) (w : World) :
  let rw := git_worktree_add (project_dir self) b
              (div (worktrees_dir self) name) start w in
  returncode rw.1 = 0%Z ->
  exists sb,
    branches w !! b = None /\ branches w !! start = Some sb /\
    registered w !! name = None /\ rw.2 = added name b (tip sb) w.
Proof.
  cbn zeta. unfold git_worktree_add, worktrees_dir. rewrite locate_child.
  destruct (branches w !! b) eqn:Eb; [done|].
  destruct (branches w !! start) as [sb|] eqn:Es; [|done].
  case_decide as Hreg; [done|].
  destruct (entry w name) as [[f i|]|]; [case_bool_decide| |]; try done.
  - intros _. exists sb. repeat split; try done. by apply eq_None_not_Some.
  - intros _. exists sb. repeat split; try done. by apply eq_None_not_Some.
Qed.

Lemma git_worktree_add_fresh (name b start : string) (sb : Branch) (w : World) :
  branches w !! b = None -> branches w !! start = Some sb ->
  registered w !! name = None -> entry w name = None ->
  git_worktree_add (project_dir self) b (div (worktrees_dir self) name) start w =
    (ok "", added name b (tip sb) w).
Proof.
  intros Hb Hs Hr He. unfold git_worktree_add, worktrees_dir.
  rewrite locate_child, Hb, Hs, He. rewrite decide_False; [done|].
  rewrite Hr. by intros [? ?].
Qed.

Lemma dict_set_idem {V} (k : string) (v : V) (d : Dict V) :
  dict_set k v (dict_set k v d) = dict_set k v d.
Proof.
  induction d as [|[k' v'] d IH]; cbn.
  - by rewrite String.eqb_refl.
  - destruct (String.eqb k' k) eqn:E; cbn; rewrite E; [done | by rewrite IH].
Qed.

(** After git added the worktree and something was written into it, the
    next [create] finds the sandbox, has git remove it and delete its
    branch, and so comes back to the world before the worktree was added,
    without the sandbox. *)
Lemma create_pre_after_creation (name b : string) (T t i : Tree) (w2 : World) :
  refs_exist w2 -> branches w2 !! b = None -> registered w2 !! name = None ->
  create_pre (project_dir self) name b (written name t i (added name b T w2)) =
    set_worktrees (Some (delete name (default ∅ (worktrees w2)))) w2.
Proof.
  intros [Hh Hr] Hb Hreg. unfold create_pre.
  assert (entry (written name t i (added name b T w2)) name = Some (Dir t i)) as He.
  { unfold entry. cbn. by rewrite lookup_insert_eq. }
  rewrite He. rewrite bool_decide_eq_true_2 by by eexists.
  unfold git_worktree_remove. rewrite locate_child.
  cbn [registered written added set_worktrees set_registered set_branches].
  rewrite lookup_insert_eq. cbn [snd].
  unfold git_branch_D.
  cbn [branches worktrees registered HEAD MERGE_HEAD hook
       set_worktrees set_registered set_branches written added].
  rewrite lookup_insert_eq.
  rewrite decide_False.
  - cbn [snd set_branches fmap option_fmap option_map
         branches worktrees registered HEAD MERGE_HEAD hook].
    rewrite delete_insert_id by done. rewrite delete_insert_id by done.
    rewrite !delete_insert_eq. by destruct w2.
  - unfold checked_out. intros [Hc|(m & v & Hm & ->)].
    + cbn in Hc. rewrite Hc, Hb in Hh. by destruct Hh.
    + cbn in Hm. rewrite delete_insert_id in Hm by done.
      apply Hr in Hm. rewrite Hb in Hm. by destruct Hm.
Qed.

(** Where the sandbox in the way is one that a [create] made: after a
    [create] that succeeded, whatever has been written into the sandbox
    since, a second [create] of the same name first has git force-remove
    the existing sandbox and then succeeds with the same result; the world is again the one the first creation left: the
    sandbox holds the content of the base branch and nothing else, on a
    branch newly made from the base branch. *)
Theorem create_twice_leaves_no_artifacts
    (name : string) (branch_name : option string) (s s1 : State)
    (info : WorktreeInfo) (t i : Tree) :
  refs_exist (world s) ->
  run self (create self name branch_name) s = Returned info s1 ->
  let s1' := set_world (written name t i (world s1)) s1 in
  (exists rest,
     commands (project_dir self) (create self name branch_name) s1' =
       (_merge_lock s1', project_dir self,
        worktree_remove_force (div (worktrees_dir self) name)) :: rest) /\
  run self (create self name branch_name) s1' = Returned info s1 /\
  exists base,
    branches (world s1) !! base_branch self = Some base /\
    entry (world s1) name = Some (Dir (tip base) (tip base)) /\
    branch info = branch_of name branch_name /\
    branches (world s1) !! branch info = Some (mkBranch (tip base) (tip base)) /\
    registered (world s1) !! name = Some (branch info).
Proof.
  intros Hrefs Hrun. cbn zeta.
  pose proof (run_create name branch_name s) as Hc. cbn zeta in Hc.
  rewrite Hc in Hrun. clear Hc.
  set (b := branch_of name branch_name) in *.
  set (w2 := create_pre (project_dir self) name b (world s)) in *.
  assert (refs_exist w2) as Hrefs2 by by apply create_pre_refs.
  destruct (returncode _ =? 0)%Z eqn:Hrc; [|done].
  apply Z.eqb_eq in Hrc.
  destruct (git_worktree_add_ok name b (base_branch self) w2 Hrc)
    as (sb & Hb & Hs & Hreg & Hw).
  rewrite Hw in Hrun. injection Hrun as <- <-.
  cbn [world _active_worktrees _merge_lock set_world].
  assert (b <> base_branch self) as Hne by (intros E; congruence).
  split; [|split].
  - unfold create. fold b. fold (worktrees_dir self).
    rewrite commands_bind.
    change (exec (project_dir self) ?m ?st) with (run self m st).
    rewrite run_exists_child. cbn [world set_world].
    assert (entry (written name t i (added name b (tip sb) w2)) name = Some (Dir t i)) as He.
    { unfold entry. cbn. by rewrite lookup_insert_eq. }
    rewrite He. rewrite bool_decide_eq_true_2 by by eexists.
    rewrite commands_exists. cbn [app].
    rewrite commands_bind, commands_bind, commands_git_main. cbn [git app].
    by eexists.
  - pose proof (run_create name branch_name
                  (set_world (written name t i (added name b (tip sb) w2))
                     (mkState
                        (dict_set name
                           (mkInfo (div (worktrees_dir self) name) b
                              (base_branch self) true) (_active_worktrees s))
                        (_merge_lock s) (added name b (tip sb) w2)))) as Hc.
    cbn zeta in Hc. fold b in Hc.
    cbn [world set_world _active_worktrees _merge_lock] in Hc.
    rewrite create_pre_after_creation in Hc by done.
    rewrite (git_worktree_add_fresh name b (base_branch self) sb) in Hc.
    + cbn [fst snd returncode ok Z.eqb] in Hc. rewrite Hc. f_equal.
      rewrite dict_set_idem. f_equal.
      unfold added. cbn. rewrite insert_delete_eq. done.
    + done.
    + done.
    + done.
    + unfold entry. cbn. by rewrite lookup_delete_eq.
  - exists sb. cbn. repeat split.
    + by rewrite lookup_insert_ne.
    + unfold entry. cbn. by rewrite lookup_insert_eq.
    + by rewrite lookup_insert_eq.
    + by rewrite lookup_insert_eq.
Qed.


Lemma create_pre_leftover (name b : string) (w : World) (f i : Tree) :
  entry w name = Some (Dir f i) -> registered w !! name = None ->
  let w2 := create_pre (project_dir self) name b w in
  entry w2 name = Some (Dir f i) /\ registered w2 !! name = None.
Proof.
  intros He Hr. cbn zeta. unfold create_pre.
  rewrite bool_decide_eq_true_2 by (rewrite He; by eexists).
  unfold git_worktree_remove. rewrite locate_child, Hr. cbn [snd].
  destruct (git_branch_D_fields b w) as (Dw & Dr & _). cbn zeta in *.
  split; [|by rewrite Dr]. unfold entry. rewrite Dw. exact He.
Qed.

(** C6 does not hold of a directory that git has no record of.  With such
    a directory, not empty, under a plain name: [create] first has git
    force-remove it; git refuses (the directory is not a working tree)
    and leaves everything as it is; [create], which does not look at that
    answer, goes on, git refuses to add a worktree over the directory, and
    [create] raises [WorktreeError]: the directory and its content are
    still there, and nothing new is tracked.  [remove], in the same state,
    does take the directory away, since it deletes the tree itself when
    git refuses. *)
Theorem create_raises_over_unregistered_leftover
    (name : string) (branch_name : option string) (s : State) (f i : Tree) :
  plain name ->
  entry (world s) name = Some (Dir f i) ->
  f <> ∅ ->
  registered (world s) !! name = None ->
  well_tracked self (_active_worktrees s) ->
  let p := truediv (worktrees_dir self) name in
  (exists rest,
     commands (project_dir self) (create self name branch_name) s =
       (_merge_lock s, project_dir self, worktree_remove_force p) :: rest) /\
  (returncode (git_worktree_remove (project_dir self) p (world s)).1 = 128%Z /\
   (git_worktree_remove (project_dir self) p (world s)).2 = world s) /\
  (exists msg s',
     run self (create self name branch_name) s =
       Raised (WorktreeError ("Failed to create worktree: " +:+ msg)) s' /\
     entry (world s') name = Some (Dir f i) /\
     _active_worktrees s' = _active_worktrees s) /\
  (exists s',
     run self (remove self name false) s = Returned tt s' /\
     is_dir (entry (world s') name) = false).
Proof.
  intros Hplain He Hf Hr Hwt. pose proof (well_tracked_paths self _ Hwt) as Hwf.
  cbn zeta. rewrite (truediv_plain _ _ Hplain). split; [|split; [|split]].
  - unfold create. fold (worktrees_dir self).
    rewrite commands_bind.
    change (exec (project_dir self) ?m ?st) with (run self m st).
    rewrite run_exists_child, He.
    rewrite bool_decide_eq_true_2 by by eexists.
    rewrite commands_exists. cbn [app].
    rewrite commands_bind, commands_bind, commands_git_main. cbn [git app].
    by eexists.
  - unfold git_worktree_remove, worktrees_dir. by rewrite locate_child, Hr.
  - pose proof (run_create name branch_name s) as Hc. cbn zeta in Hc.
    set (b := branch_of name branch_name) in *.
    set (w2 := create_pre (project_dir self) name b (world s)) in *.
    destruct (create_pre_leftover name b (world s) f i He Hr) as [He2 Hr2].
    fold w2 in He2, Hr2. rewrite Hc.
    unfold git_worktree_add, worktrees_dir. rewrite locate_child, He2, Hr2.
    destruct (branches w2 !! b), (branches w2 !! base_branch self);
      try (cbn; by eexists _, _).
    rewrite decide_False by (intros [? ?]; done).
    rewrite bool_decide_eq_false_2 by done. cbn. by eexists _, _.
  - exists (remove_state name false s). split; [by apply run_remove|].
    unfold remove_state. cbn [world].
    by destruct (remove_world_spec name None (world s)) as (_ & _ & _ & Hd & _).
Qed.

End CreateFacts.

Section CleanupFacts.

Import pathlib subprocess Py GitModel WorktreeManager Summary.
Local Open Scope prog_scope.

Variable self : Self.

Lemma run_for_each {X} (I : State -> Prop) (body : X -> Prog unit)
    (step : X -> State -> State) (xs : list X) (s : State) :
  (forall x s, I s -> run self (body x) s = Returned tt (step x s)) ->
  (forall x s, I s -> I (step x s)) ->
  I s ->
  run self (for_each xs body) s = Returned tt (foldl (fun s x => step x s) s xs) /\
  I (foldl (fun s x => step x s) s xs).
Proof.
  intros Hbody Hstep. revert s. induction xs as [|x xs IH]; intros s Hs.
  - done.
  - cbn [for_each foldl]. rewrite run_bind, Hbody by done.
    apply IH. by apply Hstep.
Qed.

Lemma filter_filter_and {X} (f g : X -> bool) (l : list X) :
  List.filter f (List.filter g l) = List.filter (fun a => g a && f a) l.
Proof.
  induction l as [|a l IH]; [done|]. cbn.
  destruct (g a); cbn; [destruct (f a)|]; by rewrite IH.
Qed.


Lemma tracked_paths_filter (f : string * WorktreeInfo -> bool) (d : Dict WorktreeInfo) :
  tracked_paths self d -> tracked_paths self (List.filter f d).
Proof.
  intros H kv Hkv. apply H. apply list_elem_of_In in Hkv.
  apply filter_In in Hkv as [Hkv _]. by apply list_elem_of_In.
Qed.










End CleanupFacts.

Section StringFacts.

Import pathlib Summary.

Lemma append_cons (x : ascii) (a b : string) :
  String x a +:+ b = String x (a +:+ b).
Proof. done. Qed.

Lemma append_nil_l (b : string) : "" +:+ b = b.
Proof. done. Qed.

Lemma append_assoc (a b c : string) : (a +:+ b) +:+ c = a +:+ (b +:+ c).
Proof.
  induction a as [|x a IH]; [done|]. rewrite !append_cons. by rewrite IH.
Qed.

Lemma append_nil_r (a : string) : a +:+ "" = a.
Proof.
  induction a as [|x a IH]; [done|]. rewrite append_cons. by rewrite IH.
Qed.

Lemma has_char_append (c : ascii) (a b : string) :
  str.has_char c (a +:+ b) = str.has_char c a || str.has_char c b.
Proof.
  induction a as [|x a IH]; [done|]. rewrite append_cons. cbn [str.has_char].
  rewrite IH. by rewrite orb_assoc.
Qed.

Lemma split_nonempty (sep : ascii) (s : string) : str.split sep s <> [].
Proof.
  induction s as [|x s IH]; [done|]. cbn [str.split].
  destruct (Ascii.eqb x sep); [done|]. by destruct (str.split sep s).
Qed.

(** A part without the separator is split off whole. *)
Lemma split_append (sep : ascii) (a rest : string) :
  str.has_char sep a = false ->
  str.split sep (a +:+ String sep rest) = a :: str.split sep rest.
Proof.
  induction a as [|x a IH].
  - intros _. rewrite append_nil_l. cbn [str.split]. by rewrite Ascii.eqb_refl.
  - cbn [str.has_char]. intros H. apply orb_false_iff in H as [Hx Ha].
    rewrite append_cons. cbn [str.split]. rewrite Hx. by rewrite IH.
Qed.

Lemma split_whole (sep : ascii) (a : string) :
  str.has_char sep a = false -> str.split sep a = [a].
Proof.
  induction a as [|x a IH]; [done|].
  cbn [str.has_char str.split]. intros H.
  apply orb_false_iff in H as [Hx Ha]. rewrite Hx. by rewrite IH.
Qed.

Lemma split_slash (X : string) :
  str.split "/"%char (String "/"%char X) = "" :: str.split "/"%char X.
Proof. done. Qed.

Lemma split_to_str (cs : Path) :
  Forall clean cs -> cs <> [] ->
  str.split "/"%char (foldr (fun c acc => "/" +:+ c +:+ acc) "" cs) = "" :: cs.
Proof.
  induction cs as [|c cs IH]; [done|]. intros Hcl _.
  apply Forall_cons in Hcl as [(_ & _ & Hs & _) Hcl].
  cbn [foldr]. rewrite append_cons, append_nil_l, split_slash. f_equal.
  destruct cs as [|c2 cs].
  - cbn [foldr]. rewrite append_nil_r. by apply split_whole.
  - specialize (IH Hcl ltac:(done)). cbn [foldr] in IH |- *.
    rewrite append_cons, append_nil_l in IH |- *.
    rewrite split_slash in IH. injection IH as IH.
    rewrite split_append by done. by rewrite IH.
Qed.

Lemma filter_clean (l : list string) :
  Forall clean l ->
  List.filter (fun c => negb (String.eqb c "" || String.eqb c ".")) l = l.
Proof.
  induction 1 as [|d ds (Hd1 & Hd2 & _) _ IH]; [done|].
  cbn [List.filter].
  destruct (String.eqb_spec d ""); [done|].
  destruct (String.eqb_spec d "."); [done|]. cbn. by rewrite IH.
Qed.

(** Parsing the text of a clean path gives the path back. *)
Lemma of_str_to_str (p : Path) : Forall clean p -> of_str (to_str p) = p.
Proof.
  intros Hcl. destruct p as [|c cs]; [done|].
  unfold of_str, to_str. rewrite split_to_str by done.
  change (List.filter ?f ("" :: ?l)) with (List.filter f l).
  by apply filter_clean.
Qed.

Lemma to_str_no_nl (p : Path) :
  Forall clean p -> str.has_char (Ascii.ascii_of_nat 10) (to_str p) = false.
Proof.
  intros Hcl. destruct p as [|c cs]; [done|]. unfold to_str.
  induction Hcl as [|d ds (_ & _ & _ & Hd) _ IH]; [done|].
  cbn [foldr]. rewrite !has_char_append, Hd, IH. done.
Qed.

End StringFacts.

Section PorcelainFacts.

Import pathlib subprocess Py GitModel WorktreeManager Summary.

Local Abbreviation nlc := (Ascii.ascii_of_nat 10).

Lemma split_line (a R : string) :
  str.has_char nlc a = false ->
  str.split nlc (a +:+ nl +:+ R) = a :: str.split nlc R.
Proof.
  intros H. change (nl +:+ R) with (String nlc R). by apply split_append.
Qed.

Lemma prefix_self (a X : string) : String.prefix a (a +:+ X) = true.
Proof.
  induction a as [|c a IH]; [by destruct X|].
  rewrite append_cons. cbn [String.prefix].
  by destruct (Ascii.ascii_dec c c).
Qed.

Lemma add_registered_worktree (acc : gset Path) (X : string) :
  add_registered acc ("worktree " +:+ X) = {[ of_str X ]} ∪ acc.
Proof.
  unfold add_registered, str.startswith. rewrite prefix_self.
  rewrite !append_cons, append_nil_l. reflexivity.
Qed.

Lemma add_registered_branch (acc : gset Path) (b : string) :
  add_registered acc ("branch refs/heads/" +:+ b) = acc.
Proof.
  unfold add_registered, str.startswith.
  rewrite !append_cons, append_nil_l. reflexivity.
Qed.

(** The lines of one record add its path. *)
Lemma add_registered_record (p : Path) (b rest : string) (acc : gset Path) :
  Forall clean p -> str.has_char nlc b = false ->
  foldl add_registered acc (str.split nlc (porcelain_record p b +:+ rest)) =
    foldl add_registered ({[ p ]} ∪ acc) (str.split nlc rest).
Proof.
  intros Hp Hb. unfold porcelain_record.
  rewrite (append_assoc ("worktree " +:+ to_str p)).
  rewrite (append_assoc nl).
  rewrite (append_assoc "HEAD 0000000000000000000000000000000000000000").
  rewrite (append_assoc nl).
  rewrite (append_assoc ("branch refs/heads/" +:+ b)).
  rewrite (append_assoc nl).
  rewrite split_line.
  2:{ rewrite has_char_append. by rewrite (to_str_no_nl p Hp). }
  rewrite split_line by done.
  rewrite split_line.
  2:{ rewrite has_char_append. by rewrite Hb. }
  change (nl +:+ rest) with ("" +:+ nl +:+ rest).
  rewrite split_line by done.
  cbn [foldl]. rewrite add_registered_worktree, add_registered_branch.
  by rewrite of_str_to_str.
Qed.

Lemma add_registered_records (repo : Path) (l : list (string * string))
    (acc : gset Path) :
  Forall clean repo ->
  (forall nb, nb ∈ l -> clean nb.1 /\ str.has_char nlc nb.2 = false) ->
  foldl add_registered acc
    (str.split nlc
       (foldr (fun nb acc =>
                 porcelain_record (div (div repo ".worktrees") nb.1) nb.2 +:+ acc)
              "" l)) =
  list_to_set (map (fun nb => div (div repo ".worktrees") nb.1) l) ∪ acc.
Proof.
  intros Hrepo. revert acc. induction l as [|nb l IH]; intros acc Hl.
  - cbn. set_solver.
  - cbn [foldr map list_to_set].
    destruct (Hl nb ltac:(apply elem_of_cons; by left)) as [Hn Hb].
    rewrite add_registered_record; [| |done].
    + rewrite IH; [set_solver|]. intros x Hx. apply Hl. apply elem_of_cons. by right.
    + unfold div. rewrite !Forall_app. repeat split; try done.
      * apply Forall_cons. split; [|done]. by repeat split.
      * by apply Forall_cons.
Qed.

(** The parser of [_cleanup_stale_worktrees] finds exactly the path of the
    project and the paths of the linked worktrees git has a record of. *)
Lemma registered_paths_spec (repo : Path) (w : World) (P : Path) :
  hygiene repo w ->
  P ∈ registered_paths_of (porcelain repo w) <->
  P = repo \/
  exists n, is_Some (registered w !! n) /\ P = div (div repo ".worktrees") n.
Proof.
  intros (Hrepo & Hhead & Hreg). unfold registered_paths_of, porcelain.
  fold nlc. rewrite add_registered_record by done.
  rewrite add_registered_records; [|done|].
  - rewrite elem_of_union, elem_of_union, elem_of_list_to_set,
            elem_of_singleton, list_elem_of_fmap.
    split.
    + intros [([n b] & -> & Hin)|[->|H]].
      * right. exists n. split; [|done].
        apply elem_of_map_to_list in Hin. by eexists.
      * by left.
      * by apply not_elem_of_empty in H.
    + intros [->|(n & [b Hb] & ->)].
      * right. by left.
      * left. exists (n, b). split; [done|]. by apply elem_of_map_to_list.
  - intros [n b] Hin. apply elem_of_map_to_list in Hin. by apply Hreg in Hin.
Qed.

Lemma div_inj (p : Path) (n m : string) : div p n = div p m -> n = m.
Proof. unfold div. intros H. apply app_inv_head in H. by injection H. Qed.

Lemma div_div_ne (p : Path) (a b : string) : div (div p a) b <> p.
Proof.
  unfold div. intros H. apply (f_equal length) in H.
  rewrite !length_app in H. cbn in H. lia.
Qed.

(** An item of [.worktrees] is in the parsed set exactly when git has a
    record of a linked worktree of that name. *)
Lemma item_registered (repo : Path) (w : World) (n : string) :
  hygiene repo w ->
  div (div repo ".worktrees") n ∈ registered_paths_of (porcelain repo w) <->
  is_Some (registered w !! n).
Proof.
  intros H. rewrite registered_paths_spec by done. split.
  - intros [E|(m & Hm & E)].
    + by apply div_div_ne in E.
    + apply div_inj in E. by subst.
  - intros Hn. right. by exists n.
Qed.

End PorcelainFacts.

Section SetupFacts.

Import pathlib subprocess Py GitModel WorktreeManager Summary.
Local Open Scope prog_scope.

Variable self : Self.

Lemma name_div (p : Path) (n : string) : name (div p n) = n.
Proof. unfold name, div. apply last_last. Qed.

Lemma run_mkdir_root (s : State) :
  run self (call (Mkdir (worktrees_dir self))) s =
    Returned tt
      (set_world (set_worktrees (Some (default ∅ (worktrees (world s)))) (world s)) s).
Proof.
  unfold run, exec, call, worktrees_dir. cbn [interp handle]. unfold fs_mkdir.
  by rewrite locate_root.
Qed.

Lemma run_iterdir_root (s : State) (ws : gmap string Entry) :
  worktrees (world s) = Some ws ->
  run self (call (Iterdir (worktrees_dir self))) s =
    Returned (map (fun ne => div (worktrees_dir self) ne.1) (map_to_list ws)) s.
Proof.
  intros H. unfold run, exec, call, worktrees_dir. cbn [interp handle].
  unfold fs_iterdir. rewrite locate_root, H. done.
Qed.

Lemma run_is_dir_child (n : string) (s : State) :
  run self (ask (IsDir (div (worktrees_dir self) n))) s =
    Returned (is_dir (entry (world s) n)) s.
Proof.
  unfold run, exec, ask, worktrees_dir. cbn [interp handle]. unfold fs_is_dir.
  by rewrite locate_child.
Qed.

Lemma run_cleanup_item (paths : gset Path) (n : string) (s : State) :
  run self (cleanup_item self paths (div (worktrees_dir self) n)) s =
    Returned tt (set_world (stale_step (project_dir self) paths n (world s)) s).
Proof.
  unfold cleanup_item, stale_step. rewrite run_bind, run_is_dir_child.
  fold (worktrees_dir self).
  destruct (is_dir (entry (world s) n)) eqn:Hd; [|by destruct s].
  rewrite name_div.
  destruct (String.eqb n STAGING_WORKTREE_NAME); [by destruct s|].
  destruct (negb _).
  - rewrite run_rmtree_child. by rewrite Hd.
  - rewrite run_bind, run_git_main. cbn [git].
    destruct (git_worktree_remove _ _ _) as [r w']. by rewrite run_ret.
Qed.

Lemma for_each_map {X Y} (f : X -> Y) (l : list X) (body : Y -> Prog unit) :
  for_each (map f l) body = for_each l (fun x => body (f x)).
Proof. induction l as [|x l IH]; [done|]. cbn. by rewrite IH. Qed.

Lemma fold_stale_state (paths : gset Path) (names : list string) (s : State) :
  foldl (fun st n => set_world (stale_step (project_dir self) paths n (world st)) st)
        s names =
  set_world (foldl (fun w n => stale_step (project_dir self) paths n w)
               (world s) names) s.
Proof.
  revert s. induction names as [|n names IH]; intros s; cbn [foldl].
  - by destruct s.
  - rewrite IH. by destruct s.
Qed.

Lemma stale_inv_init (w0 : World) : stale_inv w0 [] w0.
Proof.
  unfold stale_inv. repeat split; try done.
  intros m Hm. by apply not_elem_of_nil in Hm.
Qed.

Lemma stale_inv_step (w0 wk : World) (seen : list string) (n : string) :
  hygiene (project_dir self) w0 ->
  stale_inv w0 seen wk ->
  stale_inv w0 (seen ++ [n])
    (stale_step (project_dir self)
       (registered_paths_of (porcelain (project_dir self) w0)) n wk).
Proof.
  intros Hhy (Ib & Ih & Im & Iroot & If & Id & Ik).
  assert (forall m, m ∉ seen ++ [n] \/ m = STAGING_WORKTREE_NAME ->
            (m ∉ seen \/ m = STAGING_WORKTREE_NAME) /\
            (m = n -> n = STAGING_WORKTREE_NAME)) as Hsplit.
  { intros m [Hm| ->]; [|by split; [right|]].
    rewrite elem_of_app, list_elem_of_singleton in Hm. split; [left|]; tauto. }
  unfold stale_step.
  destruct (is_dir (entry wk n)) eqn:Hd.
  2:{ unfold stale_inv. repeat split; try done.
      - apply If. by apply Hsplit.
      - apply If. by apply Hsplit.
      - intros m Hm Hne. apply elem_of_app in Hm as [Hm|Hm]; [by apply Id|].
        apply list_elem_of_singleton in Hm. by subst. }
  destruct (String.eqb_spec n STAGING_WORKTREE_NAME) as [Hn|Hn].
  { unfold stale_inv. repeat split; try done.
    - apply If. by apply Hsplit.
    - apply If. by apply Hsplit.
    - intros m Hm Hne. apply elem_of_app in Hm as [Hm|Hm]; [by apply Id|].
      apply list_elem_of_singleton in Hm. congruence. }
  assert (n ∉ seen) as Hns.
  { intros Hin. rewrite (Id n Hin Hn) in Hd. done. }
  destruct (If n (or_introl Hns)) as [Hen Hrn].
  assert (forall m, is_dir (entry w0 m) = false -> m <> n) as Hfile.
  { intros m Hm ->. rewrite <- Hen in Hm. congruence. }
  fold (worktrees_dir self).
  destruct (bool_decide (div (worktrees_dir self) n ∈ _)) eqn:Hin; cbn [negb].
  - apply bool_decide_eq_true in Hin. unfold worktrees_dir in Hin.
    apply (item_registered _ _ _ Hhy) in Hin. rewrite <- Hrn in Hin.
    destruct Hin as [b Hb]. unfold git_worktree_remove.
    rewrite locate_child, Hb. cbn [snd].
    unfold stale_inv. cbn [branches HEAD MERGE_HEAD worktrees registered
                           set_registered set_worktrees].
    repeat split; try done.
    + intros Hr. destruct (Iroot Hr) as [ws ->]. by eexists.
    + destruct (Hsplit m H) as [Hm Hmn].
      change (entry (set_worktrees (delete n <$> worktrees wk) wk) m = entry w0 m).
      rewrite entry_delete. rewrite decide_False by (intros ->; tauto).
      by apply If.
    + destruct (Hsplit m H) as [Hm Hmn].
      rewrite lookup_delete_ne by (intros ->; tauto). by apply If.
    + intros m Hm Hne.
      change (is_dir (entry (set_worktrees (delete n <$> worktrees wk) wk) m) = false).
      rewrite entry_delete. destruct (decide (m = n)); [done|].
      apply elem_of_app in Hm as [Hm|Hm]; [by apply Id|].
      by apply list_elem_of_singleton in Hm.
    + intros m Hm.
      change (entry (set_worktrees (delete n <$> worktrees wk) wk) m = entry w0 m).
      rewrite entry_delete. rewrite decide_False by by apply Hfile.
      by apply Ik.
  - unfold stale_inv. cbn [branches HEAD MERGE_HEAD worktrees registered set_worktrees].
    repeat split; try done.
    + intros Hr. destruct (Iroot Hr) as [ws ->]. by eexists.
    + destruct (Hsplit m H) as [Hm Hmn].
      rewrite entry_delete. rewrite decide_False by (intros ->; tauto).
      by apply If.
    + destruct (Hsplit m H) as [Hm Hmn]. by apply If.
    + intros m Hm Hne. rewrite entry_delete. destruct (decide (m = n)); [done|].
      apply elem_of_app in Hm as [Hm|Hm]; [by apply Id|].
      by apply list_elem_of_singleton in Hm.
    + intros m Hm. rewrite entry_delete. rewrite decide_False by by apply Hfile.
      by apply Ik.
Qed.

Lemma stale_inv_fold (w0 : World) (names : list string) :
  hygiene (project_dir self) w0 ->
  stale_inv w0 names
    (foldl (fun w n => stale_step (project_dir self)
                         (registered_paths_of (porcelain (project_dir self) w0)) n w)
           w0 names).
Proof.
  intros Hhy. induction names as [|n names IH] using rev_ind.
  - apply stale_inv_init.
  - rewrite foldl_app. cbn [foldl]. by apply stale_inv_step.
Qed.

Lemma run_stale_loop (paths : gset Path) (names : list string) (s : State) :
  run self
    (for_each (map (fun n => div (worktrees_dir self) n) names)
       (cleanup_item self paths)) s =
    Returned tt
      (set_world (foldl (fun w n => stale_step (project_dir self) paths n w)
                    (world s) names) s).
Proof.
  rewrite for_each_map.
  destruct (run_for_each self (fun _ => True)
              (fun n => cleanup_item self paths (div (worktrees_dir self) n))
              (fun n st => set_world (stale_step (project_dir self) paths n (world st)) st)
              names s) as [Hrun _]; try done.
  - intros n st _. apply run_cleanup_item.
  - by rewrite Hrun, fold_stale_state.
Qed.

(** Where git refuses no removal.  [setup] returns with [.worktrees] in place.
    The staging sandbox is untouched, and so is git's record of it.  Every
    other directory under [.worktrees] is removed, whether git has a record
    of it or not; so no directory other than staging remains, and one that
    remained would have been registered.  What is not a directory stays,
    and so do the branches and what the manager tracks. *)
Theorem setup_removes_all_sandboxes_but_staging (s : State) :
  hygiene (project_dir self) (world s) ->
  exists s',
    run self (setup self) s = Returned tt s' /\
    is_Some (worktrees (world s')) /\
    entry (world s') STAGING_WORKTREE_NAME = entry (world s) STAGING_WORKTREE_NAME /\
    (is_dir (entry (world s) STAGING_WORKTREE_NAME) = true ->
       registered (world s') !! STAGING_WORKTREE_NAME =
       registered (world s) !! STAGING_WORKTREE_NAME) /\
    (forall n, n <> STAGING_WORKTREE_NAME -> is_dir (entry (world s') n) = false) /\
    (forall n, n <> STAGING_WORKTREE_NAME -> is_dir (entry (world s') n) = true ->
       is_Some (registered (world s) !! n)) /\
    (forall n, is_dir (entry (world s) n) = false ->
       entry (world s') n = entry (world s) n) /\
    branches (world s') = branches (world s) /\
    HEAD (world s') = HEAD (world s) /\
    _active_worktrees s' = _active_worktrees s.
Proof.
  intros Hhy. unfold setup. rewrite run_bind, run_mkdir_root.
  set (ws := default ∅ (worktrees (world s))).
  set (w1 := set_worktrees (Some ws) (world s)).
  assert (forall m, entry w1 m = entry (world s) m) as He1.
  { intros m. unfold entry, w1, ws. cbn. by destruct (worktrees (world s)). }
  assert (hygiene (project_dir self) w1) as Hhy1 by done.
  unfold _cleanup_stale_worktrees.
  rewrite run_bind, run_exists_root. cbn [world set_world worktrees w1 set_worktrees].
  rewrite bool_decide_eq_true_2 by by eexists. cbn [negb].
  rewrite run_bind, run_git_main. cbn [git world set_world stdout ok].
  rewrite run_bind. rewrite (run_iterdir_root _ ws) by done.
  change (map (fun ne : string * Entry => div (worktrees_dir self) ne.1) (map_to_list ws))
    with (map (fun ne : string * Entry => (fun n => div (worktrees_dir self) n) ne.1)
              (map_to_list ws)).
  rewrite <- (map_map fst (fun n => div (worktrees_dir self) n)).
  rewrite run_bind, run_stale_loop. cbn [world set_world].
  pose proof (stale_inv_fold w1 (map fst (map_to_list ws)) Hhy1) as Hinv.
  fold w1. 
  set (wk := foldl _ w1 _) in *.
  destruct Hinv as (Ib & Ih & Im & Iroot & If & Id & Ik).
  rewrite run_bind, run_git_main. cbn [git]. unfold git_worktree_prune at 1.
  rewrite run_ret. cbn [world set_world].
  change (set_registered _ wk) with (git_worktree_prune wk).2.
  destruct (prune_fields wk) as (Pw & Pb & Ph & Pm & Pk & Pr).
  assert (forall m, entry (git_worktree_prune wk).2 m = entry wk m) as Pe.
  { intros m. unfold entry. by rewrite Pw. }
  assert (forall n, n <> STAGING_WORKTREE_NAME -> is_dir (entry wk n) = false) as Hgone.
  { intros n Hn. destruct (decide (n ∈ map fst (map_to_list ws))) as [Hin|Hin].
    - by apply Id.
    - destruct (If n (or_introl Hin)) as [-> _].
      destruct (entry w1 n) as [e|] eqn:E; [|done]. exfalso. apply Hin.
      apply list_elem_of_fmap. exists (n, e). split; [done|].
      by apply elem_of_map_to_list. }
  eexists. split; [done|]. cbn [world set_world _active_worktrees].
  repeat split.
  - rewrite Pw. apply Iroot. by eexists.
  - rewrite Pe. destruct (If STAGING_WORKTREE_NAME (or_intror eq_refl)) as [-> _].
    apply He1.
  - intros Hd. rewrite Pr.
    destruct (If STAGING_WORKTREE_NAME (or_intror eq_refl)) as [E1 E2].
    rewrite E1, He1, Hd. by rewrite E2.
  - intros n Hn. rewrite Pe. by apply Hgone.
  - intros n Hn Hd. rewrite Pe, Hgone in Hd; done.
  - intros n Hd. rewrite Pe. rewrite <- He1 in Hd |- *. by apply Ik.
  - by rewrite Pb, Ib.
  - by rewrite Ph, Ih.
Qed.

End SetupFacts.

Section QAFacts.

Import qa.

Variable similar : string -> string -> bool.
Variable reviewer : nat -> Verdict.
Variable MAX_QA_ITERATIONS : nat.

Hypothesis similar_refl : forall k, similar k k = true.

Lemma history_upto_S (n : nat) :
  history_upto reviewer (S n) = history_upto reviewer n ++ [mkRecord (S n) (reviewer (S n))].
Proof. unfold history_upto. rewrite seq_S, map_app. done. Qed.

Lemma reports_same_key (issue : string) (i : nat) :
  reported reviewer (_normalize_issue_key issue) i ->
  reports similar issue (mkRecord i (reviewer i)) = true.
Proof.
  intros (j & Hin & Hk). unfold reports. apply existsb_exists.
  exists j. split; [done|]. rewrite Hk. apply similar_refl.
Qed.

(** Three iterations that report the key make three occurrences. *)
Lemma three_occurrences (issue : string) (i1 i2 i3 n : nat) :
  1 <= i1 -> i1 < i2 -> i2 < i3 -> i3 <= n ->
  reported reviewer (_normalize_issue_key issue) i1 ->
  reported reviewer (_normalize_issue_key issue) i2 ->
  reported reviewer (_normalize_issue_key issue) i3 ->
  3 <= occurrences similar issue (history_upto reviewer n).
Proof.
  intros H1 H12 H23 H3 R1 R2 R3. unfold occurrences.
  change 3 with (length [mkRecord i1 (reviewer i1); mkRecord i2 (reviewer i2);
                         mkRecord i3 (reviewer i3)]).
  apply NoDup_incl_length.
  - repeat constructor; cbn; intros H; repeat destruct H as [H|H];
      try injection H; try lia; done.
  - assert (forall i, 1 <= i <= n ->
              reported reviewer (_normalize_issue_key issue) i ->
              In (mkRecord i (reviewer i))
                 (List.filter (reports similar issue) (history_upto reviewer n))) as Hin.
    { intros i Hi Hr. apply filter_In. split; [|by apply reports_same_key].
      unfold history_upto. apply in_map_iff. exists i. split; [done|].
      apply in_seq. lia. }
    intros r [<-|[<-|[<-|[]]]]; apply Hin; (lia || done).
Qed.

Lemma loop_from_escalates (k : string) (i1 i2 i3 : nat) (fuel done : nat) :
  1 <= i1 -> i1 < i2 -> i2 < i3 ->
  (forall i, 1 <= i <= i3 -> reviewer i <> Approved) ->
  reported reviewer k i1 -> reported reviewer k i2 -> reported reviewer k i3 ->
  done < i3 -> i3 <= done + fuel ->
  let r := loop_from similar reviewer fuel done (history_upto reviewer done) in
  r.1 = escalated /\ exists m, done < m <= i3 /\ r.2 = history_upto reviewer m.
Proof.
  intros H1 H12 H23 Hrej R1 R2 R3. revert done.
  induction fuel as [|fuel IH]; intros done Hd Hf; [lia|].
  cbn zeta. cbn [loop_from]. rewrite <- history_upto_S.
  destruct (reviewer (S done)) as [|issues] eqn:Hv.
  { exfalso. apply (Hrej (S done)); [lia | done]. }
  destruct (has_recurring_issues _ _ _) eqn:Hrec.
  - split; [done|]. exists (S done). split; [lia | done].
  - destruct (decide (S done = i3)) as [E|E].
    + exfalso. destruct R3 as (issue & Hin & Hk). subst k.
      rewrite <- E in Hin. cbn in Hin. rewrite Hv in Hin.
      unfold has_recurring_issues in Hrec.
      assert (existsb (fun i => Nat.leb RECURRING_ISSUE_THRESHOLD
                                  (occurrences similar i (history_upto reviewer (S done))))
                issues = true) as Ht; [|congruence].
      apply existsb_exists. exists issue. split; [done|].
      apply Nat.leb_le. unfold RECURRING_ISSUE_THRESHOLD.
      apply (three_occurrences issue i1 i2 i3); try done; try lia.
      * rewrite <- E. exists issue. cbn. rewrite Hv. done.
    + destruct (IH (S done)) as (Hs & m & Hm & Hh); [lia | lia |].
      split; [done|]. exists m. split; [lia | done].
Qed.

(** C9.  If some key is reported in three iterations [i1 < i2 < i3] within
    the cap, and no review up to [i3] approves, then the loop ends with the
    status escalated, after at most [i3] iterations and without a further
    one; so it ends before the cap whenever the third report comes before
    the cap, as it does when the first three iterations report the issue
    and the cap is higher than 3. *)
Theorem recurring_issue_escalates_before_cap (k : string) (i1 i2 i3 : nat) :
  1 <= i1 -> i1 < i2 -> i2 < i3 -> i3 <= MAX_QA_ITERATIONS ->
  (forall i, 1 <= i <= i3 -> reviewer i <> Approved) ->
  reported reviewer k i1 -> reported reviewer k i2 -> reported reviewer k i3 ->
  let r := run_qa_validation_loop similar reviewer MAX_QA_ITERATIONS in
  r.1 = escalated /\
  length r.2 <= i3 /\
  (i3 < MAX_QA_ITERATIONS -> length r.2 < MAX_QA_ITERATIONS) /\
  r.2 = history_upto reviewer (length r.2).
Proof.
  intros H1 H12 H23 H3 Hrej R1 R2 R3. cbn zeta.
  destruct (loop_from_escalates k i1 i2 i3 MAX_QA_ITERATIONS 0)
    as (Hs & m & Hm & Hh); try done; try lia.
  unfold run_qa_validation_loop.
  change (@nil IterationRecord) with (history_upto reviewer 0).
  rewrite Hh, Hs.
  assert (length (history_upto reviewer m) = m) as ->.
  { unfold history_upto. by rewrite length_map, length_seq. }
  repeat split; [lia | lia].
Qed.

End QAFacts.

Section LockFacts.

Import pathlib subprocess Py GitModel WorktreeManager Summary.
Local Open Scope prog_scope.

Variable self : Self.

Lemma lockless_bind {A B} (m : Prog A) (f : A -> Prog B) :
  lockless m -> (forall a, lockless (f a)) -> lockless (bind m f).
Proof.
  induction m as [a|e|R e k IH]; cbn; [by auto | done |].
  intros [He Hk] Hf. split; [done|]. intros r. by apply IH.
Qed.

Lemma lockless_run_git (cmd : GitCmd) (cwd : option Path) :
  lockless (_run_git self cmd cwd).
Proof. unfold _run_git, call. cbn. split; [done|]. by intros [x|v]. Qed.

Lemma lockless_active_get (n : string) : lockless (active_get n).
Proof. cbn. split; [done|]. by intros d. Qed.

Lemma lockless_active_pop (n : string) : lockless (active_pop n).
Proof. cbn. split; [done|]. intros d. by split. Qed.

Lemma lockless_remove (name : string) (db : bool) : lockless (remove self name db).
Proof.
  unfold remove. apply lockless_bind; [apply lockless_active_get|]. intros info.
  apply lockless_bind; [by cbn|]. intros ex.
  apply lockless_bind.
  { destruct ex; [|done]. apply lockless_bind; [apply lockless_run_git|].
    intros r. destruct (returncode r =? 0)%Z; [done | by cbn]. }
  intros _. apply lockless_bind.
  { destruct info as [i|]; [|done]. destruct db; [|done].
    apply lockless_bind; [apply lockless_run_git | done]. }
  intros _. apply lockless_bind; [apply lockless_active_pop|]. intros _.
  apply lockless_bind; [apply lockless_run_git | done].
Qed.

Lemma lockless_do_merge (info : WorktreeInfo) (name : string) (d : bool) :
  lockless (_do_merge self info name d).
Proof.
  unfold _do_merge. apply lockless_bind; [apply lockless_run_git|]. intros r.
  destruct (negb _); [done|].
  apply lockless_bind; [apply lockless_run_git|]. intros r2.
  destruct (negb _).
  - apply lockless_bind; [apply lockless_run_git | done].
  - apply lockless_bind; [|done]. destruct d; [apply lockless_remove | done].
Qed.

Lemma handle_keeps_lock {R} (repo : Path) (e : Event R) (s s' : State) (r : R) :
  match e with
  | Acquire | Release => False
  | _ => True
  end ->
  handle repo e s = Some (r, s') -> _merge_lock s' = _merge_lock s.
Proof.
  destruct e; cbn; try done; intros _.
  - destruct (context _ _ _) as [[x|ctx]|]; [by intros [= <- <-]| |done].
    destruct (git _ _ _ _) as [[r0 w']|]; [|done]. by intros [= <- <-].
  - destruct (fs_exists _ _ _); [|done]. by intros [= <- <-].
  - destruct (fs_is_dir _ _ _); [|done]. by intros [= <- <-].
  - destruct (fs_mkdir _ _ _) as [[r0 w']|]; [|done]. by intros [= <- <-].
  - destruct (fs_iterdir _ _ _); [|done]. by intros [= <- <-].
  - destruct (fs_rmtree _ _ _); [|done]. by intros [= <- <-].
  - by intros [= <- <-].
  - by intros [= <- <-].
Qed.

(** A body that does not touch the lock starts all its git commands with
    the lock as it found it. *)
Lemma lockless_commands {A} (m : Prog A) (s : State) :
  lockless m ->
  Forall (fun c => c.1.1 = _merge_lock s) (commands (project_dir self) m s).
Proof.
  revert s. induction m as [a|e|R e k IH]; intros s; cbn [commands lockless];
    [done | done |].
  intros [He Hk].
  destruct (handle (project_dir self) e s) as [[r s']|] eqn:Hh; [|done].
  apply Forall_app. split.
  - destruct e; by repeat constructor.
  - rewrite <- (handle_keeps_lock _ _ _ _ _ He Hh). by apply IH.
Qed.

Lemma commands_finally {A} (repo : Path) (m : Prog A) (h : Prog unit) (s : State) :
  commands repo (finally m h) s =
    commands repo m s ++
    match exec repo m s with
    | Returned _ s' | Raised _ s' => commands repo h s'
    | Stuck _ => []
    end.
Proof.
  revert s. induction m as [a|e|R e k IH]; intros s; cbn [finally commands].
  - rewrite commands_bind. cbn. destruct (exec repo h s); by rewrite app_nil_r.
  - rewrite commands_bind. cbn. destruct (exec repo h s); by rewrite app_nil_r.
  - unfold exec. cbn [interp].
    destruct (handle repo e s) as [[r s']|]; [|done].
    rewrite IH. by rewrite app_assoc.
Qed.

(** [merge] starts every git command of the merge with the lock held. *)
Lemma merge_commands_under_lock (name : string) (d : bool) (s : State)
    (info : WorktreeInfo) :
  dict_get name (_active_worktrees s) = Some info ->
  _merge_lock s = false ->
  commands (project_dir self) (merge self name d) s =
    commands (project_dir self) (_do_merge self info name d) (set_lock true s) /\
  Forall (fun c => c.1.1 = true) (commands (project_dir self) (merge self name d) s).
Proof.
  intros Hi Hl.
  assert (commands (project_dir self) (merge self name d) s =
          commands (project_dir self) (_do_merge self info name d) (set_lock true s)) as E.
  { unfold merge. rewrite commands_bind.
    change (exec (project_dir self) (active_get name) s)
      with (run self (active_get name) s).
    rewrite run_active_get, Hi. cbn [commands active_get bind ask app].
    cbn [handle]. cbn [app].
    unfold with_lock. cbn [bind ask commands handle]. rewrite Hl. cbn [app].
    rewrite commands_finally. cbn [ask commands handle].
    destruct (exec _ _ _); cbn; by rewrite app_nil_r. }
  split; [done|]. rewrite E.
  apply (lockless_commands _ (set_lock true s)), lockless_do_merge.
Qed.

(** [merge_sync] starts the git commands of the merge with the lock as it
    is: it neither takes the lock nor waits for it. *)
Lemma merge_sync_commands_lock_untouched (name : string) (d : bool) (s : State)
    (info : WorktreeInfo) :
  dict_get name (_active_worktrees s) = Some info ->
  Forall (fun c => c.1.1 = _merge_lock s)
    (commands (project_dir self) (merge_sync self name d) s) /\
  exists rest,
    commands (project_dir self) (merge_sync self name d) s =
      (_merge_lock s, project_dir self, checkout (base_branch self)) :: rest.
Proof.
  intros Hi. rewrite (commands_merge_sync_tracked self name d s info Hi). split.
  - apply lockless_commands, lockless_do_merge.
  - unfold _do_merge. rewrite commands_bind, commands_git_main. cbn [git app].
    by eexists.
Qed.

End LockFacts.

Section ExampleFacts.

Import implementation_plan coordinator pathlib subprocess Py GitModel.
Import WorktreeManager Summary Examples.

Lemma tracked_paths_Forall (self : Self) (d : Dict WorktreeInfo) :
  Forall (fun kv => path kv.2 = div (worktrees_dir self) kv.1) d ->
  tracked_paths self d.
Proof. intros H kv Hin. by apply (proj1 (Forall_forall _ _) H). Qed.

Lemma clean_intro (c : string) :
  bool_decide (c <> "") && bool_decide (c <> ".")
  && negb (str.has_char "/"%char c)
  && negb (str.has_char (Ascii.ascii_of_nat 10) c) = true ->
  clean c.
Proof.
  intros H. repeat (apply andb_prop in H as [H ?]).
  repeat split.
  - by apply bool_decide_eq_true_1 in H.
  - by eapply bool_decide_eq_true_1.
  - by apply negb_true_iff.
  - by apply negb_true_iff.
Qed.

Lemma hygiene_worker : hygiene repo0 w_worker.
Proof.
  split; [|split].
  - repeat constructor; by apply clean_intro.
  - reflexivity.
  - intros n b Hn. cbn [w_worker registered] in Hn.
    apply lookup_singleton_Some in Hn as [<- <-].
    split; [by apply clean_intro | reflexivity].
Qed.

Lemma tracked_worker : tracked_paths self0 [("worker-1", worker_info)].
Proof. apply tracked_paths_Forall. repeat constructor. Qed.

End ExampleFacts.

Section ConcreteRuns.

Import implementation_plan coordinator pathlib subprocess Py GitModel.
Import WorktreeManager Summary Examples.

(** [claim_chunk_spec] on the fresh coordinator: the chunk is pending and
    no file is claimed, so the claim succeeds and the chunk is in
    progress. *)
Lemma claim_chunk_spec_witness :
  heap coordinator0 !! 0 = Some chunk1 /\
  (claim_chunk coordinator0 "worker-1" phase1 0 "/tmp/worktree"
     "worker-1/chunk-1" "2024-01-01T10:00:00").1 = true /\
  status <$> heap coordinator1 !! 0 = Some IN_PROGRESS /\
  claimed_files coordinator1 !! "file2.py" = Some "worker-1".
Proof.
  assert (heap coordinator0 !! 0 = Some chunk1) as H by reflexivity.
  split; [exact H|].
  destruct (claim_chunk_spec coordinator0 "worker-1" phase1 0 chunk1
              "/tmp/worktree" "worker-1/chunk-1" "2024-01-01T10:00:00" H)
    as [[_ Hyes] [Hthen _]].
  assert ((claim_chunk coordinator0 "worker-1" phase1 0 "/tmp/worktree"
             "worker-1/chunk-1" "2024-01-01T10:00:00").1 = true) as Hr.
  { apply Hyes. split; [reflexivity|]. intros f _. apply lookup_empty. }
  split; [exact Hr|].
  destruct (Hthen Hr) as (Hf & _ & _ & _ & (c' & Hc' & Hs & _) & _).
  split.
  - assert (heap coordinator1 !! 0 = Some c') as -> by exact Hc'.
    cbn. by rewrite Hs.
  - apply Hf. apply elem_of_cons. right. apply elem_of_cons. by left.
Defined.

(** [release_chunk_spec] after that claim: the assignment and the claims
    of worker-1 go, and the chunk is completed. *)
Lemma release_chunk_spec_witness :
  is_Some (workers coordinator1 !! "worker-1") /\
  workers (release_chunk coordinator1 "worker-1" "chunk-1" true "Done")
    !! "worker-1" = None /\
  claimed_files coordinator1 !! "file1.py" = Some "worker-1" /\
  claimed_files (release_chunk coordinator1 "worker-1" "chunk-1" true "Done")
    !! "file1.py" = None /\
  status <$> heap coordinator1 !! 0 = Some IN_PROGRESS /\
  status <$> heap (release_chunk coordinator1 "worker-1" "chunk-1" true "Done") !! 0 =
    Some COMPLETED.
Proof.
  assert (is_Some (workers coordinator1 !! "worker-1")) as H
    by (vm_compute; eexists; reflexivity).
  assert (claimed_files coordinator1 !! "file1.py" = Some "worker-1") as Hc
    by (vm_compute; reflexivity).
  assert (heap coordinator1 !! 0 = Some (set_status IN_PROGRESS chunk1)) as Hh
    by (vm_compute; reflexivity).
  split; [exact H|].
  destruct (release_chunk_spec coordinator1 "worker-1" "chunk-1" true "Done")
    as [Hrel _].
  destruct (Hrel H) as (Hw & _ & Hf & _ & _ & Hdone & _).
  split; [exact Hw|]. split; [exact Hc|]. split; [apply Hf, Hc|].
  split; [by rewrite Hh|].
  destruct (Hdone 0 _ Hh eq_refl) as (c' & Hc' & Hs & _).
  assert (heap (release_chunk coordinator1 "worker-1" "chunk-1" true "Done") !! 0 =
          Some c') as -> by exact Hc'.
  cbn. by rewrite Hs.
Defined.

Lemma tracked_conflict : tracked_paths self0 (_active_worktrees s_conflict).
Proof. apply tracked_worker. Qed.

Lemma can_checkout_conflict : can_checkout (world s_conflict) (base_branch self0).
Proof.
  split; [reflexivity|]. split; [vm_compute; eexists; reflexivity|].
  right. intros (n & b & Hn & Hb). cbn in Hn.
  apply lookup_singleton_Some in Hn as [_ <-]. discriminate.
Qed.


(** [merge_leaves_main_on_base_branch] on the same repository, whose main
    working tree was on [develop]: it ends on [main], nothing else moved. *)
Lemma merge_leaves_main_on_base_branch_witness :
  HEAD (world s_conflict) = "develop" /\
  exists r s',
    run self0 (merge_sync self0 "worker-1" false) s_conflict = Returned r s' /\
    HEAD (world s') = "main" /\
    r = false /\
    s' = set_world (set_HEAD "main" (world s_conflict)) s_conflict.
Proof.
  split; [reflexivity|].
  destruct (merge_leaves_main_on_base_branch self0 "worker-1" false
              s_conflict worker_info
              (mkBranch readme_main readme_main) (mkBranch readme_worker readme))
    as (r & s' & _ & Hs & Hh & Hc).
  - reflexivity.
  - exact tracked_conflict.
  - reflexivity.
  - exact can_checkout_conflict.
  - vm_compute; reflexivity.
  - vm_compute; reflexivity.
  - exists r, s'. destruct Hc as [Hr Hw]; [vm_compute; reflexivity|].
    repeat split; assumption.
Defined.

(** [commit_in_staging_result] in the modelled repository, with a file in
    the staging sandbox that is not committed yet: the commit succeeds. *)
Lemma commit_in_staging_result_witness :
  exists s3, run self0 (commit_in_staging self0 "wip") s_staging = Returned true s3.
Proof.
  destruct (commit_in_staging_result (@handle repo0) self0 "wip" s_staging)
    as [_ Hyes].
  edestruct Hyes as (Hok & _ & _).
  - reflexivity.
  - reflexivity.
  - reflexivity.
  - eexists. apply Hok. vm_compute. reflexivity.
Defined.

Lemma refs_exist_fresh : refs_exist (world s_fresh).
Proof.
  split; [vm_compute; eexists; reflexivity|].
  intros m v Hm. cbn in Hm. by apply lookup_empty_Some in Hm.
Qed.

(** [create_twice_leaves_no_artifacts] in a fresh repository, with a file
    written into the first sandbox: the second sandbox does not have it. *)
Lemma create_twice_leaves_no_artifacts_witness :
  run self0 (create self0 "w" None) s_fresh = Returned created_info s_created /\
  run self0 (create self0 "w" None)
    (set_world (written "w" artifact readme (world s_created)) s_created) =
    Returned created_info s_created /\
  exists base,
    branches (world s_created) !! "main" = Some base /\
    entry (world s_created) "w" = Some (Dir (tip base) (tip base)).
Proof.
  assert (run self0 (create self0 "w" None) s_fresh =
          Returned created_info s_created) as Hrun by (vm_compute; reflexivity).
  split; [exact Hrun|].
  destruct (create_twice_leaves_no_artifacts self0 "w" None s_fresh s_created
              created_info artifact readme refs_exist_fresh Hrun)
    as (_ & Hagain & base & Hb & He & _).
  split; [exact Hagain|]. exists base. split; assumption.
Defined.

(** [create_raises_over_unregistered_leftover] with the directory a
    crashed run left: [create("w")] raises and [artifact.txt] is still
    there. *)
Lemma create_raises_over_unregistered_leftover_witness :
  entry (world s_leftover) "w" = Some (Dir artifact ∅) /\
  run self0 (create self0 "w" None) s_leftover =
    Raised (WorktreeError
              "Failed to create worktree: fatal: '/home/dev/project/.worktrees/w' already exists")
      s_leftover /\
  (exists msg s',
     run self0 (create self0 "w" None) s_leftover =
       Raised (WorktreeError ("Failed to create worktree: " +:+ msg)) s' /\
     entry (world s') "w" = Some (Dir artifact ∅)) /\
  (exists s',
     run self0 (remove self0 "w" false) s_leftover = Returned tt s' /\
     is_dir (entry (world s') "w") = false).
Proof.
  assert (entry (world s_leftover) "w" = Some (Dir artifact ∅)) as He
    by (vm_compute; reflexivity).
  split; [exact He|]. split; [vm_compute; reflexivity|].
  destruct (create_raises_over_unregistered_leftover self0 "w" None s_leftover
              artifact ∅)
    as (_ & _ & (msg & s' & Hrun & Hkept & _) & Hremove).
  - repeat split; discriminate || reflexivity.
  - exact He.
  - intros E. apply (f_equal (fun m => m !! "artifact.txt")) in E.
    vm_compute in E. discriminate.
  - vm_compute. reflexivity.
  - intros kv Hin. by apply elem_of_nil in Hin.
  - split; [|exact Hremove]. exists msg, s'. split; [exact Hrun | exact Hkept].
Defined.

Lemma tracked_staging : tracked_paths self0 (_active_worktrees s_staging).
Proof. apply tracked_paths_Forall. repeat constructor. Qed.

Lemma well_tracked_staging : well_tracked self0 (_active_worktrees s_staging).
Proof.
  intros kv Hin. cbn in Hin.
  apply elem_of_cons in Hin as [->|Hin];
    [|apply elem_of_cons in Hin as [->|Hin]; [|by apply elem_of_nil in Hin]];
    (split; [repeat split; discriminate || reflexivity | reflexivity]).
Qed.



Lemma hygiene_staging : hygiene repo0 (world s_staging).
Proof.
  split; [|split].
  - repeat constructor; by apply clean_intro.
  - reflexivity.
  - intros n b Hn. cbn in Hn.
    apply lookup_insert_Some in Hn as [[<- <-]|[_ Hn]].
    + split; [by apply clean_intro | reflexivity].
    + apply lookup_singleton_Some in Hn as [<- <-].
      split; [by apply clean_intro | reflexivity].
Qed.

(** [setup_removes_all_sandboxes_but_staging] with a staging sandbox and
    a worker that git has a record of: the worker goes, staging stays. *)
Lemma setup_removes_all_sandboxes_but_staging_witness :
  is_Some (registered (world s_staging) !! "worker-1") /\
  exists s',
    run self0 (setup self0) s_staging = Returned tt s' /\
    entry (world s') STAGING_WORKTREE_NAME = Some (Dir feature readme) /\
    is_dir (entry (world s') "worker-1") = false.
Proof.
  split; [vm_compute; eexists; reflexivity|].
  destruct (setup_removes_all_sandboxes_but_staging self0 s_staging hygiene_staging)
    as (s' & Hrun & _ & He & _ & Hgone & _).
  exists s'. repeat split; try assumption.
  apply Hgone. discriminate.
Defined.

(** The claim C5 as it is stated fails: [setup] removes the sandbox
    [worker-1], a directory that git has a record of. *)
Lemma setup_removes_registered_sandbox :
  registered (world s_worker) !! "worker-1" = Some worker_branch /\
  is_dir (entry (world s_worker) "worker-1") = true /\
  run self0 (setup self0) s_worker = Returned tt s_worker_setup /\
  is_dir (entry (world s_worker_setup) "worker-1") = false /\
  ~ setup_removes_exactly_unregistered.
Proof.
  assert (run self0 (setup self0) s_worker = Returned tt s_worker_setup) as Hrun
    by (vm_compute; reflexivity).
  split; [vm_compute; reflexivity|]. split; [vm_compute; reflexivity|].
  split; [exact Hrun|]. split; [vm_compute; reflexivity|].
  intros Hclaim.
  destruct (Hclaim self0 s_worker s_worker_setup "worker-1" hygiene_worker Hrun)
    as [Hgone _]; [discriminate | vm_compute; reflexivity |].
  assert (registered (world s_worker) !! "worker-1" = None) as Hreg
    by (apply Hgone; vm_compute; reflexivity).
  vm_compute in Hreg. discriminate.
Qed.

(** [recurring_issue_escalates_before_cap] with exact comparison of the
    keys, a reviewer that reports the same issue every time, and a cap of
    50: the loop escalates within three iterations. *)
Lemma recurring_issue_escalates_before_cap_witness :
  (qa.run_qa_validation_loop String.eqb stubborn_reviewer 50).1 = qa.escalated /\
  length (qa.run_qa_validation_loop String.eqb stubborn_reviewer 50).2 <= 3 /\
  length (qa.run_qa_validation_loop String.eqb stubborn_reviewer 50).2 < 50.
Proof.
  destruct (recurring_issue_escalates_before_cap String.eqb stubborn_reviewer 50
              String.eqb_refl "login button is broken" 1 2 3)
    as (Hs & Hl & Hc & _); try lia.
  - intros i _. unfold stubborn_reviewer. destruct (Nat.even i); discriminate.
  - eexists. split; [left; reflexivity | vm_compute; reflexivity].
  - eexists. split; [left; reflexivity | vm_compute; reflexivity].
  - eexists. split; [left; reflexivity | vm_compute; reflexivity].
  - split; [exact Hs|]. split; [exact Hl | apply Hc; lia].
Defined.

(** C2, for [merge_sync], is not what the code does.  With a worker ready
    to merge: [merge] runs every git command of the merge with the merge
    lock held, and while the lock is held by another merge it waits;
    [merge_sync] runs the same commands with the lock free, and while
    another merge holds the lock it merges all the same. *)
Theorem merge_sync_merges_without_the_lock :
  commands repo0 (merge self0 "worker-1" true) s_worker =
    map (fun c => (true, repo0, c)) merge_script /\
  commands repo0 (merge_sync self0 "worker-1" true) s_worker =
    map (fun c => (false, repo0, c)) merge_script /\
  _merge_lock s_worker_locked = true /\
  run self0 (merge self0 "worker-1" true) s_worker_locked =
    Stuck s_worker_locked /\
  run self0 (merge_sync self0 "worker-1" true) s_worker_locked =
    Returned true (set_lock true s_worker_merged).
Proof. repeat split; vm_compute; reflexivity. Qed.

End ConcreteRuns.

Section RefusalFacts.

Import pathlib subprocess Py GitModel WorktreeManager Summary.
Local Open Scope prog_scope.

Variable trouble : gmap string Refusal.Trouble.
Variable self : Self.

Local Abbreviation runT := (Refusal.run trouble self).

Lemma runT_bind {A B} (m : Prog A) (f : A -> Prog B) (s : State) :
  runT (bind m f) s =
    match runT m s with
    | Returned a s' => runT (f a) s'
    | Raised e s' => Raised e s'
    | Stuck s' => Stuck s'
    end.
Proof. apply interp_bind. Qed.

Lemma runT_git_main (cmd : GitCmd) (s : State) :
  runT (_run_git self cmd None) s =
    match Refusal.git trouble (project_dir self) Main cmd (world s) with
    | Some (r, w') => Returned r (set_world w' s)
    | None => Stuck s
    end.
Proof.
  unfold Refusal.run, _run_git, call. cbn [interp Refusal.handle default from_option id].
  unfold context. rewrite locate_project.
  by destruct (Refusal.git _ _ _ _ _) as [[r w']|].
Qed.

Lemma runT_cleanup_item (paths : gset Path) (n : string) (s : State) :
  runT (cleanup_item self paths (div (worktrees_dir self) n)) s =
    Returned tt
      (set_world (Refusal.stale_step trouble (project_dir self) paths n (world s)) s).
Proof.
  unfold cleanup_item, Refusal.stale_step. rewrite runT_bind.
  change (runT (ask (IsDir (div (worktrees_dir self) n))) s)
    with (run self (ask (IsDir (div (worktrees_dir self) n))) s).
  rewrite run_is_dir_child. fold (worktrees_dir self).
  destruct (is_dir (entry (world s) n)) eqn:Hd; [|by destruct s].
  rewrite name_div.
  destruct (String.eqb n STAGING_WORKTREE_NAME); [by destruct s|].
  destruct (negb _).
  - change (runT (ask (Rmtree (div (worktrees_dir self) n))) s)
      with (run self (ask (Rmtree (div (worktrees_dir self) n))) s).
    rewrite run_rmtree_child. by rewrite Hd.
  - rewrite runT_bind, runT_git_main. cbn [Refusal.git].
    by destruct (Refusal.git_worktree_remove _ _ _ _) as [r w'].
Qed.

Lemma runT_stale_loop (paths : gset Path) (names : list string) (s : State) :
  runT (for_each (map (fun n => div (worktrees_dir self) n) names)
          (cleanup_item self paths)) s =
    Returned tt
      (set_world
         (foldl (fun w n => Refusal.stale_step trouble (project_dir self) paths n w)
            (world s) names) s).
Proof.
  revert s. induction names as [|n names IH]; intros s; cbn [map for_each foldl].
  - by destruct s.
  - rewrite runT_bind, runT_cleanup_item, IH. by destruct s.
Qed.

Lemma refusal_inv_init (w0 : World) : Refusal.stale_inv trouble w0 [] w0.
Proof.
  unfold Refusal.stale_inv. do 4 (split; [done|]).
  intros m. left. split; [done|]. split; [done|].
  intros Hm. by apply not_elem_of_nil in Hm.
Qed.

Lemma refusal_inv_same (w0 wk : World) (seen : list string) (n : string) :
  Refusal.stale_inv trouble w0 seen wk ->
  (n <> STAGING_WORKTREE_NAME -> is_dir (entry wk n) = true ->
   is_Some (registered wk !! n) /\ is_Some (trouble !! n)) ->
  Refusal.stale_inv trouble w0 (seen ++ [n]) wk.
Proof.
  intros (Ib & Ih & Im & Iroot & Ip) Hn.
  unfold Refusal.stale_inv. do 4 (split; [done|]).
  intros m. destruct (Ip m) as [(He & Hr & Hs)|(H1 & H2 & H3 & H4 & H5)].
  - left. split; [done|]. split; [done|]. intros Hin Hm Hd.
    apply elem_of_app in Hin as [Hin|Hin]; [by apply Hs|].
    apply list_elem_of_singleton in Hin. subst m.
    rewrite <- He in Hd. rewrite <- Hr. by apply Hn.
  - right. do 4 (split; [done|]). apply elem_of_app. by left.
Qed.

Lemma refusal_inv_gone (w0 wk : World) (seen : list string) (n : string)
    (r : gmap string string) :
  Refusal.stale_inv trouble w0 seen wk ->
  n <> STAGING_WORKTREE_NAME ->
  is_dir (entry wk n) = true ->
  r !! n = None ->
  (forall m, m <> n -> r !! m = registered wk !! m) ->
  Refusal.stale_inv trouble w0 (seen ++ [n])
    (set_registered r (set_worktrees (delete n <$> worktrees wk) wk)).
Proof.
  intros (Ib & Ih & Im & Iroot & Ip) Hn Hd Hrn Hro.
  assert (forall m, entry (set_registered r (set_worktrees (delete n <$> worktrees wk) wk)) m =
                    if decide (m = n) then None else entry wk m) as He'.
  { intros m. apply entry_delete. }
  unfold Refusal.stale_inv.
  cbn [branches HEAD MERGE_HEAD worktrees registered set_registered set_worktrees].
  do 3 (split; [done|]). split.
  - intros Hr. destruct (Iroot Hr) as [ws ->]. by eexists.
  - intros m. rewrite He'. destruct (decide (m = n)) as [->|Hmn].
    + right. destruct (Ip n) as [(He & Hr & Hs)|(H1 & H2 & H3 & H4 & H5)].
      * split; [done|]. split; [by rewrite <- He|]. split; [done|].
        split; [done|]. apply elem_of_app. right. by apply list_elem_of_singleton.
      * by rewrite H3 in Hd.
    + rewrite Hro by done.
      destruct (Ip m) as [(He & Hr & Hs)|(H1 & H2 & H3 & H4 & H5)].
      * left. split; [done|]. split; [done|]. intros Hin Hm Hdm.
        apply elem_of_app in Hin as [Hin|Hin]; [by apply Hs|].
        by apply list_elem_of_singleton in Hin.
      * right. do 4 (split; [done|]). apply elem_of_app. by left.
Qed.

Lemma refusal_inv_step (w0 wk : World) (seen : list string) (n : string) :
  hygiene (project_dir self) w0 ->
  Refusal.stale_inv trouble w0 seen wk ->
  Refusal.stale_inv trouble w0 (seen ++ [n])
    (Refusal.stale_step trouble (project_dir self)
       (registered_paths_of (porcelain (project_dir self) w0)) n wk).
Proof.
  intros Hhy Hinv. unfold Refusal.stale_step.
  destruct (is_dir (entry wk n)) eqn:Hd.
  2:{ apply refusal_inv_same; [done|]. intros _ Hd'. congruence. }
  destruct (String.eqb_spec n STAGING_WORKTREE_NAME) as [Hn|Hn].
  { apply refusal_inv_same; [done|]. intros Hn'. done. }
  pose proof Hinv as (_ & _ & _ & _ & Ip).
  destruct (Ip n) as [(He & Hr & Hs)|(H1 & H2 & H3 & H4 & H5)];
    [|by rewrite H3 in Hd].
  fold (worktrees_dir self).
  destruct (bool_decide (div (worktrees_dir self) n ∈ _)) eqn:Hin; cbn [negb].
  - apply bool_decide_eq_true in Hin. unfold worktrees_dir in Hin.
    apply (item_registered _ _ _ Hhy) in Hin. rewrite <- Hr in Hin.
    destruct Hin as [b Hb]. unfold Refusal.git_worktree_remove, worktrees_dir.
    rewrite locate_child, Hb.
    destruct (trouble !! n) as [t|] eqn:Ht.
    + assert ((match t with
               | Refusal.Locked =>
                   (failed 128 "fatal: cannot remove a locked working tree", wk)
               | Refusal.Unlinked =>
                   (failed 128 "fatal: validation failed, cannot remove working tree", wk)
               end).2 = wk) as -> by by destruct t.
      apply refusal_inv_same; [done|]. intros _ _. rewrite Hb, Ht. by split; eexists.
    + unfold git_worktree_remove. rewrite locate_child, Hb. cbn [snd].
      apply refusal_inv_gone; try done.
      * by rewrite lookup_delete_eq.
      * intros m Hm. by rewrite lookup_delete_ne.
  - apply bool_decide_eq_false in Hin. unfold worktrees_dir in Hin.
    rewrite (item_registered _ _ _ Hhy) in Hin. rewrite <- Hr in Hin.
    assert (registered wk !! n = None) as Hnone.
    { destruct (registered wk !! n) eqn:E; [|done]. exfalso. apply Hin. by eexists. }
    assert (set_worktrees (delete n <$> worktrees wk) wk =
            set_registered (registered wk)
              (set_worktrees (delete n <$> worktrees wk) wk)) as -> by done.
    by apply refusal_inv_gone.
Qed.

Lemma refusal_inv_fold (w0 : World) (names : list string) :
  hygiene (project_dir self) w0 ->
  Refusal.stale_inv trouble w0 names
    (foldl (fun w n => Refusal.stale_step trouble (project_dir self)
                         (registered_paths_of (porcelain (project_dir self) w0)) n w)
           w0 names).
Proof.
  intros Hhy. induction names as [|x xs IH] using rev_ind.
  - apply refusal_inv_init.
  - rewrite foldl_app. cbn [foldl]. by apply refusal_inv_step.
Qed.

Lemma runT_mkdir_root (s : State) :
  runT (call (Mkdir (worktrees_dir self))) s =
    Returned tt
      (set_world (set_worktrees (Some (default ∅ (worktrees (world s)))) (world s)) s).
Proof.
  unfold Refusal.run, call, worktrees_dir. cbn [interp Refusal.handle handle].
  unfold fs_mkdir. by rewrite locate_root.
Qed.

Lemma runT_iterdir_root (s : State) (ws : gmap string Entry) :
  worktrees (world s) = Some ws ->
  runT (call (Iterdir (worktrees_dir self))) s =
    Returned (map (fun ne => div (worktrees_dir self) ne.1) (map_to_list ws)) s.
Proof.
  intros H. unfold Refusal.run, call, worktrees_dir.
  cbn [interp Refusal.handle handle].
  unfold fs_iterdir. rewrite locate_root, H. done.
Qed.

Lemma refusal_prune_fields (w : World) :
  let w' := (Refusal.git_worktree_prune trouble w).2 in
  worktrees w' = worktrees w /\ branches w' = branches w /\
  HEAD w' = HEAD w /\ MERGE_HEAD w' = MERGE_HEAD w /\
  (forall m, registered w' !! m =
     if Refusal.keeps trouble w m then registered w !! m else None).
Proof.
  cbn zeta. unfold Refusal.git_worktree_prune. cbn [snd].
  repeat split. intros m. cbn [registered set_registered].
  destruct (registered w !! m) as [v|] eqn:E.
  - destruct (Refusal.keeps trouble w m) eqn:K.
    + apply map_lookup_filter_Some. by split.
    + apply map_lookup_filter_None. right. intros v' Hv'. cbn. congruence.
  - rewrite map_lookup_filter_None_2 by by left. by destruct (Refusal.keeps _ _ _).
Qed.

(** The run of [setup]: the loop of [_cleanup_stale_worktrees] over what
    is under [.worktrees] leaves a world [wk], and [git worktree prune]
    comes last. *)
Lemma runT_setup (s : State) :
  hygiene (project_dir self) (world s) ->
  exists wk,
    runT (setup self) s =
      Returned tt (set_world (Refusal.git_worktree_prune trouble wk).2 s) /\
    branches wk = branches (world s) /\
    HEAD wk = HEAD (world s) /\
    is_Some (worktrees wk) /\
    forall m,
      (entry wk m = entry (world s) m /\
       registered wk !! m = registered (world s) !! m /\
       (m <> STAGING_WORKTREE_NAME -> is_dir (entry (world s) m) = true ->
        is_Some (registered (world s) !! m) /\ is_Some (trouble !! m)))
      \/
      (m <> STAGING_WORKTREE_NAME /\ is_dir (entry (world s) m) = true /\
       entry wk m = None /\ registered wk !! m = None).
Proof.
  intros Hhy. unfold setup. rewrite runT_bind.
  rewrite runT_mkdir_root.
  set (ws := default ∅ (worktrees (world s))).
  set (w1 := set_worktrees (Some ws) (world s)).
  assert (forall m, entry w1 m = entry (world s) m) as He1.
  { intros m. unfold entry, w1, ws. cbn. by destruct (worktrees (world s)). }
  assert (hygiene (project_dir self) w1) as Hhy1 by done.
  unfold _cleanup_stale_worktrees. rewrite runT_bind.
  change (runT (ask (Exists (worktrees_dir self))) (set_world w1 s))
    with (run self (ask (Exists (worktrees_dir self))) (set_world w1 s)).
  rewrite run_exists_root. cbn [world set_world worktrees w1 set_worktrees].
  rewrite bool_decide_eq_true_2 by by eexists. cbn [negb].
  rewrite runT_bind, runT_git_main.
  cbn [Refusal.git git world set_world stdout ok].
  rewrite runT_bind.
  rewrite (runT_iterdir_root _ ws) by done.
  change (map (fun ne : string * Entry => div (worktrees_dir self) ne.1) (map_to_list ws))
    with (map (fun ne : string * Entry => (fun n => div (worktrees_dir self) n) ne.1)
              (map_to_list ws)).
  rewrite <- (map_map fst (fun n => div (worktrees_dir self) n)).
  rewrite runT_bind, runT_stale_loop. cbn [world set_world].
  pose proof (refusal_inv_fold w1 (map fst (map_to_list ws)) Hhy1) as Hinv.
  fold w1.
  set (wk := foldl _ w1 _) in *.
  destruct Hinv as (Ib & Ih & Im & Iroot & Ip).
  rewrite runT_bind, runT_git_main. cbn [Refusal.git].
  change (runT (Ret tt) ?st) with (@Returned State unit tt st).
  assert (forall n, is_dir (entry w1 n) = true -> n ∈ map fst (map_to_list ws)) as Hseen.
  { intros n Hd. destruct (entry w1 n) as [e|] eqn:E; [|done].
    apply list_elem_of_fmap. exists (n, e). split; [done|].
    by apply elem_of_map_to_list. }
  exists wk. split; [by destruct s|].
  split; [done|]. split; [done|]. split; [apply Iroot; by eexists|].
  intros m. destruct (Ip m) as [(He & Hr & Hs)|(Hn & Hd & Hg & Hr & _)].
  - left. rewrite He, He1. split; [done|]. split; [done|].
    intros Hn Hd. apply Hs; [|done|by rewrite He1]. apply Hseen. by rewrite He1.
  - right. by rewrite <- He1.
Qed.

(** C5, as the code has it.  [setup] returns with [.worktrees] in place.
    The staging sandbox is never removed: it is what it was, and so is
    git's record of it.  Every other directory under [.worktrees] that git
    has no record of is removed.  For every other directory that git has a
    record of, git is asked to remove it, and it is gone unless git
    refuses (a locked worktree, a directory without its link); so a
    directory other than staging that remains is one that git had a
    record of, and it is as it was.  What is not a directory stays, and so
    do the branches and what the manager tracks. *)
Theorem setup_removes_unregistered_spares_staging (s : State) :
  hygiene (project_dir self) (world s) ->
  exists s',
    Refusal.run trouble self (setup self) s = Returned tt s' /\
    is_Some (worktrees (world s')) /\
    entry (world s') STAGING_WORKTREE_NAME = entry (world s) STAGING_WORKTREE_NAME /\
    (is_dir (entry (world s) STAGING_WORKTREE_NAME) = true ->
     trouble !! STAGING_WORKTREE_NAME = None ->
       registered (world s') !! STAGING_WORKTREE_NAME =
       registered (world s) !! STAGING_WORKTREE_NAME) /\
    (forall n, n <> STAGING_WORKTREE_NAME ->
       is_dir (entry (world s) n) = true ->
       registered (world s) !! n = None ->
       entry (world s') n = None) /\
    (forall n, n <> STAGING_WORKTREE_NAME ->
       is_dir (entry (world s) n) = true ->
       trouble !! n = None ->
       entry (world s') n = None) /\
    (forall n, n <> STAGING_WORKTREE_NAME ->
       is_dir (entry (world s') n) = true ->
       is_Some (registered (world s) !! n) /\
       is_Some (trouble !! n) /\
       entry (world s') n = entry (world s) n) /\
    (forall n, is_dir (entry (world s) n) = false ->
       entry (world s') n = entry (world s) n) /\
    branches (world s') = branches (world s) /\
    HEAD (world s') = HEAD (world s) /\
    _active_worktrees s' = _active_worktrees s.
Proof.
  intros Hhy. destruct (runT_setup s Hhy) as (wk & Hrun & Ib & Ih & Iroot & Ip).
  destruct (refusal_prune_fields wk) as (Pw & Pb & Ph & Pm & Pr). cbn zeta in *.
  assert (forall m, entry (Refusal.git_worktree_prune trouble wk).2 m = entry wk m) as Pe.
  { intros m. unfold entry. by rewrite Pw. }
  eexists. split; [exact Hrun|]. cbn [world set_world _active_worktrees].
  split; [by rewrite Pw|].
  split.
  { rewrite Pe. by destruct (Ip STAGING_WORKTREE_NAME) as [(He & _)|(Hc & _)]. }
  split.
  { intros Hd Ht. rewrite Pr. unfold Refusal.keeps. rewrite Ht.
    destruct (Ip STAGING_WORKTREE_NAME) as [(He & Hr & _)|(Hc & _)]; [|done].
    by rewrite He, Hd, Hr. }
  split.
  { intros n Hn Hd Hr. rewrite Pe.
    destruct (Ip n) as [(He & _ & Hs)|(_ & _ & Hg & _)]; [|done].
    destruct (Hs Hn Hd) as [[v Hv] _]. congruence. }
  split.
  { intros n Hn Hd Ht. rewrite Pe.
    destruct (Ip n) as [(He & _ & Hs)|(_ & _ & Hg & _)]; [|done].
    destruct (Hs Hn Hd) as [_ [v Hv]]. congruence. }
  split.
  { intros n Hn Hd. rewrite Pe in Hd |- *.
    destruct (Ip n) as [(He & _ & Hs)|(_ & _ & Hg & _)]; [|by rewrite Hg in Hd].
    rewrite He in Hd. destruct (Hs Hn Hd) as [Hr Ht].
    split; [done|]. split; [done|]. done. }
  split.
  { intros n Hd. rewrite Pe.
    destruct (Ip n) as [(He & _)|(_ & Hc & _)]; [|congruence]. done. }
  split; [by rewrite Pb, Ib|]. split; [by rewrite Ph, Ih | done].
Qed.

End RefusalFacts.

Section RefusalRuns.

Import pathlib subprocess Py GitModel WorktreeManager Summary Examples.

(** With no worktree in trouble the environment is the one of
    [GitModel]. *)
Lemma handle_without_trouble {R} (repo : Path) (e : Event R) (s : State) :
  Refusal.handle ∅ repo e s = handle repo e s.
Proof.
  destruct e; try done. cbn [Refusal.handle handle].
  destruct (context repo (world s) cwd) as [[x|ctx]|]; [done| |done].
  assert (Refusal.git ∅ repo ctx cmd (world s) = git repo ctx cmd (world s)) as ->; [|done].
  destruct cmd; try done; cbn [Refusal.git git]; f_equal.
  unfold Refusal.git_worktree_remove.
  destruct (locate repo p); try done.
  rewrite lookup_empty. by destruct (registered (world s) !! n).
Qed.

Lemma hygiene_mixed : hygiene repo0 (world s_mixed).
Proof.
  split; [|split].
  - repeat constructor; by apply clean_intro.
  - reflexivity.
  - intros n b Hn. cbn in Hn.
    repeat (apply lookup_insert_Some in Hn as [[<- <-]|[_ Hn]];
            [split; [by apply clean_intro | reflexivity]|]).
    apply lookup_singleton_Some in Hn as [<- <-].
    split; [by apply clean_intro | reflexivity].
Qed.

(** [setup_removes_unregistered_spares_staging] with staging, a worker
    that git removes, a locked worker and a directory without a record:
    staging and the locked worker stay, the other two go. *)
Lemma setup_removes_unregistered_spares_staging_witness :
  Refusal.run trouble0 self0 (setup self0) s_mixed = Returned tt s_mixed_setup /\
  exists s',
    Refusal.run trouble0 self0 (setup self0) s_mixed = Returned tt s' /\
    entry (world s') STAGING_WORKTREE_NAME = Some (Dir feature readme) /\
    entry (world s') "w" = None /\
    entry (world s') "worker-1" = None /\
    (is_dir (entry (world s') "worker-2") = true ->
     is_Some (registered (world s_mixed) !! "worker-2")).
Proof.
  split; [vm_compute; reflexivity|].
  destruct (setup_removes_unregistered_spares_staging trouble0 self0 s_mixed hygiene_mixed)
    as (s' & Hrun & _ & He & _ & Hun & Hreg & Hrem & _).
  exists s'. split; [exact Hrun|]. split; [exact He|].
  split; [apply Hun; [discriminate | reflexivity | reflexivity]|].
  split; [apply Hreg; [discriminate | reflexivity | reflexivity]|].
  intros Hd. by destruct (Hrem "worker-2") as [Hr _]; [discriminate | exact Hd |].
Defined.

End RefusalRuns.

Section RefusalNone.

Import pathlib subprocess Py GitModel WorktreeManager.

(** So a run where git refuses nothing is a run in [GitModel]. *)
Lemma run_without_trouble {A} (self : Self) (m : Prog A) (s : State) :
  Refusal.run ∅ self m s = run self m s.
Proof.
  unfold Refusal.run, run, exec. revert s.
  induction m as [a|x|R e k IH]; intros s; cbn [interp]; [done|done|].
  rewrite handle_without_trouble.
  destruct (handle (project_dir self) e s) as [[r s']|]; [apply IH | done].
Qed.

End RefusalNone.

(** ** The other methods of the worktree manager *)

Section StripFacts.

Lemma rstrip_line (a : string) : str.rstrip (a +:+ GitModel.nl) = str.rstrip a.
Proof.
  induction a as [|c a IH]; [done|].
  rewrite append_cons. cbn [str.rstrip]. by rewrite IH.
Qed.

Lemma lstrip_append (a x : string) :
  str.lstrip (a +:+ x) =
    match str.lstrip a with
    | EmptyString => str.lstrip x
    | r => r +:+ x
    end.
Proof.
  induction a as [|c a IH]; [by rewrite append_nil_l|].
  rewrite append_cons. cbn [str.lstrip].
  destruct (str.is_space c); [done|]. by rewrite append_cons.
Qed.

(** The line feed git ends its answer with goes with the blanks:
    [(b + "\n").strip() == b.strip()]. *)
Lemma strip_line (b : string) : str.strip (b +:+ GitModel.nl) = str.strip b.
Proof.
  unfold str.strip. rewrite lstrip_append.
  destruct (str.lstrip b) as [|c r] eqn:E; [done|].
  by rewrite rstrip_line.
Qed.

End StripFacts.

Section DictFacts.

Import Py.

Lemma dict_get_set {V} (k : string) (v : V) (d : Dict V) :
  dict_get k (dict_set k v d) = Some v.
Proof.
  induction d as [|[k' x] d IH]; cbn.
  - by rewrite String.eqb_refl.
  - destruct (String.eqb_spec k' k) as [->|Hk]; cbn.
    + by rewrite String.eqb_refl.
    + by destruct (String.eqb_spec k' k).
Qed.


Lemma dict_set_elem {V} (k : string) (v : V) (d : Dict V) (kv : string * V) :
  kv ∈ dict_set k v d -> kv ∈ d \/ kv = (k, v).
Proof.
  induction d as [|[k0 x] d IH]; cbn.
  - intros H. apply list_elem_of_singleton in H. by right.
  - destruct (String.eqb_spec k0 k) as [->|Hk].
    + intros H. apply elem_of_cons in H as [->|H]; [by right|].
      left. apply elem_of_cons. by right.
    + intros H. apply elem_of_cons in H as [->|H].
      * left. apply elem_of_cons. by left.
      * destruct (IH H) as [?|?]; [|by right].
        left. apply elem_of_cons. by right.
Qed.

End DictFacts.

Section UnknownNames.

Import pathlib subprocess Py GitModel WorktreeManager WorktreeManagerRest Summary.
Local Open Scope prog_scope.

Variable self : Self.

Lemma run_get_staging_info_absent (s : State) :
  entry (world s) STAGING_WORKTREE_NAME = None ->
  run self (get_staging_info self) s = Returned None s.
Proof.
  intros He. unfold get_staging_info.
  rewrite run_bind, run_exists_child, He.
  rewrite bool_decide_eq_false_2 by (intros [? ?]; done). done.
Qed.

(** [merge] and [merge_sync] on a name the manager does not track, the
    staging name apart unless there is no staging sandbox on the disk:
    they return False, start no git command and change nothing; [merge]
    does not wait for the merge lock to find that out. *)
Theorem merge_of_unknown_name_is_refused (name : string) (delete_after : bool)
    (s : State) :
  dict_get name (_active_worktrees s) = None ->
  (name = STAGING_WORKTREE_NAME ->
   entry (world s) STAGING_WORKTREE_NAME = None) ->
  run self (merge self name delete_after) s = Returned false s /\
  run self (merge_sync self name delete_after) s = Returned false s /\
  commands (project_dir self) (merge self name delete_after) s = [] /\
  commands (project_dir self) (merge_sync self name delete_after) s = [].
Proof.
  intros Hd Hs.
  assert (run self
            (if String.eqb name STAGING_WORKTREE_NAME
             then get_staging_info self else Ret None) s = Returned None s) as Hload.
  { destruct (String.eqb_spec name STAGING_WORKTREE_NAME) as [E|E]; [|done].
    by apply run_get_staging_info_absent, Hs. }
  assert (commands (project_dir self)
            (if String.eqb name STAGING_WORKTREE_NAME
             then get_staging_info self else Ret None) s = []) as Hcmd.
  { destruct (String.eqb_spec name STAGING_WORKTREE_NAME) as [E|E]; [|done].
    unfold get_staging_info. rewrite commands_bind, commands_exists.
    change (exec (project_dir self) ?m s) with (run self m s).
    rewrite run_exists_child, (Hs E).
    rewrite bool_decide_eq_false_2 by (intros [? ?]; done). done. }
  repeat split.
  - unfold merge. rewrite run_bind, run_active_get, Hd.
    rewrite run_bind. cbn [bind]. by rewrite Hload.
  - unfold merge_sync. rewrite run_bind, run_active_get, Hd.
    rewrite run_bind. cbn [bind]. by rewrite Hload.
  - unfold merge. rewrite commands_bind.
    change (exec (project_dir self) ?m s) with (run self m s).
    rewrite run_active_get, Hd. cbn [active_get bind ask commands handle app].
    rewrite commands_bind, Hcmd.
    change (exec (project_dir self) ?m s) with (run self m s).
    by rewrite Hload.
  - unfold merge_sync. rewrite commands_bind.
    change (exec (project_dir self) ?m s) with (run self m s).
    rewrite run_active_get, Hd. cbn [active_get bind ask commands handle app].
    rewrite commands_bind, Hcmd.
    change (exec (project_dir self) ?m s) with (run self m s).
    by rewrite Hload.
Qed.

End UnknownNames.

Section StagingFacts.

Import pathlib subprocess Py GitModel WorktreeManager WorktreeManagerRest.
Import Summary SummaryRest.
Local Open Scope prog_scope.

Variable self : Self.

Lemma run_rev_parse_staging (s : State) (f i : Tree) :
  entry (world s) STAGING_WORKTREE_NAME = Some (Dir f i) ->
  run self (_run_git self rev_parse_abbrev_ref_HEAD
              (Some (div (worktrees_dir self) STAGING_WORKTREE_NAME))) s =
    Returned (ok (branch_in_staging (world s) +:+ nl)) s.
Proof.
  intros He. rewrite run_git_child. unfold context, worktrees_dir.
  rewrite locate_child, He. unfold branch_in_staging.
  destruct (registered (world s) !! STAGING_WORKTREE_NAME) as [b|];
    cbn [git default from_option id]; by destruct s.
Qed.

Lemma run_get_staging_info_found (s : State) (f i : Tree) :
  entry (world s) STAGING_WORKTREE_NAME = Some (Dir f i) ->
  run self (get_staging_info self) s =
    Returned (Some (found_staging self (world s)))
      (set_active (dict_set STAGING_WORKTREE_NAME (found_staging self (world s))
                     (_active_worktrees s)) s).
Proof.
  intros He. unfold get_staging_info.
  rewrite run_bind, run_exists_child, He.
  rewrite bool_decide_eq_true_2 by by eexists. cbn [negb].
  rewrite run_bind, (run_rev_parse_staging s f i He).
  cbn [returncode ok Z.eqb negb stdout]. rewrite strip_line.
  rewrite run_bind, run_active_set. by rewrite run_ret.
Qed.

Lemma run_get_or_create_staging_found (spec_name : string) (s : State)
    (f i : Tree) :
  entry (world s) STAGING_WORKTREE_NAME = Some (Dir f i) ->
  run self (get_or_create_staging self spec_name) s =
    Returned (found_staging self (world s))
      (set_active (dict_set STAGING_WORKTREE_NAME (found_staging self (world s))
                     (_active_worktrees s)) s).
Proof.
  intros He. unfold get_or_create_staging.
  rewrite run_bind, run_exists_child, He.
  rewrite bool_decide_eq_true_2 by by eexists.
  rewrite run_bind, (run_rev_parse_staging s f i He).
  cbn [returncode ok Z.eqb stdout]. rewrite strip_line.
  rewrite run_bind, run_active_set. by rewrite run_ret.
Qed.


Lemma entry_written (n : string) (t i : Tree) (w : World) (m : string) :
  is_Some (worktrees w) ->
  entry (written n t i w) m = if decide (m = n) then Some (Dir t i) else entry w m.
Proof.
  intros [ws Hw]. unfold entry, written. cbn. rewrite Hw. cbn.
  destruct (decide (m = n)) as [->|Hne].
  - by rewrite lookup_insert_eq.
  - by rewrite lookup_insert_ne.
Qed.

Lemma entry_is_Some_worktrees (w : World) (n : string) :
  is_Some (entry w n) -> is_Some (worktrees w).
Proof. unfold entry. destruct (worktrees w); [by eexists | by intros [? ?]]. Qed.

Lemma get_or_create_staging_returned (spec_name : string) (s s1 : State)
    (info : WorktreeInfo) :
  run self (get_or_create_staging self spec_name) s = Returned info s1 ->
  exists f0 i0,
    entry (world s1) STAGING_WORKTREE_NAME = Some (Dir f0 i0) /\
    dict_set STAGING_WORKTREE_NAME info (_active_worktrees s1) = _active_worktrees s1 /\
    path info = div (worktrees_dir self) STAGING_WORKTREE_NAME /\
    (str.strip (branch info) = branch info -> found_staging self (world s1) = info).
Proof.
  intros Hrun.
  destruct (entry (world s) STAGING_WORKTREE_NAME) as [[f0 i0|]|] eqn:He.
  - rewrite (run_get_or_create_staging_found _ s f0 i0 He) in Hrun.
    injection Hrun as <- <-. exists f0, i0. cbn. split; [done|].
    split; [apply dict_set_idem | done].
  - exfalso. unfold get_or_create_staging in Hrun.
    rewrite run_bind, run_exists_child, He in Hrun.
    rewrite bool_decide_eq_true_2 in Hrun by by eexists.
    rewrite run_bind, run_git_child in Hrun. unfold context, worktrees_dir in Hrun.
    by rewrite locate_child, He in Hrun.
  - unfold get_or_create_staging in Hrun.
    rewrite run_bind, run_exists_child, He in Hrun.
    rewrite bool_decide_eq_false_2 in Hrun by (intros [? ?]; done).
    pose proof (run_create self STAGING_WORKTREE_NAME
                  (Some ("auto-claude/" +:+ spec_name)) s) as Hc.
    cbn zeta in Hc. rewrite Hc in Hrun. clear Hc.
    cbn [branch_of] in Hrun.
    set (b := "auto-claude/" +:+ spec_name) in *.
    set (w2 := create_pre (project_dir self) STAGING_WORKTREE_NAME b (world s)) in *.
    destruct (returncode _ =? 0)%Z eqn:Hrc; [|done].
    apply Z.eqb_eq in Hrc.
    destruct (git_worktree_add_ok self STAGING_WORKTREE_NAME b (base_branch self) w2 Hrc)
      as (sb & Hb & Hs & Hreg & Hw).
    rewrite Hw in Hrun. injection Hrun as <- <-.
    exists (tip sb), (tip sb). cbn [world _active_worktrees]. split; [|split; [|split]].
    + unfold entry, added. cbn. by rewrite lookup_insert_eq.
    + apply dict_set_idem.
    + done.
    + intros Hstrip. unfold found_staging, branch_in_staging, added. cbn.
      rewrite lookup_insert_eq. cbn. cbn in Hstrip. by rewrite Hstrip.
Qed.

(** A second [get_or_create_staging], under whatever [spec_name], returns
    the info of the first and leaves what has been written into the
    staging sandbox since in place: unlike [create], it does not start
    over. *)
Theorem get_or_create_staging_keeps_work (spec_name spec_name' : string)
    (s s1 : State) (info : WorktreeInfo) (t i : Tree) :
  run self (get_or_create_staging self spec_name) s = Returned info s1 ->
  str.strip (branch info) = branch info ->
  let s1' := set_world (written STAGING_WORKTREE_NAME t i (world s1)) s1 in
  run self (get_or_create_staging self spec_name') s1' = Returned info s1' /\
  entry (world s1') STAGING_WORKTREE_NAME = Some (Dir t i).
Proof.
  intros Hrun Hstrip. cbn zeta.
  destruct (get_or_create_staging_returned _ _ _ _ Hrun)
    as (f0 & i0 & He1 & Hd & _ & Hinfo).
  specialize (Hinfo Hstrip).
  assert (is_Some (worktrees (world s1))) as Hws.
  { apply (entry_is_Some_worktrees _ STAGING_WORKTREE_NAME). rewrite He1. by eexists. }
  assert (entry (written STAGING_WORKTREE_NAME t i (world s1)) STAGING_WORKTREE_NAME =
          Some (Dir t i)) as He'.
  { rewrite entry_written by done. by rewrite decide_True. }
  split; [|done].
  rewrite (run_get_or_create_staging_found _ _ t i) by done.
  cbn [world set_world _active_worktrees].
  assert (found_staging self (written STAGING_WORKTREE_NAME t i (world s1)) = info) as ->.
  { by rewrite <- Hinfo. }
  rewrite Hd. by destruct s1.
Qed.

Lemma dict_set_tracked (d : Dict WorktreeInfo) (n : string) (i : WorktreeInfo) :
  tracked_paths self d -> path i = div (worktrees_dir self) n ->
  tracked_paths self (dict_set n i d).
Proof.
  intros Hd Hp kv Hin. apply dict_set_elem in Hin as [Hin| ->]; [by apply Hd | done].
Qed.

End StagingFacts.

Section RemoveTheorems.

Import pathlib subprocess Py GitModel WorktreeManager WorktreeManagerRest.
Import Summary SummaryRest.
Local Open Scope prog_scope.

Variable self : Self.

Lemma prune_idem (w : World) :
  (git_worktree_prune (git_worktree_prune w).2).2 = (git_worktree_prune w).2.
Proof.
  unfold git_worktree_prune. cbn [snd]. unfold set_registered. cbn.
  f_equal. apply map_eq. intros m.
  destruct (filter _ (registered w) !! m) as [v|] eqn:E.
  - apply map_lookup_filter_Some. split; [done|].
    apply map_lookup_filter_Some in E as [_ E]. exact E.
  - apply map_lookup_filter_None. by left.
Qed.

Lemma off_disk_absent (n : string) (w : World) :
  is_dir (entry w n) = false -> registered w !! n = None -> off_disk n w = w.
Proof.
  intros Hd Hr. unfold off_disk. rewrite Hr, Hd.
  by destruct (bool_decide _).
Qed.

Lemma remove_state_idem (name : string) (db : bool) (s : State) :
  remove_state name db (remove_state name db s) = remove_state name db s.
Proof.
  unfold remove_state at 1. cbn [_active_worktrees _merge_lock world remove_state].
  rewrite dict_get_pop. cbn [fmap option_fmap option_map].
  assert ((if db then None else None) = @None string) as -> by by destruct db.
  set (b := if db then _ else None).
  destruct (remove_world_spec name b (world s)) as (_ & _ & _ & Hd & Hr & _).
  unfold remove_world at 1. cbn zeta.
  rewrite off_disk_absent by done.
  unfold remove_world. cbn zeta. rewrite prune_idem.
  unfold remove_state. fold b. unfold remove_world. cbn zeta.
  f_equal. unfold dict_pop. rewrite filter_filter_and.
  apply filter_ext. intros kv. by destruct (negb _).
Qed.

(** [remove] returns for every plain name, tracked or not, on the disk
    or not.  Afterwards there is no sandbox directory of that name and the
    manager does not track it; the other sandboxes and what the manager
    tracks of them are as before, and so are the branch of the main
    working tree and the merge lock.  No branch is made; none is deleted
    when [delete_branch] is False, nor, whatever [delete_branch] is, when
    the manager did not track the name. *)
Theorem remove_clears_disk_and_tracking (name : string) (delete_branch : bool)
    (s : State) :
  plain name ->
  well_tracked self (_active_worktrees s) ->
  exists s',
    run self (remove self name delete_branch) s = Returned tt s' /\
    is_dir (entry (world s') name) = false /\
    dict_get name (_active_worktrees s') = None /\
    (forall m, m <> name ->
       entry (world s') m = entry (world s) m /\
       dict_get m (_active_worktrees s') = dict_get m (_active_worktrees s)) /\
    HEAD (world s') = HEAD (world s) /\
    _merge_lock s' = _merge_lock s /\
    (forall x v, branches (world s') !! x = Some v ->
       branches (world s) !! x = Some v) /\
    (delete_branch = false \/ dict_get name (_active_worktrees s) = None ->
       branches (world s') = branches (world s)).
Proof.
  intros _ Hwt. pose proof (well_tracked_paths self _ Hwt) as Hwf.
  exists (remove_state name delete_branch s).
  split; [by apply run_remove|].
  unfold remove_state. cbn [world _active_worktrees _merge_lock].
  set (b := if delete_branch then _ else None).
  destruct (remove_world_spec name b (world s))
    as (Hh & _ & _ & Hd & _ & He & _ & _ & Hsub & Hb & _).
  split; [done|]. split; [apply dict_get_pop|].
  split; [intros m Hm; split; [by apply He | by apply dict_get_pop_ne]|].
  split; [done|]. split; [done|]. split; [exact Hsub|].
  intros Hnone. assert (b = None) as Eb.
  { unfold b. destruct Hnone as [-> | ->]; [done | by destruct delete_branch]. }
  apply map_eq. intros x. apply Hb. by rewrite Eb.
Qed.

(** A second [remove] of the same name changes nothing. *)
Theorem remove_twice_is_remove_once (name : string) (delete_branch : bool)
    (s s1 : State) :
  plain name ->
  well_tracked self (_active_worktrees s) ->
  run self (remove self name delete_branch) s = Returned tt s1 ->
  run self (remove self name delete_branch) s1 = Returned tt s1.
Proof.
  intros _ Hwt Hrun. pose proof (well_tracked_paths self _ Hwt) as Hwf. rewrite run_remove in Hrun by done. injection Hrun as <-.
  rewrite run_remove.
  - by rewrite remove_state_idem.
  - cbn. by apply tracked_paths_filter.
Qed.

End RemoveTheorems.

Section CreateTheorems.

Import pathlib subprocess Py GitModel WorktreeManager WorktreeManagerRest.
Import Summary SummaryRest.
Local Open Scope prog_scope.

Variable self : Self.







End CreateTheorems.

Section LookupTheorems.

Import pathlib subprocess Py GitModel WorktreeManager WorktreeManagerRest.
Import Summary SummaryRest.
Local Open Scope prog_scope.

Variable self : Self.

Lemma run_get_worktree_path (name : string) (s : State) :
  run self (get_worktree_path self name) s =
    Returned
      match dict_get name (_active_worktrees s) with
      | Some i => Some (path i)
      | None =>
          if bool_decide (is_Some (entry (world s) name))
          then Some (div (worktrees_dir self) name) else None
      end s.
Proof.
  unfold get_worktree_path. rewrite run_bind, run_active_get.
  destruct (dict_get name _); [done|].
  rewrite run_bind, run_exists_child. by destruct (bool_decide _).
Qed.

Lemma off_disk_kept (n : string) (w : World) (e : Entry) :
  entry (off_disk n w) n = Some e -> entry w n = Some e.
Proof.
  unfold off_disk. destruct (bool_decide _); [|done].
  destruct (registered w !! n).
  - change (entry (set_registered ?r ?w0) n) with (entry w0 n).
    rewrite entry_delete. by rewrite decide_True.
  - destruct (is_dir _); [|done]. rewrite entry_delete. by rewrite decide_True.
Qed.

Lemma remove_world_kept (n : string) (b : option string) (w : World) (e : Entry) :
  entry (remove_world n b w) n = Some e -> entry w n = Some e.
Proof.
  unfold remove_world. cbn zeta. intros H. apply off_disk_kept.
  destruct (prune_fields
              match b with
              | Some b0 => (git_branch_D b0 (off_disk n w)).2
              | None => off_disk n w
              end) as (Pw & _). cbn zeta in Pw.
  unfold entry in H |- *. rewrite Pw in H.
  destruct b as [b0|]; [|done].
  destruct (git_branch_D_fields b0 (off_disk n w)) as (Dw & _). cbn zeta in Dw.
  by rewrite Dw in H.
Qed.

(** What [create] makes, [get_info], [get_worktree_path] and
    [list_worktrees] find, without changing anything; after [remove] they
    find it no more.  A directory that the manager does not track is still
    found by [get_worktree_path], and by it alone. *)
Theorem sandbox_lookup_round_trip (name : string) (s : State) :
  plain name ->
  (forall branch_name info s1,
     run self (create self name branch_name) s = Returned info s1 ->
     path info = div (worktrees_dir self) name /\
     run self (get_info name) s1 = Returned (Some info) s1 /\
     run self (get_worktree_path self name) s1 =
       Returned (Some (div (worktrees_dir self) name)) s1 /\
     exists l, run self list_worktrees s1 = Returned l s1 /\ info ∈ l) /\
  (forall delete_branch s1,
     well_tracked self (_active_worktrees s) ->
     entry (world s) name <> Some File ->
     run self (remove self name delete_branch) s = Returned tt s1 ->
     run self (get_info name) s1 = Returned None s1 /\
     run self (get_worktree_path self name) s1 = Returned None s1 /\
     exists l, run self list_worktrees s1 = Returned l s1 /\
       forall i, i ∈ l -> exists m, m <> name /\ (m, i) ∈ _active_worktrees s) /\
  (dict_get name (_active_worktrees s) = None ->
   is_Some (entry (world s) name) ->
   run self (get_info name) s = Returned None s /\
   run self (get_worktree_path self name) s =
     Returned (Some (div (worktrees_dir self) name)) s).
Proof.
  intros _. split; [|split].
  - intros bn info s1 Hrun.
    pose proof (run_create self name bn s) as Hc. cbn zeta in Hc.
    rewrite Hc in Hrun. destruct (returncode _ =? 0)%Z; [|done].
    injection Hrun as <- <-. split; [done|].
    split; [|split].
    + unfold get_info. rewrite run_active_get. cbn. by rewrite dict_get_set.
    + rewrite run_get_worktree_path. cbn. by rewrite dict_get_set.
    + eexists. split; [done|]. cbn.
      apply list_elem_of_fmap. eexists (name, _). split; [done|].
      apply dict_get_elem. apply dict_get_set.
  - intros db s1 Hwt Hfile Hrun.
    pose proof (well_tracked_paths self _ Hwt) as Hwf.
    rewrite run_remove in Hrun by done.
    injection Hrun as <-.
    assert (entry (world (remove_state name db s)) name = None) as He.
    { unfold remove_state. cbn [world].
      set (b := if db then _ else None).
      destruct (remove_world_spec name b (world s)) as (_ & _ & _ & Hd & _).
      destruct (entry (remove_world name b (world s)) name) as [e|] eqn:E; [|done].
      destruct e; [done|]. by apply remove_world_kept in E. }
    split; [|split].
    + unfold get_info. rewrite run_active_get. cbn. by rewrite dict_get_pop.
    + rewrite run_get_worktree_path. cbn [_active_worktrees remove_state].
      rewrite dict_get_pop, He.
      by rewrite bool_decide_eq_false_2 by (intros [? ?]; done).
    + eexists. split; [done|]. cbn. intros i Hi.
      apply list_elem_of_fmap in Hi as ([m i'] & -> & Hin).
      apply list_elem_of_In, filter_In in Hin as [Hin Hm]. cbn in Hm.
      exists m. split; [|by apply list_elem_of_In].
      intros ->. by rewrite String.eqb_refl in Hm.
  - intros Hd He. split.
    + unfold get_info. by rewrite run_active_get, Hd.
    + rewrite run_get_worktree_path, Hd. by rewrite bool_decide_eq_true_2.
Qed.

End LookupTheorems.

Section StagingLifecycle.

Import pathlib subprocess Py GitModel WorktreeManager WorktreeManagerRest.
Import Summary SummaryRest.
Local Open Scope prog_scope.

Variable self : Self.

(** [staging_exists] and [get_staging_path] answer alike.  Once
    [get_or_create_staging] has returned, the staging sandbox exists at
    [.worktrees/auto-claude] and the manager tracks it; once
    [remove_staging] has returned, it exists no more and [get_staging_info]
    finds none. *)
Theorem staging_exists_until_removed (s : State) :
  (exists b,
     run self (staging_exists self) s = Returned b s /\
     run self (get_staging_path self) s =
       Returned (if b then Some (div (worktrees_dir self) STAGING_WORKTREE_NAME)
                 else None) s) /\
  (forall spec_name info s1,
     run self (get_or_create_staging self spec_name) s = Returned info s1 ->
     run self (staging_exists self) s1 = Returned true s1 /\
     run self (get_info STAGING_WORKTREE_NAME) s1 = Returned (Some info) s1 /\
     path info = div (worktrees_dir self) STAGING_WORKTREE_NAME) /\
  (forall delete_branch s1,
     well_tracked self (_active_worktrees s) ->
     entry (world s) STAGING_WORKTREE_NAME <> Some File ->
     run self (remove_staging self delete_branch) s = Returned tt s1 ->
     run self (staging_exists self) s1 = Returned false s1 /\
     run self (get_staging_path self) s1 = Returned None s1 /\
     run self (get_staging_info self) s1 = Returned None s1 /\
     run self (get_info STAGING_WORKTREE_NAME) s1 = Returned None s1).
Proof.
  split; [|split].
  - eexists. unfold staging_exists, get_staging_path.
    rewrite run_bind, !run_exists_child. split; [done|]. by destruct (bool_decide _).
  - intros spec_name info s1 Hrun.
    destruct (get_or_create_staging_returned self _ _ _ _ Hrun) as (f0 & i0 & He & Hd & Hp & _).
    split; [|split; [|done]].
    + unfold staging_exists. rewrite run_exists_child, He.
      by rewrite bool_decide_eq_true_2 by by eexists.
    + unfold get_info. rewrite run_active_get, <- Hd. by rewrite dict_get_set.
  - intros db s1 Hwt Hfile Hrun. unfold remove_staging in Hrun.
    pose proof (well_tracked_paths self _ Hwt) as Hwf.
    rewrite run_remove in Hrun by done. injection Hrun as <-.
    assert (entry (world (remove_state STAGING_WORKTREE_NAME db s))
              STAGING_WORKTREE_NAME = None) as He.
    { unfold remove_state. cbn [world].
      set (b := if db then _ else None).
      destruct (remove_world_spec STAGING_WORKTREE_NAME b (world s))
        as (_ & _ & _ & Hd & _).
      destruct (entry (remove_world STAGING_WORKTREE_NAME b (world s))
                  STAGING_WORKTREE_NAME) as [e|] eqn:E; [|done].
      destruct e; [done|]. by apply remove_world_kept in E. }
    repeat split.
    + unfold staging_exists. rewrite run_exists_child, He.
      by rewrite bool_decide_eq_false_2 by (intros [? ?]; done).
    + unfold get_staging_path. rewrite run_bind, run_exists_child, He.
      by rewrite bool_decide_eq_false_2 by (intros [? ?]; done).
    + by apply run_get_staging_info_absent.
    + unfold get_info. rewrite run_active_get. cbn. by rewrite dict_get_pop.
Qed.

End StagingLifecycle.

Section MergeStagingTheorems.

Import pathlib subprocess Py GitModel WorktreeManager WorktreeManagerRest.
Import Summary SummaryRest.
Local Open Scope prog_scope.

Variable self : Self.

Lemma run_merge_sync_loads_staging (d : bool) (s : State) (f i : Tree) :
  dict_get STAGING_WORKTREE_NAME (_active_worktrees s) = None ->
  entry (world s) STAGING_WORKTREE_NAME = Some (Dir f i) ->
  let info := found_staging self (world s) in
  run self (merge_staging self d) s =
    run self (_do_merge self info STAGING_WORKTREE_NAME d)
      (set_active (dict_set STAGING_WORKTREE_NAME info (_active_worktrees s)) s).
Proof.
  intros Hd He. cbn zeta. unfold merge_staging, merge_sync.
  rewrite run_bind, run_active_get, Hd. rewrite run_bind.
  change (String.eqb STAGING_WORKTREE_NAME STAGING_WORKTREE_NAME) with true.
  cbn iota. by rewrite (run_get_staging_info_found self s f i He).
Qed.

(** [merge_staging] in a manager that does not track the staging sandbox
    (a new process, say) finds the sandbox on the disk, tracks it, and
    merges the branch checked out there: with no conflict it returns True
    and the base branch has the merged content, staging being removed with
    [delete_after] and tracked without; on a conflict it returns False,
    the branches are as before and staging stays, tracked. *)
Theorem merge_staging_finds_untracked_staging (delete_after : bool) (s : State)
    (f i : Tree) (b : string) (ours theirs : Branch) :
  dict_get STAGING_WORKTREE_NAME (_active_worktrees s) = None ->
  well_tracked self (_active_worktrees s) ->
  entry (world s) STAGING_WORKTREE_NAME = Some (Dir f i) ->
  registered (world s) !! STAGING_WORKTREE_NAME = Some b ->
  str.strip b = b ->
  b <> base_branch self ->
  can_checkout (world s) (base_branch self) ->
  branches (world s) !! base_branch self = Some ours ->
  branches (world s) !! b = Some theirs ->
  let info := mkInfo (div (worktrees_dir self) STAGING_WORKTREE_NAME) b
                (base_branch self) true in
  (forall merged,
     merge3 (fork theirs) (tip ours) (tip theirs) = Some merged ->
     exists s',
       run self (merge_staging self delete_after) s = Returned true s' /\
       (exists br, branches (world s') !! base_branch self = Some br /\
                   tip br = merged) /\
       (delete_after = true ->
          is_dir (entry (world s') STAGING_WORKTREE_NAME) = false /\
          dict_get STAGING_WORKTREE_NAME (_active_worktrees s') = None) /\
       (delete_after = false ->
          entry (world s') STAGING_WORKTREE_NAME = Some (Dir f i) /\
          dict_get STAGING_WORKTREE_NAME (_active_worktrees s') = Some info)) /\
  (merge3 (fork theirs) (tip ours) (tip theirs) = None ->
   exists s',
     run self (merge_staging self delete_after) s = Returned false s' /\
     branches (world s') = branches (world s) /\
     MERGE_HEAD (world s') = None /\
     entry (world s') STAGING_WORKTREE_NAME = Some (Dir f i) /\
     dict_get STAGING_WORKTREE_NAME (_active_worktrees s') = Some info).
Proof.
  intros Hd Hwt He Hr Hstrip Hne Hco Ho Ht. cbn zeta.
  pose proof (well_tracked_paths self _ Hwt) as Hwf.
  assert (found_staging self (world s) =
          mkInfo (div (worktrees_dir self) STAGING_WORKTREE_NAME) b
            (base_branch self) true) as Hinfo.
  { unfold found_staging, branch_in_staging. rewrite Hr.
    cbn [default from_option id]. by rewrite Hstrip. }
  pose proof (run_merge_sync_loads_staging delete_after s f i Hd He) as Hrun.
  cbn zeta in Hrun. rewrite Hinfo in Hrun.
  set (info := mkInfo _ b _ true) in *.
  set (s0 := set_active (dict_set STAGING_WORKTREE_NAME info (_active_worktrees s)) s) in *.
  assert (tracked_paths self (_active_worktrees s0)) as Hwf0.
  { cbn. by apply dict_set_tracked. }
  split.
  - intros merged Hm.
    rewrite (run_do_merge_clean self info STAGING_WORKTREE_NAME delete_after s0
               ours theirs merged Hwf0 Hco Ho Ht Hm) in Hrun.
    cbn zeta in Hrun.
    set (wm := merged_world (base_branch self) (branch info) ours theirs merged (world s0)) in *.
    eexists. split; [exact Hrun|].
    assert (branches wm !! base_branch self = Some (mkBranch merged (fork ours))) as Hbase.
    { unfold wm, merged_world. cbn. by rewrite lookup_insert_eq. }
    destruct delete_after.
    + unfold remove_state. cbn [world _active_worktrees set_world].
      destruct (remove_world_spec STAGING_WORKTREE_NAME
                  (branch <$> dict_get STAGING_WORKTREE_NAME (_active_worktrees s0)) wm)
        as (_ & _ & _ & Rd & Rr & _ & _ & _ & _ & Rb & _).
      split; [|split; [|done]].
      * exists (mkBranch merged (fork ours)). split; [|done].
        rewrite Rb; [done|]. cbn. rewrite dict_get_set. cbn. congruence.
      * intros _. split; [done|]. apply dict_get_pop.
    + split; [by eexists|]. split; [done|]. intros _.
      split; [done|]. cbn. apply dict_get_set.
  - intros Hm.
    rewrite (run_do_merge_conflict self info STAGING_WORKTREE_NAME delete_after s0
               ours theirs Hco Ho Ht Hm) in Hrun.
    eexists. split; [exact Hrun|]. cbn. repeat split; try done.
    + by destruct Hco as [-> _].
    + apply dict_get_set.
Qed.

End MergeStagingTheorems.

Section AnyEnvironment.

Import pathlib subprocess Py WorktreeManager WorktreeManagerRest.
Local Open Scope prog_scope.

Context {S : Type} (h : Handler S).

Lemma trace_bind {A B} (m : Prog A) (f : A -> Prog B) (s : S) :
  trace h (bind m f) s =
    trace h m s ++
    match interp h m s with
    | Returned a s' => trace h (f a) s'
    | _ => []
    end.
Proof.
  revert s. induction m as [a|e|R e k IH]; intros s; cbn [bind trace interp].
  - done.
  - done.
  - destruct (h R e s) as [[r s']|]; [|done].
    rewrite IH. by rewrite app_assoc.
Qed.

(** In every environment, [merge_branch_to_staging] starts git in the
    staging sandbox only, never in the project directory, and at most
    twice: the merge, and the abort after a merge that failed.  Without a
    staging sandbox it starts nothing and returns False.  It returns True
    exactly when the merge it started returned 0, and then starts nothing
    else; a False after a merge comes with the abort. *)
Theorem merge_branch_to_staging_stays_in_staging (self : Self)
    (branch_name : string) (s : S) :
  let staging := div (worktrees_dir self) STAGING_WORKTREE_NAME in
  let merge_cmd :=
    merge_no_ff branch_name ("auto-claude: Merge " +:+ branch_name) in
  let t := trace h (merge_branch_to_staging self branch_name) s in
  Forall (fun c => c.1 = staging) t /\
  length t <= 2 /\
  (forall s1, h _ (Exists staging) s = Some (false, s1) ->
     interp h (merge_branch_to_staging self branch_name) s = Returned false s1 /\
     t = []) /\
  (forall s', interp h (merge_branch_to_staging self branch_name) s = Returned true s' ->
     t = [(staging, merge_cmd)] /\
     exists s1 r, h _ (Exists staging) s = Some (true, s1) /\
       h _ (Subprocess staging merge_cmd) s1 = Some (inr r, s') /\
       returncode r = 0%Z) /\
  (forall s', interp h (merge_branch_to_staging self branch_name) s = Returned false s' ->
     t = [] \/ t = [(staging, merge_cmd); (staging, merge_abort)]).
Proof.
  cbn zeta. unfold merge_branch_to_staging, get_staging_path, _run_git, call.
  cbn [bind ask trace interp default from_option id].
  destruct (h _ (Exists _) s) as [[[|] s1]|] eqn:Hex; cbn [bind trace interp app];
    [destruct (h _ (Subprocess _ (merge_no_ff _ _)) s1) as [[[x|r] s2]|] eqn:Hm;
       cbn [bind trace interp app];
       [|destruct (returncode r =? 0)%Z eqn:Hrc; cbn [negb bind trace interp app];
          [|destruct (h _ (Subprocess _ merge_abort) s2) as [[[x|r'] s3]|] eqn:Ha;
              cbn [bind trace interp app]]|]| |];
    (split; [repeat constructor|]); (split; [cbn; lia|]);
    (split; [try done; by intros ? [= <-]|]);
    (split; [try done|try done]).
  - intros s' [= <-]. split; [done|]. exists s1, r. split; [done|].
    split; [done|]. by apply Z.eqb_eq.
  - intros s' _. by right.
  - intros s' _. by left.
Qed.

(** In every environment, [get_test_commands] starts no process and
    returns a list that is never empty: the commands of each kind of
    project whose marker file exists, in the order Node, Python, Rust, Go,
    and the README hint exactly when no marker file exists. *)
Theorem get_test_commands_never_empty (staging_path : Path)
    (s s1 s2 s3 s4 : S) (node python rust go : bool) :
  h _ (Exists (div staging_path "package.json")) s = Some (node, s1) ->
  h _ (Exists (div staging_path "requirements.txt")) s1 = Some (python, s2) ->
  h _ (Exists (div staging_path "Cargo.toml")) s2 = Some (rust, s3) ->
  h _ (Exists (div staging_path "go.mod")) s3 = Some (go, s4) ->
  exists l,
    interp h (get_test_commands staging_path) s = Returned l s4 /\
    trace h (get_test_commands staging_path) s = [] /\
    l <> [] /\
    l = (if node then ["npm install && npm run dev"; "npm test"] else []) ++
        (if python then ["pip install -r requirements.txt"] else []) ++
        (if rust then ["cargo run"; "cargo test"] else []) ++
        (if go then ["go run ."; "go test ./..."] else []) ++
        (if node || python || rust || go then []
         else ["# Check the project's README for run instructions"]).
Proof.
  intros H1 H2 H3 H4. unfold get_test_commands.
  cbn [bind ask interp trace]. rewrite H1. cbn [bind interp trace app].
  rewrite H2. cbn [bind interp trace app]. rewrite H3. cbn [bind interp trace app].
  rewrite H4. cbn [bind interp trace app].
  eexists. split; [done|]. split; [done|].
  destruct node, python, rust, go; cbn; done.
Qed.

(** In every environment, [__init__] with a base branch that is not the
    empty string takes it as it is and starts no process: it does not ask
    git whether that branch exists.  Without one (or with the empty
    string) it asks git for the branch of the project directory, takes the
    answer with the blanks around it stripped, and raises [WorktreeError]
    when git fails. *)
Theorem init_takes_base_branch_unchecked (project_dir : Path)
    (base_branch : option string) (s : S) :
  (forall b, base_branch = Some b -> b <> "" ->
     interp h (__init__ project_dir base_branch) s =
       Returned (mkSelf project_dir b) s /\
     trace h (__init__ project_dir base_branch) s = []) /\
  (base_branch = None \/ base_branch = Some "" ->
   forall r s1,
     h _ (Subprocess project_dir rev_parse_abbrev_ref_HEAD) s = Some (inr r, s1) ->
     trace h (__init__ project_dir base_branch) s =
       [(project_dir, rev_parse_abbrev_ref_HEAD)] /\
     (returncode r = 0%Z ->
        interp h (__init__ project_dir base_branch) s =
          Returned (mkSelf project_dir (str.strip (stdout r))) s1) /\
     (returncode r <> 0%Z ->
        interp h (__init__ project_dir base_branch) s =
          Raised (WorktreeError ("Failed to get current branch: " +:+ stderr r)) s1)).
Proof.
  split.
  - intros b -> Hb. unfold __init__.
    destruct (String.eqb_spec b "") as [E|E]; [done|]. done.
  - intros Hnone r s1 Hr.
    assert (__init__ project_dir base_branch =
            (b <- _get_current_branch project_dir ;; Ret (mkSelf project_dir b))) as ->.
    { by destruct Hnone as [-> | ->]. }
    unfold _get_current_branch, call. cbn [bind interp trace]. rewrite Hr.
    cbn [bind interp trace app].
    destruct (returncode r =? 0)%Z eqn:Hrc; cbn [negb bind interp trace app].
    + apply Z.eqb_eq in Hrc. split; [done|]. split; [done|]. intros Hn. by destruct Hn.
    + apply Z.eqb_neq in Hrc. split; [done|]. split; [|done]. intros Hn. by destruct Hrc.
Qed.

End AnyEnvironment.

Section InitTheorems.

Import pathlib subprocess Py GitModel WorktreeManager WorktreeManagerRest.
Import Summary SummaryRest.
Local Open Scope prog_scope.


End InitTheorems.

Section SetupThenCreate.

Import pathlib subprocess Py GitModel WorktreeManager WorktreeManagerRest.
Import Summary SummaryRest.
Local Open Scope prog_scope.

Variable trouble : gmap string Refusal.Trouble.
Variable self : Self.

Local Abbreviation runT := (Refusal.run trouble self).



End SetupThenCreate.

Section MoreConcreteRuns.

Import pathlib subprocess Py GitModel WorktreeManager WorktreeManagerRest.
Import Summary SummaryRest Examples MoreExamples.

Lemma plain_w : plain "w".
Proof. repeat split; discriminate || reflexivity. Qed.

Lemma plain_worker_1 : plain "worker-1".
Proof. repeat split; discriminate || reflexivity. Qed.

Lemma well_tracked_worker : well_tracked self0 (_active_worktrees s_worker).
Proof.
  intros kv Hin. cbn in Hin.
  apply elem_of_cons in Hin as [->|Hin]; [|by apply elem_of_nil in Hin].
  split; [exact plain_worker_1 | reflexivity].
Qed.

Lemma well_tracked_nothing (w : World) :
  well_tracked self0 (_active_worktrees (mkState [] false w)).
Proof. intros kv Hin. by apply elem_of_nil in Hin. Qed.

(** [merge_of_unknown_name_is_refused] for a name nobody created. *)
Lemma merge_of_unknown_name_is_refused_witness :
  run self0 (merge self0 "worker-9" true) s_worker = Returned false s_worker /\
  run self0 (merge_sync self0 "worker-9" true) s_worker = Returned false s_worker.
Proof.
  destruct (merge_of_unknown_name_is_refused self0 "worker-9" true s_worker)
    as (Hm & Hs & _); [reflexivity | discriminate |].
  split; assumption.
Defined.


(** [get_or_create_staging_keeps_work] from the fresh repository. *)
Lemma get_or_create_staging_keeps_work_witness :
  run self0 (get_or_create_staging self0 "test-spec") s_fresh =
    Returned staging_info s_staged /\
  run self0 (get_or_create_staging self0 "another-spec")
    (set_world (written STAGING_WORKTREE_NAME artifact readme (world s_staged)) s_staged) =
    Returned staging_info
      (set_world (written STAGING_WORKTREE_NAME artifact readme (world s_staged)) s_staged).
Proof.
  assert (run self0 (get_or_create_staging self0 "test-spec") s_fresh =
          Returned staging_info s_staged) as Hrun by (vm_compute; reflexivity).
  split; [exact Hrun|].
  apply (get_or_create_staging_keeps_work self0 "test-spec" "another-spec"
           s_fresh s_staged staging_info artifact readme Hrun).
  vm_compute; reflexivity.
Defined.

(** [remove_clears_disk_and_tracking] for the worker next to staging. *)
Lemma remove_clears_disk_and_tracking_witness :
  exists s',
    run self0 (remove self0 "worker-1" false) s_staging = Returned tt s' /\
    is_dir (entry (world s') "worker-1") = false /\
    branches (world s') = branches (world s_staging).
Proof.
  destruct (remove_clears_disk_and_tracking self0 "worker-1" false s_staging
              plain_worker_1 well_tracked_staging)
    as (s' & Hrun & Hd & _ & _ & _ & _ & _ & Hb).
  exists s'. split; [exact Hrun|]. split; [exact Hd | apply Hb; by left].
Defined.

(** [remove_twice_is_remove_once] for the worker. *)
Lemma remove_twice_is_remove_once_witness :
  run self0 (remove self0 "worker-1" true) s_worker = Returned tt s_worker_removed /\
  run self0 (remove self0 "worker-1" true) s_worker_removed =
    Returned tt s_worker_removed.
Proof.
  assert (run self0 (remove self0 "worker-1" true) s_worker =
          Returned tt s_worker_removed) as Hrun by (vm_compute; reflexivity).
  split; [exact Hrun|].
  exact (remove_twice_is_remove_once self0 "worker-1" true s_worker s_worker_removed
           plain_worker_1 well_tracked_worker Hrun).
Defined.




(** [sandbox_lookup_round_trip] for the directory a crashed run left: the
    manager does not track it, and [get_worktree_path] finds it. *)
Lemma sandbox_lookup_round_trip_witness :
  run self0 (get_info "w") s_leftover = Returned None s_leftover /\
  run self0 (get_worktree_path self0 "w") s_leftover =
    Returned (Some (div (worktrees_dir self0) "w")) s_leftover.
Proof.
  destruct (sandbox_lookup_round_trip self0 "w" s_leftover plain_w) as (_ & _ & H).
  apply H; [reflexivity | vm_compute; by eexists].
Defined.

Lemma can_checkout_restart : can_checkout (world s_restart) (base_branch self0).
Proof.
  split; [reflexivity|]. split; [vm_compute; eexists; reflexivity|]. by left.
Qed.

(** [get_test_commands_never_empty] for a Node project with a Go module. *)
Lemma get_test_commands_never_empty_witness :
  interp (listing node_and_go)
    (get_test_commands (div (worktrees_dir self0) STAGING_WORKTREE_NAME)) tt =
    Returned ["npm install && npm run dev"; "npm test"; "go run ."; "go test ./..."] tt.
Proof.
  destruct (get_test_commands_never_empty (listing node_and_go)
              (div (worktrees_dir self0) STAGING_WORKTREE_NAME)
              tt tt tt tt tt true false false true)
    as (l & Hrun & _ & _ & ->); [vm_compute; reflexivity ..|].
  exact Hrun.
Defined.

End MoreConcreteRuns.

Section MergeRuns.

Import pathlib subprocess Py GitModel WorktreeManager WorktreeManagerRest.
Import Summary SummaryRest Examples MoreExamples.

(** [merge_staging_finds_untracked_staging] after a restart. *)
Lemma merge_staging_finds_untracked_staging_witness :
  merge3 readme readme feature = Some feature /\
  exists s',
    run self0 (merge_staging self0 true) s_restart = Returned true s' /\
    (exists br, branches (world s') !! "main" = Some br /\ tip br = feature) /\
    is_dir (entry (world s') STAGING_WORKTREE_NAME) = false.
Proof.
  assert (merge3 readme readme feature = Some feature) as Hm
    by (vm_compute; reflexivity).
  split; [exact Hm|].
  assert (dict_get STAGING_WORKTREE_NAME (_active_worktrees s_restart) = None) as H1
    by reflexivity.
  assert (entry (world s_restart) STAGING_WORKTREE_NAME = Some (Dir feature feature)) as H2
    by (vm_compute; reflexivity).
  assert (registered (world s_restart) !! STAGING_WORKTREE_NAME = Some staging_branch) as H3
    by (vm_compute; reflexivity).
  assert (str.strip staging_branch = staging_branch) as H4 by (vm_compute; reflexivity).
  assert (staging_branch <> base_branch self0) as H5 by discriminate.
  assert (branches (world s_restart) !! base_branch self0 = Some (mkBranch readme readme)) as H6
    by (vm_compute; reflexivity).
  assert (branches (world s_restart) !! staging_branch = Some (mkBranch feature readme)) as H7
    by (vm_compute; reflexivity).
  destruct (merge_staging_finds_untracked_staging self0 true s_restart
              feature feature staging_branch
              (mkBranch readme readme) (mkBranch feature readme)
              H1 (well_tracked_nothing _) H2 H3 H4 H5 can_checkout_restart H6 H7)
    as [Hclean _].
  destruct (Hclean feature Hm) as (s' & Hrun & Hb & Hdel & _).
  exists s'. split; [exact Hrun|]. split; [exact Hb|].
  destruct (Hdel eq_refl) as [Hd _]. exact Hd.
Defined.

End MergeRuns.

Section SetupRuns.

Import pathlib subprocess Py GitModel WorktreeManager WorktreeManagerRest.
Import Summary SummaryRest Examples MoreExamples.


End SetupRuns.
